(** * File ingestion and analysis pipeline (src/app/api/file-process/route.ts)

    A shallow embedding of the route handler: the format dispatcher
    [FileProcessor], the serializer / chunker and per-metric driver of
    [AnalyticsGenerator], and the batch loop of [processRequest].

    Modelling conventions.
    - A JavaScript string is a [string]: a sequence of UTF-16 code units, here
      restricted to the code units below 256.  Lengths and indices are [nat].
    - A JavaScript value of type [any] is a [value] (below); objects are
      association lists in property order.
    - A computation that may throw returns a [result]; an [async] function that
      talks to the generative service additionally writes the calls it makes
      and the back-off delays it waits for to a log (the monad [M]).
    - External collaborators are parameters: the JSON built-ins ([JSON]), the
      spreadsheet, CSV and PDF libraries ([Libraries]), the generative service
      ([Model]), the clock and the timers ([Environment], or a boolean telling
      whether a timer fires first).
    - Console output is not modelled, nor is the outer 58 s guard of [POST]. *)

From Stdlib Require Import String Ascii List Arith Lia ZArith Bool.
From Stdlib Require Import DecimalString.
Import ListNotations.
Open Scope list_scope.
Open Scope string_scope.
Open Scope nat_scope.
Set Warnings "-abstract-large-number".

(* ===================================================================== *)
(** ** JavaScript strings *)
(* ===================================================================== *)

Module JsString.

(** The first [n] code units of [s]. *)
Fixpoint take (n : nat) (s : string) : string :=
  match n, s with
  | S n', String c r => String c (take n' r)
  | _, _ => EmptyString
  end.

(** [s] without its first [n] code units. *)
Fixpoint drop (n : nat) (s : string) : string :=
  match n, s with
  | S n', String _ r => drop n' r
  | _, _ => s
  end.

(** [String.prototype.slice(from, to)] for non-negative integer bounds:
    both bounds are clamped to the length, and the result is empty when
    [to <= from]. *)
Definition slice (s : string) (from to : nat) : string :=
  take (to - from) (drop from s).

(** [Array.prototype.join]. *)
Definition join (sep : string) (parts : list string) : string :=
  String.concat sep parts.

Definition nl : string := String "010"%char EmptyString.
Definition dq : string := String "034"%char EmptyString.

(** [s] between double quotes. *)
Definition quoted (s : string) : string := dq ++ s ++ dq.

(** [Some rest] when [s = p ++ rest]. *)
Fixpoint strip_prefix (p s : string) : option string :=
  match p, s with
  | EmptyString, _ => Some s
  | String a p', String c s' =>
      if Ascii.eqb a c then strip_prefix p' s' else None
  | String _ _, EmptyString => None
  end.

(** The class [\s] of regular expressions and the characters removed by
    [String.prototype.trim], among the code units below 256:
    TAB, LF, VT, FF, CR, SPACE and NBSP. *)
Definition is_space (c : ascii) : bool :=
  let n := nat_of_ascii c in
  ((9 <=? n) && (n <=? 13)) || (n =? 32) || (n =? 160).

Fixpoint all_space (s : string) : bool :=
  match s with
  | EmptyString => true
  | String c r => is_space c && all_space r
  end.

Fixpoint drop_spaces (s : string) : string :=
  match s with
  | String c r => if is_space c then drop_spaces r else s
  | EmptyString => EmptyString
  end.

(** Removes the white space at the end of [s]. *)
Fixpoint trim_end (s : string) : string :=
  match s with
  | EmptyString => EmptyString
  | String c r => if all_space s then EmptyString else String c (trim_end r)
  end.

(** [String.prototype.trim]. *)
Definition trim (s : string) : string := trim_end (drop_spaces s).

(** [String.prototype.toLowerCase] on one code unit below 256: the letters
    A-Z and the Latin-1 capitals U+00C0-U+00DE (U+00D7 excepted) move up
    by 32. *)
Definition lower_char (c : ascii) : ascii :=
  let n := nat_of_ascii c in
  if ((65 <=? n) && (n <=? 90))
     || ((192 <=? n) && (n <=? 222) && negb (n =? 215))
  then ascii_of_nat (n + 32) else c.

Fixpoint toLowerCase (s : string) : string :=
  match s with
  | EmptyString => EmptyString
  | String c r => String (lower_char c) (toLowerCase r)
  end.

(** [String.prototype.split(sep)] for a one-character separator; [cur] is
    the segment being read. *)
Fixpoint split_from (sep : ascii) (s cur : string) : list string :=
  match s with
  | EmptyString => [cur]
  | String c r =>
      if Ascii.eqb c sep then cur :: split_from sep r EmptyString
      else split_from sep r (cur ++ String c EmptyString)
  end.

Definition split (sep : ascii) (s : string) : list string :=
  split_from sep s EmptyString.

(** The decimal numeral of [n], as in [String(n)]. *)
Definition string_of_nat (n : nat) : string :=
  NilEmpty.string_of_uint (Nat.to_uint n).

End JsString.
Import JsString.

(** [Array.prototype.pop]: the last element, [None] (undefined) on []. *)
Definition pop {A : Type} (l : list A) : option A :=
  match rev l with
  | x :: _ => Some x
  | [] => None
  end.

(* ===================================================================== *)
(** ** JavaScript values, exceptions, results *)
(* ===================================================================== *)

(** Values of type [any].  Numbers are the integers; objects list their own
    properties in the order in which they are enumerated (JavaScript puts
    integer-like keys first; no statement below depends on that order).  The
    properties a value inherits from its prototype ([toString],
    [constructor], ...) are not part of the model. *)
#[local] Unset Elimination Schemes.
Inductive value : Type :=
| JUndefined
| JNull
| JBool (b : bool)
| JNum (n : Z)
| JStr (s : string)
| JArr (items : list value)
| JObj (fields : list (string * value)).
#[local] Set Elimination Schemes.

(** [typeof v] *)
Definition typeof (v : value) : string :=
  match v with
  | JUndefined => "undefined"
  | JNull => "object"
  | JBool _ => "boolean"
  | JNum _ => "number"
  | JStr _ => "string"
  | JArr _ => "object"
  | JObj _ => "object"
  end.

(** ToBoolean *)
Definition truthy (v : value) : bool :=
  match v with
  | JUndefined | JNull | JBool false | JStr EmptyString => false
  | JNum n => negb (n =? 0)%Z
  | _ => true
  end.

(** [v === null || v === undefined] *)
Definition is_nullish (v : value) : bool :=
  match v with
  | JUndefined | JNull => true
  | _ => false
  end.

(** Property lookup in an object's own properties. *)
Fixpoint obj_get (fields : list (string * value)) (key : string) : option value :=
  match fields with
  | [] => None
  | (k, v) :: rest => if String.eqb k key then Some v else obj_get rest key
  end.

(** [obj[key] = v]: overwrites in place, or adds the property at the end. *)
Fixpoint obj_set (fields : list (string * value)) (key : string) (v : value)
    : list (string * value) :=
  match fields with
  | [] => [(key, v)]
  | (k, w) :: rest =>
      if String.eqb k key then (k, v) :: rest else (k, w) :: obj_set rest key v
  end.

(** [Object.fromEntries(entries)] *)
Definition fromEntries (entries : list (string * value)) : value :=
  JObj (fold_left (fun o kv => obj_set o (fst kv) (snd kv)) entries []).

(** The index an array-index property name stands for, below [len]. *)
Definition index_of_key (key : string) (len : nat) : option nat :=
  find (fun i => String.eqb (string_of_nat i) key) (seq 0 len).

(** [v[key]] for a [v] that is neither null nor undefined (own properties
    only; a missing property reads as undefined). *)
Definition get_prop (v : value) (key : string) : value :=
  match v with
  | JObj fields =>
      match obj_get fields key with Some w => w | None => JUndefined end
  | JArr items =>
      if String.eqb key "length" then JNum (Z.of_nat (List.length items))
      else match index_of_key key (List.length items) with
           | Some i => nth i items JUndefined
           | None => JUndefined
           end
  | JStr s =>
      if String.eqb key "length" then JNum (Z.of_nat (String.length s))
      else match index_of_key key (String.length s) with
           | Some i => JStr (slice s i (i + 1))
           | None => JUndefined
           end
  | _ => JUndefined
  end.

(** What [throw] throws: an [Error] instance with its message, or any other
    value. *)
Inductive exn : Type :=
| JsError (message : string)
| NonError.

(** [error instanceof Error ? error.message : 'Unknown error'] *)
Definition error_message (e : exn) : string :=
  match e with
  | JsError m => m
  | NonError => "Unknown error"
  end.

(** The TypeError of reading property [prop] of [base], which is null or
    undefined. *)
Definition TypeError (base prop : string) : exn :=
  JsError ("Cannot read properties of " ++ base ++ " (reading '" ++ prop ++ "')").

Inductive result (A : Type) : Type :=
| Ok (a : A)
| Throw (e : exn).
Arguments Ok {A} a.
Arguments Throw {A} e.

Definition bindR {A B : Type} (m : result A) (k : A -> result B) : result B :=
  match m with
  | Ok a => k a
  | Throw e => Throw e
  end.

(** [try { m } catch (error) { handler error }] *)
Definition catchR {A : Type} (m : result A) (handler : exn -> result A) : result A :=
  match m with
  | Ok a => Ok a
  | Throw e => handler e
  end.

Notation "'let*' x ':=' m 'in' k" := (bindR m (fun x => k))
  (at level 10, x name, m at level 100, k at level 200).

(* ===================================================================== *)
(** ** The asynchronous layer: results with a log of service calls *)
(* ===================================================================== *)

(** ['primary' | 'deep'] *)
Inductive tier : Type := Primary | Deep.

Definition tier_name (t : tier) : string :=
  match t with Primary => "primary" | Deep => "deep" end.

(** What is observable from outside a run: a request sent to the generative
    service (for which tier and metric, and in which attempt of the driver's
    loop), and a back-off delay. *)
Inductive event : Type :=
| Generate (t : tier) (metric : string) (attempt : nat)
| Backoff (ms : nat).

Definition M (A : Type) : Type := result A * list event.

Definition ret {A : Type} (a : A) : M A := (Ok a, []).
Definition throw {A : Type} (e : exn) : M A := (Throw e, []).
Definition emit (ev : event) : M unit := (Ok tt, [ev]).
Definition liftR {A : Type} (r : result A) : M A := (r, []).

Definition bind {A B : Type} (m : M A) (k : A -> M B) : M B :=
  match m with
  | (Ok a, log) => let (r, log') := k a in (r, (log ++ log')%list)
  | (Throw e, log) => (Throw e, log)
  end.

(** [try { await m } catch (error) { handler error }] *)
Definition try_catch {A : Type} (m : M A) (handler : exn -> M A) : M A :=
  match m with
  | (Ok a, log) => (Ok a, log)
  | (Throw e, log) => let (r, log') := handler e in (r, (log ++ log')%list)
  end.

Notation "x <- m ;; k" := (bind m (fun x => k))
  (at level 61, m at next level, right associativity).
Notation "m ;;; k" := (bind m (fun _ => k))
  (at level 61, right associativity).

(** [Promise.all(ps)]: every promise of the list has been started and runs to
    its end (a rejected sibling cancels nothing); the result is the list of
    values when all resolve and a rejection otherwise.  The calls are logged
    in list order and the rejection reported is that of the first rejected
    element of the list: which one rejects first in real time is not
    modelled (no caller in this file looks at it). *)
Fixpoint Promise_all {A : Type} (ps : list (M A)) : M (list A) :=
  match ps with
  | [] => ret []
  | p :: rest =>
      let (rs, log') := Promise_all rest in
      match p with
      | (Ok a, log) =>
          (match rs with Ok l => Ok (a :: l) | Throw e => Throw e end, (log ++ log')%list)
      | (Throw e, log) => (Throw e, (log ++ log')%list)
      end
  end.

(** [Promise.race([p, timer])] where the timer rejects with [new Error(msg)]:
    [fires] tells whether the timer settles first.  The loser is abandoned,
    not cancelled, so the calls of [p] are made in both cases. *)
Definition race_timeout {A : Type} (p : M A) (fires : bool) (msg : string) : M A :=
  if fires then (Throw (JsError msg), snd p) else p.

(* ===================================================================== *)
(** ** Chunking and truncation (AnalyticsGenerator) *)
(* ===================================================================== *)

(** [private readonly maxChunkSize: number = 25000] *)
Definition maxChunkSize : nat := 25000.

(** The loop of [splitIntoChunks]:
    [for (let i = 0; i < text.length; i += size) chunks.push(text.slice(i, i + size))].
    [fuel] bounds the number of iterations; [None] means the bound was hit. *)
Fixpoint splitIntoChunks_loop (fuel : nat) (text : string) (size i : nat)
    (chunks : list string) : option (list string) :=
  if i <? String.length text then
    match fuel with
    | O => None
    | S fuel' =>
        splitIntoChunks_loop fuel' text size (i + size)
          (chunks ++ [slice text i (i + size)])%list
    end
  else Some chunks.

(** [splitIntoChunks(text, size)].  The loop runs at most [text.length] times
    when [size > 0]; with [size = 0] and a non-empty [text] the JavaScript loop
    never ends, which is the only case in which this returns [None]. *)
Definition splitIntoChunks (text : string) (size : nat) : option (list string) :=
  splitIntoChunks_loop (String.length text) text size 0 [].

(** [truncateData(data)]:
    [data.length > this.maxChunkSize ? data.slice(0, this.maxChunkSize) + '...' : data] *)
Definition truncateData (data : string) : string :=
  if maxChunkSize <? String.length data
  then slice data 0 maxChunkSize ++ "..."
  else data.

(** [cleanData(data)].  [Object.entries] of an array lists its elements under
    the keys "0", "1", ...; [cleaned] always starts as the plain object [{}]. *)
Fixpoint cleanData (data : value) : value :=
  match data with
  | JObj fields =>
      JObj ((fix entries (es : list (string * value)) (cleaned : list (string * value)) :=
               match es with
               | [] => cleaned
               | (key, v) :: es' =>
                   entries es'
                     (if is_nullish v then cleaned
                      else obj_set cleaned key
                             (if String.eqb (typeof v) "object" then cleanData v else v))
               end) fields [])
  | JArr items =>
      JObj ((fix entries (vs : list value) (i : nat) (cleaned : list (string * value)) :=
               match vs with
               | [] => cleaned
               | v :: vs' =>
                   entries vs' (S i)
                     (if is_nullish v then cleaned
                      else obj_set cleaned (string_of_nat i)
                             (if String.eqb (typeof v) "object" then cleanData v else v))
               end) items 0 [])
  | _ => data
  end.

(** [Object.entries(data)] for an array or an object. *)
Definition Object_entries (data : value) : list (string * value) :=
  match data with
  | JObj fields => fields
  | JArr items => combine (map string_of_nat (seq 0 (List.length items))) items
  | _ => []
  end.

(** The body of the loop of [cleanData], one entry at a time. *)
Definition clean_entry (cleaned : list (string * value)) (kv : string * value)
    : list (string * value) :=
  if is_nullish (snd kv) then cleaned
  else obj_set cleaned (fst kv)
         (if String.eqb (typeof (snd kv)) "object" then cleanData (snd kv) else snd kv).

(** The JSON built-ins. *)
Record JSON : Type := {
  (** [JSON.parse(text)]; throws a SyntaxError on a text that is not JSON. *)
  JSON_parse : string -> result value;
  (** [JSON.stringify(v)]; [None] is the [undefined] it returns for a value
      that has no JSON text. *)
  JSON_stringify : value -> option string
}.

Section Serializer.
Variable JSON_ : JSON.

(** [formatData(data)] *)
Definition formatData (data : value) : option string :=
  match data with
  | JArr items => JSON_stringify JSON_ (JArr (map cleanData items))
  | _ => JSON_stringify JSON_ (cleanData data)
  end.

(** [processLargeData(data)].  In the [try] block [text.length] throws when
    [formatData] gave undefined; [chunks[0]] is undefined on an empty list of
    chunks.  In the [catch] block [data.type] throws when [data] is null or
    undefined, and the promise is then rejected. *)
Definition processLargeData (data : value) : result (option string) :=
  catchR
    (match formatData data with
     | None => Throw (TypeError "undefined" "length")
     | Some formattedData =>
         match splitIntoChunks formattedData maxChunkSize with
         | Some chunks => Ok (hd_error chunks)
         | None => Ok None (* not reached: the chunk size is positive *)
         end
     end)
    (fun _ =>
       if is_nullish data
       then Throw (TypeError (match data with JNull => "null" | _ => "undefined" end) "type")
       else Ok (JSON_stringify JSON_
                  (JObj [("error", JStr "Data processing failed");
                         ("type", get_prop data "type");
                         ("filename", get_prop data "filename")]))).

End Serializer.

(** [buildPrompt(data, sectionKey, metrics)]; [metrics[0]] prints as
    "undefined" on an empty list. *)
Definition buildPrompt (data sectionKey : string) (metrics : list string) : string :=
  join nl
    [ "Analyze this " ++ sectionKey ++ " data and provide insights. Return ONLY a JSON object without any markdown formatting or code blocks.";
      "";
      "Data: " ++ data;
      "";
      "Required Metrics: " ++ join ", " metrics;
      "";
      "Response must be a valid JSON object with this exact structure (no additional formatting):";
      "{";
      "  " ++ quoted "analysis" ++ ": {";
      "    " ++ quoted (hd "undefined" metrics) ++ ": {";
      "      " ++ quoted "summary" ++ ": " ++ quoted "detailed findings" ++ ",";
      "      " ++ quoted "key_points" ++ ": [" ++ quoted "point 1" ++ ", " ++ quoted "point 2" ++ "],";
      "      " ++ quoted "metrics" ++ ": {" ++ quoted "metric1" ++ ": " ++ quoted "value1" ++ "},";
      "      " ++ quoted "recommendations" ++ ": [" ++ quoted "rec 1" ++ ", " ++ quoted "rec 2" ++ "]";
      "    }";
      "  },";
      "  " ++ quoted "overall_summary" ++ ": " ++ quoted "overview" ++ ",";
      "  " ++ quoted "confidence_score" ++ ": 0.95";
      "}" ].

(** *** Response sanitizing *)

Definition fence : string := "```".
Definition fence_json : string := "```json".

(** One match of [/```json\n?|\n?```/] at the start of [s]: what follows the
    match.  The alternatives are tried in order and [\n?] is greedy. *)
Definition fence_match (s : string) : option string :=
  match strip_prefix fence_json s with
  | Some r =>
      match strip_prefix nl r with
      | Some r' => Some r'
      | None => Some r
      end
  | None =>
      match strip_prefix (nl ++ fence) s with
      | Some r => Some r
      | None => strip_prefix fence s
      end
  end.

(** [text.replace(/```json\n?|\n?```/g, '')]: the matches are found from left
    to right, each one starting where the one before ended. *)
Fixpoint removeFences_from (fuel : nat) (s : string) : string :=
  match fuel with
  | O => s
  | S fuel' =>
      match fence_match s with
      | Some r => removeFences_from fuel' r
      | None =>
          match s with
          | EmptyString => EmptyString
          | String c r => String c (removeFences_from fuel' r)
          end
      end
  end.

Definition removeFences (text : string) : string :=
  removeFences_from (String.length text) text.

(** [.replace(/^[\s\n]*{/, '{')] *)
Definition trimOpen (s : string) : string :=
  match strip_prefix "{" (drop_spaces s) with
  | Some _ => drop_spaces s
  | None => s
  end.

(** [.replace(/}[\s\n]*$/, '}')]: the leftmost brace after which only white
    space follows up to the end of the text. *)
Fixpoint trimClose (s : string) : string :=
  match s with
  | EmptyString => EmptyString
  | String c r =>
      if Ascii.eqb c "}"%char && all_space r then "}"
      else String c (trimClose r)
  end.

(** The two [replace] steps of [safeParseResponse]. *)
Definition cleanText (text : string) : string :=
  trimClose (trimOpen (removeFences text)).

(** The object [safeParseResponse] returns from its [catch] block. *)
Definition degradedPayload : value :=
  JObj [("analysis",
         JObj [("default",
                JObj [("summary", JStr "Analysis pending");
                      ("key_points", JArr []);
                      ("metrics", JObj []);
                      ("recommendations", JArr [])])]);
        ("overall_summary", JStr "Analysis pending");
        ("confidence_score", JNum 0)].

(** [safeParseResponse(text)] *)
Definition safeParseResponse (JSON_ : JSON) (text : string) : result value :=
  catchR
    (let* parsed := JSON_parse JSON_ (cleanText text) in
     if negb (truthy parsed) || negb (String.eqb (typeof parsed) "object")
     then Throw (JsError "Invalid response structure")
     else Ok parsed)
    (fun _ => Ok degradedPayload).

(** *** Fallbacks *)

(** [getFallbackMetric(metric)] *)
Definition getFallbackMetric (metric : string) : value :=
  JObj [("summary", JStr ("Analysis pending for " ++ metric));
        ("key_points", JArr [JStr ("Unable to analyze " ++ metric)]);
        ("metrics", JObj []);
        ("recommendations", JArr [JStr ("Retry analysis for " ++ metric)])].

(** [section.subsections]: the code reads [deep] with [?.] in one place, so it
    may be absent. *)
Record Subsections : Type := {
  primary : list string;
  deep : option (list string)
}.

Record AnalysisSection : Type := {
  title : string;
  subsections : Subsections
}.

(** [getFallbackResponse(section)]; [section.subsections.deep.map] throws on
    an absent [deep]. *)
Definition getFallbackResponse (section : AnalysisSection) : result value :=
  let primary_ :=
    fromEntries
      (map (fun key => (key, JStr ("Analysis pending for " ++ key)))
           (primary (subsections section))) in
  match deep (subsections section) with
  | None => Throw (TypeError "undefined" "map")
  | Some deep_ =>
      Ok (JObj [("primary", primary_);
                ("deep_metrics",
                 fromEntries
                   (map (fun key => (key, JStr ("Deep analysis pending for " ++ key)))
                        deep_))])
  end.

(** *** The generative service and the per-metric driver *)

(** How one [generateContent] request ends, as seen through
    [response.response.text()] and the race against the 10 s timer. *)
Inductive reply : Type :=
| Resolves (text : string)
| Rejects (e : exn)
| Pending.

(** A model client.  Its answer depends on the prompt and on the attempt of
    the driver's loop in which the request is sent (which stands for whatever
    changes in the service between two attempts). *)
Definition Model : Type := string -> nat -> reply.

(** The fields of [AnalyticsGenerator]. *)
Record AnalyticsGenerator : Type := {
  model : option Model;
  data : value
}.

(** [new AnalyticsGenerator()] *)
Definition new_AnalyticsGenerator : AnalyticsGenerator :=
  {| model := None; data := JNull |}.

(** [setModel(model)] *)
Definition setModel (self : AnalyticsGenerator) (model_ : option Model)
    : result AnalyticsGenerator :=
  match model_ with
  | None => Throw (JsError "Invalid model provided")
  | Some m => Ok {| model := Some m; data := data self |}
  end.

(** [validateModel()] *)
Definition validateModel (self : AnalyticsGenerator) : result unit :=
  match model self with
  | None => Throw (JsError "Model not initialized. Call setModel() first.")
  | Some _ => Ok tt
  end.

(** [Promise.race([this.model.generateContent(...), timer])] followed by
    [response.response.text()]. *)
Definition generateContent (self : AnalyticsGenerator) (type : tier)
    (metric : string) (attempt : nat) (prompt : string) : M string :=
  match model self with
  | None => throw (TypeError "null" "generateContent")
  | Some service =>
      emit (Generate type metric attempt) ;;;
      match service prompt attempt with
      | Resolves text => ret text
      | Rejects e => throw e
      | Pending => throw (JsError "Generation timeout")
      end
  end.

(** [this.data = data] *)
Definition storeData (self : AnalyticsGenerator) (data_ : value) : AnalyticsGenerator :=
  {| model := model self; data := data_ |}.

Section Driver.
Variable JSON_ : JSON.

(** The [try] block of [processMetric]: [Some v] when it returns [v] from
    the function, [None] when control falls out of the block. *)
Definition attemptMetric (self : AnalyticsGenerator) (metric : string)
    (type : tier) (attempt : nat) : M (option value) :=
  data_ <- liftR (processLargeData JSON_ (data self)) ;;
  truncated <- liftR (match data_ with
                      | None => Throw (TypeError "undefined" "length")
                      | Some d => Ok (truncateData d)
                      end) ;;
  let prompt := buildPrompt truncated (tier_name type) [metric] in
  text <- generateContent self type metric attempt prompt ;;
  result_ <- liftR (safeParseResponse JSON_ text) ;;
  let analysis := get_prop result_ "analysis" in
  let entry := if is_nullish analysis then JUndefined else get_prop analysis metric in
  ret (if truthy entry then Some entry else None).

(** The [for] loop of [processMetric] from [attempt] on, [remaining] being
    [retries - attempt]. *)
Fixpoint processMetric_from (self : AnalyticsGenerator) (metric : string)
    (type : tier) (retries remaining attempt : nat) : M value :=
  match remaining with
  | O => ret (getFallbackMetric metric)
  | S remaining' =>
      returned <-
        try_catch (attemptMetric self metric type attempt)
          (fun error =>
             if attempt =? retries - 1 then throw error
             else emit (Backoff 1000) ;;; ret None) ;;
      match returned with
      | Some v => ret v
      | None => processMetric_from self metric type retries remaining' (S attempt)
      end
  end.

(** [processMetric(metric, type, retries)] *)
Definition processMetric (self : AnalyticsGenerator) (metric : string)
    (type : tier) (retries : nat) : M value :=
  processMetric_from self metric type retries retries 0.

(** [section.subsections.X.map(metric => this.processMetric(metric, type, n)
      .then(result => [metric, result]))] *)
Definition metricPromises (self : AnalyticsGenerator) (type : tier)
    (retries : nat) (metrics : list string) : list (M (string * value)) :=
  map (fun metric =>
         result_ <- processMetric self metric type retries ;;
         ret (metric, result_))
      metrics.

(** The deep tier of [generateAnalytics]; [timerFires] tells whether the
    15 s timer settles before [deepPromise]. *)
Definition deepTier (self : AnalyticsGenerator) (section : AnalysisSection)
    (timerFires : bool) : M (list (string * value)) :=
  match deep (subsections section) with
  | Some deep_ =>
      if 0 <? List.length deep_ then
        try_catch
          (race_timeout (Promise_all (metricPromises self Deep 1 deep_))
             timerFires "Deep analysis timeout")
          (fun _ => ret (map (fun metric => (metric, getFallbackMetric metric)) deep_))
      else ret []
  | None => ret []
  end.

(** [generateAnalytics(data, section, filename)] *)
Definition generateAnalytics (self : AnalyticsGenerator) (data_ : value)
    (section : AnalysisSection) (filename : string) (timerFires : bool)
    : M value :=
  try_catch
    (liftR (validateModel self) ;;;
     let self := storeData self data_ in
     processedData <- liftR (processLargeData JSON_ data_) ;;
     primaryResults <-
       Promise_all (metricPromises self Primary 2 (primary (subsections section))) ;;
     deepResults <- deepTier self section timerFires ;;
     ret (JObj [("primary", fromEntries primaryResults);
                ("deep", fromEntries deepResults)]))
    (fun _ => liftR (getFallbackResponse section)).

End Driver.

(* ===================================================================== *)
(** ** FileProcessor *)
(* ===================================================================== *)

Definition Buffer : Type := list Byte.byte.

(** A text-drawing operator of a PDF page. *)
Record Operator : Type := {
  operator : string;
  args : list value
}.

(** A page of a loaded PDF document: how [page.getSize()] ends (the size
    itself is not used) and what [page.getOperators()] gives. *)
Record Page : Type := {
  getSize : result unit;
  getOperators : result (list Operator)
}.

(** A workbook: [SheetNames], and [Sheets] as the object it is. *)
Record WorkBook : Type := {
  SheetNames : list string;
  Sheets : list (string * value)
}.

(** The parsing libraries. *)
Record Libraries : Type := {
  (** [XLSX.read(buffer, { type: 'buffer' })] *)
  XLSX_read : Buffer -> result WorkBook;
  (** [XLSX.utils.sheet_to_json(sheet, {...})] with the options of the code *)
  XLSX_utils_sheet_to_json : value -> result (list value);
  (** [buffer.toString('utf-8')] *)
  Buffer_toString : Buffer -> string;
  (** [parse(content, { columns: true, skip_empty_lines: true, trim: true })] *)
  csv_parse : string -> result (list value);
  (** [PDFDocument.load(buffer)] followed by [getPages()] *)
  PDFDocument_load : Buffer -> result (list Page)
}.

(** The texts one operator adds to [textContent] in [extractTextFromPage]. *)
Definition operatorText (op : Operator) : list string :=
  if String.eqb (operator op) "Tj" || String.eqb (operator op) "TJ" then
    let text :=
      match nth 0 (args op) JUndefined with
      | JArr items =>
          JStr (join "" (map (fun item => match item with JStr s => s | _ => "" end) items))
      | arg => arg
      end in
    if truthy text && String.eqb (typeof text) "string"
    then match text with JStr s => [s] | _ => [] end
    else []
  else [].

(** [extractTextFromPage(page)] *)
Definition extractTextFromPage (page : Page) : result string :=
  catchR
    (let* _ := getSize page in
     let* operators := getOperators page in
     Ok (join " " (flat_map operatorText operators)))
    (fun _ => Ok "").

Section FileProcessor.
Variable lib : Libraries.

(** [processExcel(buffer, filename)] *)
Definition processExcel (buffer : Buffer) (filename : string) : result value :=
  catchR
    (let* workbook := XLSX_read lib buffer in
     let* result_ :=
       fold_left
         (fun acc sheetName =>
            let* result_ := acc in
            let sheet := get_prop (JObj (Sheets workbook)) sheetName in
            let* rows := XLSX_utils_sheet_to_json lib sheet in
            Ok (obj_set result_ sheetName (JArr rows)))
         (SheetNames workbook) (Ok []) in
     Ok (JObj [("type", JStr "excel");
               ("filename", JStr filename);
               ("sheets", JObj result_);
               ("sheetNames", JArr (map JStr (SheetNames workbook)))]))
    (fun error =>
       Throw (JsError ("Failed to process Excel file: " ++ error_message error))).

(** [processCSV(buffer, filename)] *)
Definition processCSV (buffer : Buffer) (filename : string) : result value :=
  catchR
    (let content := Buffer_toString lib buffer in
     let* records := csv_parse lib content in
     Ok (JObj [("type", JStr "csv");
               ("filename", JStr filename);
               ("data", JArr records)]))
    (fun error =>
       Throw (JsError ("Failed to process CSV file: " ++ error_message error))).

(** [processPDF(buffer, filename)] *)
Definition processPDF (buffer : Buffer) (filename : string) : result value :=
  catchR
    (let* pages := PDFDocument_load lib buffer in
     let* textContent :=
       fold_left
         (fun acc page =>
            let* textContent := acc in
            let* _ := getSize page in
            let* text := extractTextFromPage page in
            Ok (if String.eqb (trim text) "" then textContent
                else (textContent ++ [text])%list))
         pages (Ok []) in
     Ok (JObj [("type", JStr "pdf");
               ("filename", JStr filename);
               ("content", JStr (trim (join nl textContent)));
               ("pageCount", JNum (Z.of_nat (List.length pages)));
               ("summary",
                JStr (if 0 <? List.length textContent
                      then "Text extracted successfully"
                      else "No text content found"))]))
    (fun error =>
       Throw (JsError ("PDF processing failed: " ++ error_message error))).

(** [filename.split('.').pop()?.toLowerCase()] *)
Definition extension (filename : string) : option string :=
  option_map toLowerCase (pop (split "."%char filename)).

(** [processFile(filename, buffer)] *)
Definition processFile (filename : string) (buffer : Buffer) : result value :=
  match extension filename with
  | Some ext =>
      if String.eqb ext "xlsx" || String.eqb ext "xls" then processExcel buffer filename
      else if String.eqb ext "csv" then processCSV buffer filename
      else if String.eqb ext "pdf" then processPDF buffer filename
      else Throw (JsError ("Unsupported file type: " ++ ext))
  | None => Throw (JsError "Unsupported file type: undefined")
  end.

End FileProcessor.

(* ===================================================================== *)
(** ** The batch loop *)
(* ===================================================================== *)

(** An uploaded [File]. *)
Record File : Type := {
  name : string;
  size : N;
  arrayBuffer : Buffer
}.

(** Everything [processRequest] reaches outside the module. *)
Record Environment : Type := {
  json : JSON;
  libraries : Libraries;
  (** [genAI.getGenerativeModel({ model: "gemini-pro", ... })] *)
  getGenerativeModel : Model;
  (** whether the 15 s timer of the deep tier fires first, per file name *)
  deepTimerFires : string -> bool;
  (** [new Date().toISOString()] *)
  toISOString : string
}.

(** [NextResponse.json(body, { status })] *)
Record Response : Type := {
  status : nat;
  body : value
}.

(** The section [processRequest] builds for every file. *)
Definition fileSection : AnalysisSection :=
  {| title := "File Analysis";
     subsections :=
       {| primary := ["Data Overview"; "Key Metrics"];
          deep := Some ["Statistical Analysis"; "Data Distribution"] |} |}.

(** [for (const x of xs) { state = step state x }] in [M]. *)
Fixpoint forEach {A S : Type} (step : S -> A -> M S) (xs : list A) (s : S) : M S :=
  match xs with
  | [] => ret s
  | x :: rest => s' <- step s x ;; forEach step rest s'
  end.

Section Batch.
Variable env : Environment.

(** The body of the loop over the files, on the pair [(results, errors)]. *)
Definition processOne (acc : list value * list value) (file : File)
    : M (list value * list value) :=
  let (results, errors) := acc in
  try_catch
    (let buffer := arrayBuffer file in
     processedData <- liftR (processFile (libraries env) (name file) buffer) ;;
     analyticsGenerator <-
       liftR (setModel new_AnalyticsGenerator (Some (getGenerativeModel env))) ;;
     analytics <-
       generateAnalytics (json env) analyticsGenerator processedData fileSection
         (name file) (deepTimerFires env (name file)) ;;
     ret ((results ++ [JObj [("filename", JStr (name file));
                             ("processedData", processedData);
                             ("analytics", analytics);
                             ("timestamp", JStr (toISOString env))]])%list,
          errors))
    (fun error =>
       ret (results,
            (errors ++ [JObj [("filename", JStr (name file));
                              ("error", JStr (error_message error))]])%list)).

(** [processRequest(request)], from the list of uploaded files on. *)
Definition processRequest (files : list File) : M Response :=
  if List.length files =? 0 then
    ret {| status := 400;
           body := JObj [("success", JBool false);
                         ("error", JStr "No files provided")] |}
  else if existsb (fun file => (50 * 1024 * 1024 <? size file)%N) files then
    ret {| status := 400;
           body := JObj [("success", JBool false);
                         ("error", JStr "File size exceeds 50MB limit")] |}
  else
    acc <- forEach processOne files ([], []) ;;
    let (results, errors) := acc in
    ret {| status := 200;
           body := JObj [("success", JBool true);
                         ("results", JArr results);
                         ("errors", JArr errors);
                         ("totalFiles", JNum (Z.of_nat (List.length files)));
                         ("successfulFiles", JNum (Z.of_nat (List.length results)));
                         ("failedFiles", JNum (Z.of_nat (List.length errors)));
                         ("timestamp", JStr (toISOString env))] |}.

End Batch.

(* ===================================================================== *)
(** ** Test doubles *)
(* ===================================================================== *)

(** [n] copies of the code unit [c]. *)
Fixpoint replicate (n : nat) (c : ascii) : string :=
  match n with
  | O => EmptyString
  | S n' => String c (replicate n' c)
  end.

(** [needle] occurs in [s]. *)
Fixpoint occurs (needle s : string) : bool :=
  match strip_prefix needle s with
  | Some _ => true
  | None => match s with
            | EmptyString => false
            | String _ r => occurs needle r
            end
  end.

Module Mock.

(** Escapes the double quote and the backslash. *)
Fixpoint escape (s : string) : string :=
  match s with
  | EmptyString => EmptyString
  | String c r =>
      if Ascii.eqb c "034"%char || Ascii.eqb c "092"%char
      then String "092"%char (String c (escape r))
      else String c (escape r)
  end.

(** A serializer in the manner of [JSON.stringify]: undefined has no text,
    is printed as null inside an array and is left out of an object. *)
Fixpoint stringify (v : value) : option string :=
  match v with
  | JUndefined => None
  | JNull => Some "null"
  | JBool b => Some (if b then "true" else "false")
  | JNum n => Some (NilZero.string_of_int (Z.to_int n))
  | JStr s => Some (quoted (escape s))
  | JArr items =>
      Some ("[" ++ join ","
                     (map (fun item =>
                             match stringify item with
                             | Some t => t
                             | None => "null"
                             end) items) ++ "]")
  | JObj fields =>
      Some ("{" ++ join ","
                     (flat_map (fun kv =>
                                  match stringify (snd kv) with
                                  | Some t => [quoted (escape (fst kv)) ++ ":" ++ t]
                                  | None => []
                                  end) fields) ++ "}")
  end.

(** A parser that knows the texts of [table] and rejects every other text
    with a SyntaxError. *)
Definition parse (table : list (string * value)) (text : string) : result value :=
  match find (fun entry => String.eqb (fst entry) text) table with
  | Some entry => Ok (snd entry)
  | None => Throw (JsError "Unexpected token in JSON")
  end.

Definition JSON_with (table : list (string * value)) : JSON :=
  {| JSON_parse := parse table; JSON_stringify := stringify |}.

(** A service that is down. *)
Definition unavailable : Model :=
  fun _ _ => Rejects (JsError "503 Service Unavailable").

(** A service that answers every request with [text]. *)
Definition answering (text : string) : Model :=
  fun _ _ => Resolves text.

(** A service that answers with [text], except that it fails the requests
    whose prompt mentions [metric]. *)
Definition failing_on (metric text : string) : Model :=
  fun prompt _ =>
    if occurs metric prompt then Rejects (JsError "429 Too Many Requests")
    else Resolves text.

(** A parsed CSV document, as [processCSV] builds it. *)
Definition csvDocument : value :=
  JObj [("type", JStr "csv");
        ("filename", JStr "sales.csv");
        ("data",
         JArr [JObj [("region", JStr "north"); ("units", JStr "12"); ("note", JNull)];
               JObj [("region", JStr "south"); ("units", JStr "7"); ("note", JNull)]])].

(** A generator after [setModel(service)] that holds [csvDocument]. *)
Definition generator (service : Model) : AnalyticsGenerator :=
  {| model := Some service; data := csvDocument |}.

(** The first chunk of the serialized [csvDocument]. *)
Definition csvChunk : string :=
  Eval vm_compute in
    match processLargeData (JSON_with []) csvDocument with
    | Ok (Some chunk) => chunk
    | _ => EmptyString
    end.

(** What the service finds for one metric. *)
Definition findings (metric : string) : value :=
  JObj [("summary", JStr ("Findings for " ++ metric));
        ("key_points", JArr [JStr "two regions"; JStr "units between 7 and 12"]);
        ("metrics", JObj [("rows", JStr "2")]);
        ("recommendations", JArr [JStr "collect more rows"])].

(** A well-formed answer with an entry for each of the four metrics of
    [fileSection], and its text. *)
Definition analysisValue : value :=
  JObj [("analysis",
         JObj [("Data Overview", findings "Data Overview");
               ("Key Metrics", findings "Key Metrics");
               ("Statistical Analysis", findings "Statistical Analysis");
               ("Data Distribution", findings "Data Distribution")]);
        ("overall_summary", JStr "overview");
        ("confidence_score", JNum 1)].

Definition analysisText : string :=
  Eval vm_compute in
    match stringify analysisValue with
    | Some text => text
    | None => EmptyString
    end.

(** The built-ins in a run where the only JSON text met is [analysisText]. *)
Definition JSON_ok : JSON := JSON_with [(analysisText, analysisValue)].

(** A page that draws two pieces of text. *)
Definition page : Page :=
  {| getSize := Ok tt;
     getOperators :=
       Ok [ {| operator := "BT"; args := [] |};
            {| operator := "Tj"; args := [JStr "Quarterly"] |};
            {| operator := "TJ"; args := [JArr [JStr "re"; JNum 20; JStr "port"]] |} ] |}.

(** Libraries that read every buffer as the same small workbook or CSV table,
    and that load a PDF document from every buffer but the empty one. *)
Definition parsers : Libraries :=
  {| XLSX_read := fun _ =>
       Ok {| SheetNames := ["Sheet1"]; Sheets := [("Sheet1", JObj [])] |};
     XLSX_utils_sheet_to_json := fun _ => Ok [JObj [("region", JStr "north")]];
     Buffer_toString := string_of_list_byte;
     csv_parse := fun content => Ok [JObj [("line", JStr content)]];
     PDFDocument_load := fun buffer =>
       match buffer with
       | [] => Throw (JsError "No PDF header found")
       | _ => Ok [page]
       end |}.

Definition environment : Environment :=
  {| json := JSON_ok;
     libraries := parsers;
     getGenerativeModel := answering analysisText;
     deepTimerFires := fun _ => false;
     toISOString := "2024-01-01T00:00:00.000Z" |}.

Definition upload (name_ : string) (content : string) : File :=
  {| name := name_;
     size := N.of_nat (String.length content);
     arrayBuffer := list_byte_of_string content |}.

(** Three uploads; the second is a PDF file with no content. *)
Definition batch : list File :=
  [upload "sales.csv" "region,units"; upload "broken.pdf" ""; upload "Report.XLSX" "PK"].

End Mock.

(* ===================================================================== *)
(** ** Vocabulary of the statements *)
(* ===================================================================== *)

(** The error a request ends with, when it does not resolve: the service's
    own rejection, or the time-out of the 10 s race. *)
Definition reply_error (r : reply) : option exn :=
  match r with
  | Resolves _ => None
  | Rejects e => Some e
  | Pending => Some (JsError "Generation timeout")
  end.

(** The prompt [processMetric] sends for [metric] when the first chunk of the
    serialized document is [chunk]. *)
Definition promptFor (chunk : string) (type : tier) (metric : string) : string :=
  buildPrompt (truncateData chunk) (tier_name type) [metric].

Definition is_Generate (ev : event) : bool :=
  match ev with Generate _ _ _ => true | Backoff _ => false end.

Definition is_Backoff (ev : event) : bool :=
  match ev with Generate _ _ _ => false | Backoff _ => true end.

(** The requests of tier [t] in a log. *)
Definition is_Generate_of (t : tier) (ev : event) : bool :=
  match ev, t with
  | Generate Primary _ _, Primary => true
  | Generate Deep _ _, Deep => true
  | _, _ => false
  end.

(** Number of requests sent to the service in a log. *)
Definition attempts (log : list event) : nat :=
  List.length (filter is_Generate log).

(** The log of [remaining] failed attempts in a row, from [attempt] on: a
    request each, and a back-off between two of them. *)
Fixpoint raising_log (type : tier) (metric : string) (attempt remaining : nat)
    : list event :=
  match remaining with
  | O => []
  | S O => [Generate type metric attempt]
  | S remaining' =>
      Generate type metric attempt :: Backoff 1000
        :: raising_log type metric (S attempt) remaining'
  end.

(** Every request of a log is one of tier [type]. *)
Definition tier_event (type : tier) (ev : event) : Prop :=
  match ev with
  | Generate t _ _ => t = type
  | Backoff _ => True
  end.

(** [section.subsections.deep], an absent list read as the empty one. *)
Definition deepMetrics (section : AnalysisSection) : list string :=
  match deep (subsections section) with
  | Some deep_ => deep_
  | None => []
  end.

(** [v] is an object with an own property [key]. *)
Definition has_property (v : value) (key : string) : Prop :=
  match v with
  | JObj fields => obj_get fields key <> None
  | _ => False
  end.

(** The two tiers as [generateAnalytics] starts them: the primary metrics with
    two attempts each, the deep metrics with one. *)
Definition primaryTier (J : JSON) (self : AnalyticsGenerator) (data_ : value)
    (section : AnalysisSection) : M (list (string * value)) :=
  Promise_all (metricPromises J (storeData self data_) Primary 2
                 (primary (subsections section))).

Definition deepPromise (J : JSON) (self : AnalyticsGenerator) (data_ : value)
    (section : AnalysisSection) : M (list (string * value)) :=
  Promise_all (metricPromises J (storeData self data_) Deep 1 (deepMetrics section)).

(** The entries the [catch] block of the deep tier builds. *)
Definition fallbackEntries (metrics : list string) : list (string * value) :=
  map (fun metric => (metric, getFallbackMetric metric)) metrics.

(** [processFile] returns a document for [file]. *)
Definition parses (lib : Libraries) (file : File) : bool :=
  match processFile lib (name file) (arrayBuffer file) with
  | Ok _ => true
  | Throw _ => false
  end.

(** The [filename] of an entry of [results] or [errors]. *)
Definition entry_filename (entry : value) : value := get_prop entry "filename".

(** What the response of a processed batch looks like. *)
Definition batchResponse (env : Environment) (files : list File)
    (results errors : list value) : Response :=
  {| status := 200;
     body := JObj [("success", JBool true);
                   ("results", JArr results);
                   ("errors", JArr errors);
                   ("totalFiles", JNum (Z.of_nat (List.length files)));
                   ("successfulFiles", JNum (Z.of_nat (List.length results)));
                   ("failedFiles", JNum (Z.of_nat (List.length errors)));
                   ("timestamp", JStr (toISOString env))] |}.

(** A reply wrapped in a Markdown code fence: with the language tag the
    prompt's format suggests, and without a tag. *)
Definition fenced (reply : string) : string :=
  fence_json ++ nl ++ reply ++ nl ++ fence.

Definition fenced_plain (reply : string) : string :=
  fence ++ nl ++ reply ++ nl ++ fence.

(** [c] occurs in [s]. *)
Fixpoint has_char (c : ascii) (s : string) : bool :=
  match s with
  | EmptyString => false
  | String a r => Ascii.eqb a c || has_char c r
  end.

(** The text starts with an opening brace, white space aside, as the text
    of every JSON object does. *)
Definition opens_with_brace (text : string) : Prop :=
  strip_prefix "{" (drop_spaces text) <> None.

(** No property of [v], at any depth, holds null or undefined. *)
Fixpoint no_nullish_fields (v : value) : bool :=
  match v with
  | JObj fields =>
      forallb (fun kv => negb (is_nullish (snd kv)) && no_nullish_fields (snd kv)) fields
  | JArr items => forallb no_nullish_fields items
  | _ => true
  end.

(** Induction on values, through the elements of arrays and the property
    values of objects. *)
Fixpoint value_induction (P : value -> Prop)
    (Hundefined : P JUndefined) (Hnull : P JNull)
    (Hbool : forall b, P (JBool b)) (Hnum : forall n, P (JNum n))
    (Hstr : forall s, P (JStr s))
    (Harr : forall items, Forall P items -> P (JArr items))
    (Hobj : forall fields, Forall (fun kv => P (snd kv)) fields -> P (JObj fields))
    (v : value) : P v :=
  match v with
  | JUndefined => Hundefined
  | JNull => Hnull
  | JBool b => Hbool b
  | JNum n => Hnum n
  | JStr s => Hstr s
  | JArr items =>
      Harr items
        ((fix all (l : list value) : Forall P l :=
            match l with
            | [] => Forall_nil P
            | x :: r =>
                Forall_cons x
                  (value_induction P Hundefined Hnull Hbool Hnum Hstr Harr Hobj x)
                  (all r)
            end) items)
  | JObj fields =>
      Hobj fields
        ((fix all (l : list (string * value)) : Forall (fun kv => P (snd kv)) l :=
            match l with
            | [] => Forall_nil _
            | kv :: r =>
                Forall_cons kv
                  (value_induction P Hundefined Hnull Hbool Hnum Hstr Harr Hobj (snd kv))
                  (all r)
            end) fields)
  end.

(* ===================================================================== *)
(** ** The request handler (POST) and combineDataSources *)
(* ===================================================================== *)

(** [POST(request)], from the uploaded files on: [processRequest] raced
    against the 58 s timer ([timerFires] tells whether the timer settles
    first), and the [catch] block that answers with status 500. *)
Definition POST (env : Environment) (files : list File) (timerFires : bool)
    : M Response :=
  try_catch
    (race_timeout (processRequest env files) timerFires "Request timeout")
    (fun error =>
       ret {| status := 500;
              body := JObj [("success", JBool false);
                            ("error",
                             JStr (match error with
                                   | JsError message => message
                                   | NonError => "Unknown error occurred"
                                   end));
                            ("timestamp", JStr (toISOString env))] |}).

(** [base.key] for a [base] of any kind: a TypeError on null and undefined. *)
Definition read_prop (base : value) (key : string) : result value :=
  match base with
  | JUndefined => Throw (TypeError "undefined" key)
  | JNull => Throw (TypeError "null" key)
  | _ => Ok (get_prop base key)
  end.

(** [Object.keys(v)] *)
Definition Object_keys (v : value) : result (list string) :=
  match v with
  | JUndefined | JNull => Throw (JsError "Cannot convert undefined or null to object")
  | JObj fields => Ok (map fst fields)
  | JArr items => Ok (map string_of_nat (seq 0 (List.length items)))
  | JStr s => Ok (map string_of_nat (seq 0 (String.length s)))
  | _ => Ok []
  end.

(** [set.add(x)] on a [Set] kept as the list of its elements in the order in
    which they were added. *)
Definition set_add (set : list string) (x : string) : list string :=
  if existsb (String.eqb x) set then set else (set ++ [x])%list.

(** [v === tag] for a string literal [tag]. *)
Definition is_string (v : value) (tag : string) : bool :=
  match v with
  | JStr s => String.eqb s tag
  | _ => false
  end.

(** The object [combineDataSources] returns. *)
Record Combined : Type := {
  spreadsheets : list value;
  csvs : list value;
  pdfs : list value;
  totalRecords : Z;
  commonFields : list string;
  dateRange : value;
  numericalColumns : list string;
  categoricalColumns : list string
}.

(** [results.filter(r => r.type === tag)] *)
Fixpoint filter_by_type (tag : string) (results : list value) : result (list value) :=
  match results with
  | [] => Ok []
  | r :: rest =>
      let* type := read_prop r "type" in
      let* kept := filter_by_type tag rest in
      Ok (if is_string type tag then r :: kept else kept)
  end.

Section CombineDataSources.
(** What [v > 0] gives on a string, an array or an object, where the
    comparison goes through ToNumber. *)
Variable coerced_positive : value -> bool.

(** [v > 0] *)
Definition greater_than_zero (v : value) : bool :=
  match v with
  | JNum n => (0 <? n)%Z
  | JBool b => b
  | JUndefined | JNull => false
  | _ => coerced_positive v
  end.

(** The body of [Object.keys(data[0]).forEach], on the three sets
    [(commonFields, numericalColumns, categoricalColumns)]. *)
Definition analyzeKey (first : value)
    (sets : list string * list string * list string) (key : string)
    : list string * list string * list string :=
  let '(common, numerical, categorical) := sets in
  let v := get_prop first key in
  (set_add common key,
   if String.eqb (typeof v) "number" then set_add numerical key else numerical,
   if String.eqb (typeof v) "number" then categorical
   else if String.eqb (typeof v) "string" then set_add categorical key
   else categorical).

(** The body of [results.forEach]. *)
Definition analyzeResult (sets : list string * list string * list string)
    (result_ : value) : result (list string * list string * list string) :=
  let* type := read_prop result_ "type" in
  if is_string type "spreadsheet" || is_string type "csv" then
    let* data_ :=
      if is_string type "csv" then read_prop result_ "data"
      else
        let* sheets := read_prop result_ "sheets" in
        let* sheet := read_prop sheets "0" in
        read_prop sheet "data" in
    let* len := read_prop data_ "length" in
    if greater_than_zero len then
      let* first := read_prop data_ "0" in
      let* keys := Object_keys first in
      Ok (fold_left (analyzeKey first) keys sets)
    else Ok sets
  else Ok sets.

(** [combineDataSources(results)] *)
Definition combineDataSources (results : list value) : result Combined :=
  let* spreadsheets_ := filter_by_type "spreadsheet" results in
  let* csvs_ := filter_by_type "csv" results in
  let* pdfs_ := filter_by_type "pdf" results in
  let* sets :=
    fold_left (fun acc result_ => let* sets := acc in analyzeResult sets result_)
      results (Ok ([], [], [])) in
  let '(common, numerical, categorical) := sets in
  Ok {| spreadsheets := spreadsheets_;
        csvs := csvs_;
        pdfs := pdfs_;
        totalRecords := 0;
        commonFields := common;
        dateRange := JObj [("start", JNull); ("end", JNull)];
        numericalColumns := numerical;
        categoricalColumns := categorical |}.

End CombineDataSources.

(* ===================================================================== *)
(** ** Further vocabulary *)
(* ===================================================================== *)

(** [result.analysis?.[metric]] *)
Definition metricEntry (parsed : value) (metric : string) : value :=
  if is_nullish (get_prop parsed "analysis") then JUndefined
  else get_prop (get_prop parsed "analysis") metric.

(** The entry [processRequest] adds to [errors] for a file that failed. *)
Definition errorEntry (file : File) (error : exn) : value :=
  JObj [("filename", JStr (name file)); ("error", JStr (error_message error))].

(** Number of back-off delays in a log. *)
Definition backoffs (log : list event) : nat :=
  List.length (filter is_Backoff log).

(** The entry of [errors] for [file], when [processFile] throws on it. *)
Definition failureEntry (lib : Libraries) (file : File) : value :=
  match processFile lib (name file) (arrayBuffer file) with
  | Throw e => errorEntry file e
  | Ok _ => JUndefined
  end.

(** The two answers of the pre-checks of [processRequest]. *)
Definition rejection (message : string) : Response :=
  {| status := 400;
     body := JObj [("success", JBool false); ("error", JStr message)] |}.



(** The documents of the three shapes [processFile] returns, the rows of a
    CSV document being objects. *)
Definition is_document (doc : value) : Prop :=
  (exists filename sheets sheetNames,
      doc = JObj [("type", JStr "excel"); ("filename", JStr filename);
                  ("sheets", JObj sheets); ("sheetNames", JArr sheetNames)])
  \/ (exists filename records,
         doc = JObj [("type", JStr "csv"); ("filename", JStr filename);
                     ("data", JArr records)]
         /\ Forall (fun row => exists fields, row = JObj fields) records)
  \/ (exists filename content pageCount summary,
         doc = JObj [("type", JStr "pdf"); ("filename", JStr filename);
                     ("content", JStr content); ("pageCount", JNum pageCount);
                     ("summary", JStr summary)]).

(** [doc.type === tag] *)
Definition has_type (tag : string) (doc : value) : bool :=
  is_string (get_prop doc "type") tag.

(** Ceiling of [a / b] on naturals. *)
Definition ceil_div (a b : nat) : nat := (a + b - 1) / b.

(* ===================================================================== *)
(** ** Lemmas on strings *)
(* ===================================================================== *)

Lemma take_length n s : String.length (take n s) = Nat.min n (String.length s).
Proof.
  revert s; induction n as [|n IH]; intros [|c r]; simpl; auto.
Qed.

Lemma drop_length n s : String.length (drop n s) = String.length s - n.
Proof.
  revert s; induction n as [|n IH]; intros [|c r]; simpl; auto.
Qed.

Lemma take_drop n s : take n s ++ drop n s = s.
Proof.
  revert s; induction n as [|n IH]; intros [|c r]; simpl; auto.
  now rewrite IH.
Qed.

Lemma drop_drop n m s : drop n (drop m s) = drop (m + n) s.
Proof.
  revert s; induction m as [|m IH]; intros s; simpl; auto.
  destruct s as [|c r]; simpl; auto.
  now destruct n.
Qed.

Lemma drop_all n s : String.length s <= n -> drop n s = "".
Proof.
  revert s; induction n as [|n IH]; intros [|c r]; simpl; intros H; auto; try lia.
  apply IH; lia.
Qed.

Lemma take_all n s : String.length s <= n -> take n s = s.
Proof.
  revert s; induction n as [|n IH]; intros [|c r]; simpl; intros H; auto; try lia.
  f_equal; apply IH; lia.
Qed.

Lemma append_length s t : String.length (s ++ t) = String.length s + String.length t.
Proof. induction s as [|c r IH]; simpl; auto. Qed.

Lemma append_nil_r s : s ++ "" = s.
Proof. induction s as [|c r IH]; simpl; auto. now rewrite IH. Qed.

Lemma append_assoc s t u : (s ++ t) ++ u = s ++ (t ++ u).
Proof. induction s as [|c r IH]; simpl; auto. now rewrite IH. Qed.

Lemma join_empty_cons x xs : join "" (x :: xs) = x ++ join "" xs.
Proof.
  unfold join; destruct xs as [|y ys]; simpl; auto.
  now rewrite append_nil_r.
Qed.

(* ===================================================================== *)
(** ** Chunking is a lossless partition *)
(* ===================================================================== *)

Lemma ceil_div_step a d : 0 < d -> 0 < a -> ceil_div a d = S (ceil_div (a - d) d).
Proof.
  intros Hd Ha; unfold ceil_div.
  destruct (le_lt_dec d a) as [Hle|Hlt].
  - replace (a + d - 1) with ((a - d + d - 1) + 1 * d) by lia.
    rewrite Nat.div_add by lia. lia.
  - replace (a - d) with 0 by lia.
    rewrite (Nat.div_small (0 + d - 1) d) by lia.
    symmetry; apply Nat.div_unique with (r := a - 1); lia.
Qed.

Lemma ceil_div_zero d : 0 < d -> ceil_div 0 d = 0.
Proof. intros Hd; unfold ceil_div; apply Nat.div_small; lia. Qed.

Lemma splitIntoChunks_loop_spec text size :
  0 < size ->
  forall fuel i chunks,
    String.length text - i <= fuel ->
    exists cs,
      splitIntoChunks_loop fuel text size i chunks = Some (chunks ++ cs)%list
      /\ List.length cs = ceil_div (String.length text - i) size
      /\ Forall (fun c => String.length c <= size) cs
      /\ join "" cs = drop i text.
Proof.
  intros Hsize; induction fuel as [|fuel IH]; intros i chunks Hfuel.
  - exists []; simpl.
    destruct (Nat.ltb_spec i (String.length text)); try lia.
    rewrite app_nil_r; repeat split; auto.
    + replace (String.length text - i) with 0 by lia.
      now rewrite ceil_div_zero.
    + now rewrite drop_all.
  - simpl. destruct (Nat.ltb_spec i (String.length text)) as [Hlt|Hge].
    + destruct (IH (i + size) (chunks ++ [slice text i (i + size)])%list)
        as (cs & Hrun & Hlen & Hall & Hcat); [lia|].
      exists (slice text i (i + size) :: cs); repeat split.
      * rewrite Hrun, <- app_assoc; reflexivity.
      * simpl; rewrite Hlen, (ceil_div_step (String.length text - i) size) by lia.
        do 2 f_equal; lia.
      * constructor; auto.
        unfold slice; rewrite take_length; lia.
      * rewrite join_empty_cons, Hcat; unfold slice.
        replace (i + size - i) with size by lia.
        rewrite <- drop_drop; apply take_drop.
    + exists []; rewrite app_nil_r; repeat split; auto.
      * replace (String.length text - i) with 0 by lia.
        now rewrite ceil_div_zero.
      * now rewrite drop_all.
Qed.

(** C4.  For every text of length [L] and every positive integer chunk size
    [N], [splitIntoChunks(text, N)] returns (the loop terminates), the result
    has exactly [ceil(L/N)] chunks, every chunk has at most [N] code units, and
    the chunks joined in order give back [text]. *)
Theorem splitIntoChunks_lossless_partition (text : string) (size : nat) :
  0 < size ->
  exists chunks,
    splitIntoChunks text size = Some chunks
    /\ List.length chunks = ceil_div (String.length text) size
    /\ Forall (fun c => String.length c <= size) chunks
    /\ join "" chunks = text.
Proof.
  intros Hsize.
  destruct (splitIntoChunks_loop_spec text size Hsize (String.length text) 0 [])
    as (cs & Hrun & Hlen & Hall & Hcat); [lia|].
  exists cs; unfold splitIntoChunks; rewrite Hrun.
  rewrite Nat.sub_0_r in Hlen; simpl in *; auto.
Qed.

Lemma splitIntoChunks_lossless_partition_witness :
  0 < 4 /\
  exists chunks,
    splitIntoChunks "abcdefghij" 4 = Some chunks
    /\ List.length chunks = ceil_div (String.length "abcdefghij") 4
    /\ Forall (fun c => String.length c <= 4) chunks
    /\ join "" chunks = "abcdefghij".
Proof.
  split; [lia | apply (splitIntoChunks_lossless_partition "abcdefghij" 4); lia].
Defined.

(** [ceil_div a b] is the least number of [b]-sized pieces that cover [a]. *)
Lemma ceil_div_is_ceiling a b :
  0 < b -> a <= ceil_div a b * b /\ (0 < a -> (ceil_div a b - 1) * b < a).
Proof.
  intros Hb; unfold ceil_div.
  pose proof (Nat.div_mod_eq (a + b - 1) b) as Hdiv.
  pose proof (Nat.mod_upper_bound (a + b - 1) b ltac:(lia)) as Hmod.
  split; [nia|].
  intros Ha; destruct ((a + b - 1) / b) as [|q]; [nia|].
  replace (S q - 1) with q by lia; nia.
Qed.

(** With a chunk size of 0 the loop makes no progress: it never returns on a
    text that is not empty. *)
Lemma splitIntoChunks_loop_zero_size text fuel chunks :
  text <> "" -> splitIntoChunks_loop fuel text 0 0 chunks = None.
Proof.
  intros Htext; revert chunks; induction fuel as [|fuel IH]; intros chunks;
    destruct text as [|c r]; try contradiction; [reflexivity|].
  cbn [splitIntoChunks_loop String.length Nat.ltb Nat.leb Nat.add]; apply IH.
Qed.

Lemma splitIntoChunks_zero_size text : text <> "" -> splitIntoChunks text 0 = None.
Proof. intros Htext; now apply splitIntoChunks_loop_zero_size. Qed.

(** The first chunk is the first [size] code units of the text. *)
Lemma splitIntoChunks_first text size :
  0 < size -> text <> "" ->
  exists rest, splitIntoChunks text size = Some (take size text :: rest).
Proof.
  intros Hsize Htext; unfold splitIntoChunks.
  destruct text as [|c r]; [contradiction|].
  set (text := String c r).
  change (String.length text) with (S (String.length r)).
  cbn [splitIntoChunks_loop].
  change (0 <? String.length text) with true; cbv iota.
  destruct (splitIntoChunks_loop_spec text size Hsize (String.length r) (0 + size)
              ([] ++ [slice text 0 (0 + size)])%list)
    as (cs & Hrun & _);
    [change (String.length text) with (S (String.length r)); lia|].
  exists cs; rewrite Hrun; unfold slice.
  now rewrite Nat.add_0_l, Nat.sub_0_r.
Qed.

Lemma maxChunkSize_positive : 0 < maxChunkSize.
Proof. apply Nat.ltb_lt; vm_compute; reflexivity. Qed.

(** [processLargeData] gives the first [maxChunkSize] code units of the
    serialized document; the branch for a loop that does not return is never
    taken. *)
Lemma processLargeData_first_chunk J data text :
  formatData J data = Some text -> text <> "" ->
  processLargeData J data = Ok (Some (take maxChunkSize text)).
Proof.
  intros Hformat Htext; unfold processLargeData; rewrite Hformat.
  destruct (splitIntoChunks_first text maxChunkSize maxChunkSize_positive Htext)
    as [rest ->]; reflexivity.
Qed.

(* ===================================================================== *)
(** ** The second truncation (truncateData) *)
(* ===================================================================== *)

Lemma truncateData_short data :
  String.length data <= maxChunkSize -> truncateData data = data.
Proof.
  intros H; unfold truncateData.
  destruct (Nat.ltb_spec maxChunkSize (String.length data)); [lia | reflexivity].
Qed.

Lemma truncateData_long data :
  maxChunkSize < String.length data ->
  truncateData data = take maxChunkSize data ++ "...".
Proof.
  intros H; unfold truncateData, slice.
  destruct (Nat.ltb_spec maxChunkSize (String.length data)); [| lia].
  now rewrite Nat.sub_0_r.
Qed.

Lemma replicate_length n c : String.length (replicate n c) = n.
Proof. induction n as [|n IH]; simpl; auto. Qed.

(** C5, as stated, fails: on a text of [maxChunkSize + 1] = 25001 code units
    [truncateData] returns [maxChunkSize + 3] = 25003 code units, which is
    more than [maxChunkSize]. *)
Lemma truncateData_exceeds_maxChunkSize :
  String.length (truncateData (replicate (S maxChunkSize) "a")) = maxChunkSize + 3
  /\ ~ String.length (truncateData (replicate (S maxChunkSize) "a")) <= maxChunkSize.
Proof.
  assert (H : String.length (truncateData (replicate (S maxChunkSize) "a"))
              = maxChunkSize + 3).
  { rewrite truncateData_long by (rewrite replicate_length; lia).
    rewrite append_length, take_length, replicate_length; cbn [String.length]; lia. }
  split; [exact H | rewrite H; lia].
Qed.

(** In the driver the second truncation finds nothing to cut: the chunk it
    gets has at most [maxChunkSize] code units already. *)
Lemma truncateData_first_chunk J data text :
  formatData J data = Some text -> text <> "" ->
  exists chunk,
    processLargeData J data = Ok (Some chunk) /\ truncateData chunk = chunk.
Proof.
  intros Hformat Htext; exists (take maxChunkSize text); split.
  - now apply processLargeData_first_chunk.
  - apply truncateData_short; rewrite take_length; lia.
Qed.

(** C5, amended.  [truncateData] returns its input unchanged when it has at
    most [maxChunkSize] code units, and otherwise its first [maxChunkSize]
    code units followed by the three-character marker "..."; the result
    therefore has at most [maxChunkSize + 3] code units. *)
Theorem truncateData_bound (data : string) :
  String.length (truncateData data) <= maxChunkSize + 3
  /\ (String.length data <= maxChunkSize -> truncateData data = data)
  /\ (maxChunkSize < String.length data ->
      truncateData data = take maxChunkSize data ++ "..."
      /\ String.length (truncateData data) = maxChunkSize + 3).
Proof.
  split; [|split].
  - destruct (le_lt_dec (String.length data) maxChunkSize) as [H|H].
    + rewrite truncateData_short by exact H; lia.
    + rewrite truncateData_long, append_length, take_length by exact H.
      cbn [String.length]; lia.
  - apply truncateData_short.
  - intros H; split; [now apply truncateData_long|].
    rewrite truncateData_long, append_length, take_length by exact H.
    cbn [String.length]; lia.
Qed.

Lemma truncateData_bound_witness :
  String.length (truncateData "abc") <= maxChunkSize + 3
  /\ truncateData "abc" = "abc".
Proof.
  destruct (truncateData_bound "abc") as (Hlen & Hshort & _).
  split; [exact Hlen | apply Hshort].
  apply Nat.leb_le; vm_compute; reflexivity.
Defined.

(* ===================================================================== *)
(** ** The log monad *)
(* ===================================================================== *)

Lemma bind_Ok {A B} (m : M A) (k : A -> M B) a log :
  m = (Ok a, log) ->
  bind m k = (fst (k a), (log ++ snd (k a))%list).
Proof. intros ->; unfold bind; destruct (k a); reflexivity. Qed.

Lemma bind_Throw {A B} (m : M A) (k : A -> M B) e log :
  m = (Throw e, log) -> bind m k = (Throw e, log).
Proof. intros ->; reflexivity. Qed.

Lemma try_catch_Ok {A} (m : M A) handler a log :
  m = (Ok a, log) -> try_catch m handler = (Ok a, log).
Proof. intros ->; reflexivity. Qed.

Lemma try_catch_Throw {A} (m : M A) handler e log :
  m = (Throw e, log) ->
  try_catch m handler = (fst (handler e), (log ++ snd (handler e))%list).
Proof. intros ->; unfold try_catch; destruct (handler e); reflexivity. Qed.

Lemma Promise_all_log {A} (ps : list (M A)) :
  snd (Promise_all ps) = concat (map snd ps).
Proof.
  induction ps as [|[r log] rest IH]; simpl; auto.
  destruct (Promise_all rest) as [rs log']; simpl in *; subst.
  destruct r; reflexivity.
Qed.

Lemma Promise_all_resolves {A} (ps : list (M A)) l :
  fst (Promise_all ps) = Ok l <-> Forall2 (fun p a => fst p = Ok a) ps l.
Proof.
  revert l; induction ps as [|[r log] rest IH]; intros l; simpl.
  - split; intros H; [injection H as <-; constructor | inversion H; reflexivity].
  - destruct (Promise_all rest) as [rs log'] eqn:Hrest; simpl in *.
    destruct r as [a|e]; simpl.
    + destruct rs as [l'|e']; split; intros H.
      * injection H as <-; constructor; [reflexivity | now apply IH].
      * inversion H as [|? b ? l'' Hb Hl]; subst; simpl in Hb.
        apply IH in Hl; congruence.
      * discriminate.
      * inversion H as [|? b ? l'' Hb Hl]; subst. apply IH in Hl; discriminate.
    + split; intros H; [discriminate | inversion H; simpl in *; discriminate].
Qed.

Lemma Promise_all_rejects {A} (ps : list (M A)) :
  (exists e, fst (Promise_all ps) = Throw e)
  <-> Exists (fun p => exists e, fst p = Throw e) ps.
Proof.
  induction ps as [|[r log] rest IH]; simpl.
  - split; [intros [e H]; discriminate | intros H; inversion H].
  - destruct (Promise_all rest) as [rs log'] eqn:Hrest; simpl in *.
    destruct r as [a|e]; simpl.
    + destruct rs as [l'|e']; split.
      * intros [e H]; discriminate.
      * intros H; inversion H as [? ? [e He]|? ? Hex]; subst; simpl in *;
          [discriminate | apply IH in Hex; destruct Hex; discriminate].
      * intros _; apply Exists_cons_tl, IH; eauto.
      * eauto.
    + split; [intros _; apply Exists_cons_hd; simpl; eauto | eauto].
Qed.

(* ===================================================================== *)
(** ** The per-metric driver (processMetric) *)
(* ===================================================================== *)

Section DriverProofs.
Variable J : JSON.
Variable self : AnalyticsGenerator.
Variable service : Model.
Variable chunk : string.
Hypothesis Hmodel : model self = Some service.
Hypothesis Hdata : processLargeData J (data self) = Ok (Some chunk).

(** One attempt whose request does not resolve: the request is logged and
    its error leaves the [try] block. *)
Lemma attemptMetric_raises metric type attempt e :
  reply_error (service (promptFor chunk type metric) attempt) = Some e ->
  attemptMetric J self metric type attempt
  = (Throw e, [Generate type metric attempt]).
Proof.
  intros He; unfold attemptMetric, generateContent, promptFor in *.
  rewrite Hdata, Hmodel; simpl.
  destruct (service _ attempt); simpl in *; congruence.
Qed.

Lemma processMetric_from_raises metric type retries :
  (forall attempt,
      reply_error (service (promptFor chunk type metric) attempt) <> None) ->
  forall remaining attempt,
    attempt + S remaining = retries ->
    exists e,
      reply_error (service (promptFor chunk type metric) (retries - 1)) = Some e
      /\ processMetric_from J self metric type retries (S remaining) attempt
         = (Throw e, raising_log type metric attempt (S remaining)).
Proof.
  intros Hraises; induction remaining as [|remaining IH]; intros attempt Hsum.
  - destruct (reply_error (service (promptFor chunk type metric) attempt))
      as [e|] eqn:He; [| now destruct (Hraises attempt)].
    exists e; replace (retries - 1) with attempt by lia; split; [exact He|].
    cbn [processMetric_from].
    rewrite (attemptMetric_raises _ _ _ _ He); simpl.
    replace (attempt =? retries - 1) with true
      by (symmetry; apply Nat.eqb_eq; lia).
    reflexivity.
  - destruct (IH (S attempt)) as (e & Hlast & Hrun); [lia|].
    exists e; split; [exact Hlast|].
    destruct (reply_error (service (promptFor chunk type metric) attempt))
      as [e0|] eqn:He0; [| now destruct (Hraises attempt)].
    change (processMetric_from J self metric type retries (S (S remaining)) attempt)
      with (returned <-
              try_catch (attemptMetric J self metric type attempt)
                (fun error =>
                   if attempt =? retries - 1 then throw error
                   else emit (Backoff 1000) ;;; ret None) ;;
            match returned with
            | Some v => ret v
            | None =>
                processMetric_from J self metric type retries (S remaining) (S attempt)
            end).
    rewrite (attemptMetric_raises _ _ _ _ He0).
    replace (attempt =? retries - 1) with false
      by (symmetry; apply Nat.eqb_neq; lia).
    cbn [try_catch emit bind ret fst snd app].
    rewrite Hrun; reflexivity.
Qed.

End DriverProofs.

Lemma attempts_raising_log type metric attempt remaining :
  attempts (raising_log type metric attempt remaining) = remaining.
Proof.
  revert attempt; induction remaining as [|[|remaining] IH]; intros attempt; auto.
  change (S (attempts (raising_log type metric (S attempt) (S remaining)))
          = S (S remaining)).
  now rewrite IH.
Qed.

Lemma backoffs_raising_log type metric attempt remaining :
  List.length (filter is_Backoff (raising_log type metric attempt remaining))
  = remaining - 1.
Proof.
  revert attempt; induction remaining as [|[|remaining] IH]; intros attempt; auto.
  change (S (List.length (filter is_Backoff
                            (raising_log type metric (S attempt) (S remaining))))
          = S (S remaining) - 1).
  rewrite IH; lia.
Qed.

(** C1, as stated, fails: with a service whose every request is rejected, the
    driver does not return a fallback result; after its last attempt (the
    second for a primary metric, the first for a deep metric) it throws the
    service's error to its caller. *)
Lemma processMetric_throws_to_caller :
  processMetric (Mock.JSON_with []) (Mock.generator Mock.unavailable)
    "Data Overview" Primary 2
  = (Throw (JsError "503 Service Unavailable"),
     [Generate Primary "Data Overview" 0; Backoff 1000;
      Generate Primary "Data Overview" 1])
  /\ processMetric (Mock.JSON_with []) (Mock.generator Mock.unavailable)
       "Statistical Analysis" Deep 1
     = (Throw (JsError "503 Service Unavailable"),
        [Generate Deep "Statistical Analysis" 0])
  /\ fst (processMetric (Mock.JSON_with []) (Mock.generator Mock.unavailable)
            "Data Overview" Primary 2)
     <> Ok (getFallbackMetric "Data Overview").
Proof.
  split; [vm_compute; reflexivity|].
  split; [vm_compute; reflexivity|].
  vm_compute; discriminate.
Qed.

(** C1, amended.  When every request to the generative service fails (it
    rejects or runs into the 10 s time-out), [processMetric] sends exactly
    [retries] requests (2 for a primary metric, 1 for a deep metric, as
    [generateAnalytics] calls it), waits one second between two of them, and
    then throws the error of the last request to its caller; it does not
    return a fallback result in that case. *)
Theorem processMetric_rethrows_after_retries
    (J : JSON) (self : AnalyticsGenerator) (service : Model) (chunk : string)
    (metric : string) (type : tier) (retries : nat) :
  model self = Some service ->
  processLargeData J (data self) = Ok (Some chunk) ->
  (forall prompt attempt, reply_error (service prompt attempt) <> None) ->
  0 < retries ->
  exists e,
    reply_error (service (promptFor chunk type metric) (retries - 1)) = Some e
    /\ fst (processMetric J self metric type retries) = Throw e
    /\ snd (processMetric J self metric type retries)
       = raising_log type metric 0 retries
    /\ attempts (snd (processMetric J self metric type retries)) = retries
    /\ List.length (filter is_Backoff (snd (processMetric J self metric type retries)))
       = retries - 1.
Proof.
  intros Hmodel Hdata Hraises Hretries.
  destruct retries as [|remaining]; [lia|].
  destruct (processMetric_from_raises J self service chunk Hmodel Hdata
              metric type (S remaining) (fun a => Hraises _ a) remaining 0)
    as (e & Hlast & Hrun); [lia|].
  exists e; unfold processMetric; rewrite Hrun; cbn [fst snd].
  rewrite attempts_raising_log, backoffs_raising_log; auto.
Qed.

Lemma processMetric_rethrows_after_retries_witness :
  exists e,
    fst (processMetric (Mock.JSON_with []) (Mock.generator Mock.unavailable)
           "Data Overview" Primary 2) = Throw e
    /\ attempts (snd (processMetric (Mock.JSON_with []) (Mock.generator Mock.unavailable)
                        "Data Overview" Primary 2)) = 2.
Proof.
  destruct (processMetric_rethrows_after_retries
              (Mock.JSON_with []) (Mock.generator Mock.unavailable) Mock.unavailable
              Mock.csvChunk "Data Overview" Primary 2)
    as (e & _ & Hthrow & _ & Hattempts & _).
  - reflexivity.
  - vm_compute; reflexivity.
  - intros prompt attempt; simpl; discriminate.
  - lia.
  - exists e; split; assumption.
Defined.

(** The other way out of the loop: when no attempt throws and none finds an
    entry for the metric, the driver returns the fallback result, without
    any back-off. *)
Lemma processMetric_fallback_without_entry
    (J : JSON) (self : AnalyticsGenerator) (metric : string) (type : tier) :
  (forall attempt, exists log, attemptMetric J self metric type attempt = (Ok None, log)) ->
  forall retries,
    fst (processMetric J self metric type retries) = Ok (getFallbackMetric metric).
Proof.
  intros Hnone retries; unfold processMetric.
  generalize 0 as attempt; generalize retries at 2 as remaining.
  induction remaining as [|remaining IH]; intros attempt; [reflexivity|].
  destruct (Hnone attempt) as [log Hrun].
  cbn [processMetric_from].
  rewrite (bind_Ok _ _ None log) by (now apply try_catch_Ok).
  apply IH.
Qed.

(** With [retries = 0] no request is sent at all. *)
Lemma processMetric_zero_retries J self metric type :
  processMetric J self metric type 0 = (Ok (getFallbackMetric metric), []).
Proof. reflexivity. Qed.

(* ===================================================================== *)
(** ** Logs of the driver *)
(* ===================================================================== *)

Lemma attemptMetric_events J self metric type attempt :
  snd (attemptMetric J self metric type attempt) = []
  \/ snd (attemptMetric J self metric type attempt) = [Generate type metric attempt].
Proof.
  unfold attemptMetric, generateContent.
  destruct (processLargeData J (data self)) as [[d|]|e]; simpl; auto.
  destruct (model self) as [service|]; simpl; auto.
  destruct (service _ attempt) as [text| |]; simpl; auto.
  destruct (safeParseResponse J text); simpl; auto.
Qed.

Lemma attemptMetric_log J self service chunk metric type attempt :
  model self = Some service ->
  processLargeData J (data self) = Ok (Some chunk) ->
  snd (attemptMetric J self metric type attempt) = [Generate type metric attempt].
Proof.
  intros Hmodel Hdata; unfold attemptMetric, generateContent.
  rewrite Hdata, Hmodel; simpl.
  destruct (service _ attempt) as [text| |]; simpl; auto.
  destruct (safeParseResponse J text); simpl; auto.
Qed.

Lemma processMetric_from_events J self metric type retries remaining attempt :
  Forall (tier_event type)
    (snd (processMetric_from J self metric type retries remaining attempt)).
Proof.
  revert attempt; induction remaining as [|remaining IH]; intros attempt;
    [constructor|].
  cbn [processMetric_from].
  pose proof (attemptMetric_events J self metric type attempt) as Hlog.
  destruct (attemptMetric J self metric type attempt) as [[[v|]|e] log];
    cbn [snd] in Hlog; cbn [try_catch bind ret fst snd].
  - rewrite app_nil_r; destruct Hlog as [-> | ->]; repeat constructor.
  - specialize (IH (S attempt)).
    destruct (processMetric_from J self metric type retries remaining (S attempt))
      as [r log']; cbn [snd] in *.
    apply Forall_app; split; auto.
    destruct Hlog as [-> | ->]; repeat constructor.
  - destruct (attempt =? retries - 1); cbn [throw emit bind ret fst snd app].
    + rewrite app_nil_r; destruct Hlog as [-> | ->]; repeat constructor.
    + specialize (IH (S attempt)).
      destruct (processMetric_from J self metric type retries remaining (S attempt))
        as [r log']; cbn [snd] in *.
      apply Forall_app; split; [| exact IH].
      destruct Hlog as [-> | ->]; repeat constructor.
Qed.

(** A driver with one attempt: what the attempt does is what the driver does,
    a fallback standing in for a missing entry. *)
Lemma processMetric_single_attempt J self metric type :
  processMetric J self metric type 1
  = match attemptMetric J self metric type 0 with
    | (Ok (Some v), log) => (Ok v, log)
    | (Ok None, log) => (Ok (getFallbackMetric metric), log)
    | (Throw e, log) => (Throw e, log)
    end.
Proof.
  unfold processMetric; cbn [processMetric_from].
  destruct (attemptMetric J self metric type 0) as [[[v|]|e] log];
    cbn [try_catch bind ret throw fst snd Nat.sub Nat.eqb];
    now rewrite ?app_nil_r.
Qed.

Lemma metricPromises_log J self type retries metrics :
  snd (Promise_all (metricPromises J self type retries metrics))
  = concat (map (fun metric => snd (processMetric J self metric type retries)) metrics).
Proof.
  rewrite Promise_all_log; unfold metricPromises; rewrite map_map.
  f_equal; apply map_ext; intros metric.
  destruct (processMetric J self metric type retries) as [[v|e] log];
    cbn [bind ret snd]; now rewrite ?app_nil_r.
Qed.

Lemma metricPromises_events J self type retries metrics :
  Forall (tier_event type)
    (snd (Promise_all (metricPromises J self type retries metrics))).
Proof.
  rewrite metricPromises_log.
  induction metrics as [|metric rest IH]; simpl; [constructor|].
  apply Forall_app; split; [apply processMetric_from_events | exact IH].
Qed.

Lemma metricPromises_names J self type retries metrics entries :
  fst (Promise_all (metricPromises J self type retries metrics)) = Ok entries ->
  map fst entries = metrics.
Proof.
  rewrite Promise_all_resolves; unfold metricPromises.
  revert entries; induction metrics as [|metric rest IH]; intros entries H;
    inversion H as [|p entry ps es Hp Hrest]; subst; simpl; auto.
  f_equal; [| now apply IH].
  destruct (processMetric J self metric type retries) as [[v|e] log];
    cbn [bind ret fst] in Hp; [now injection Hp as <- | discriminate].
Qed.

Lemma metricPromises_rejects J self type retries metrics :
  Exists (fun metric => exists e, fst (processMetric J self metric type retries) = Throw e)
    metrics ->
  exists e, fst (Promise_all (metricPromises J self type retries metrics)) = Throw e.
Proof.
  intros Hex; apply Promise_all_rejects; unfold metricPromises.
  apply Exists_exists in Hex; destruct Hex as (metric & Hin & e & He).
  apply Exists_exists; eexists; split; [apply in_map, Hin|].
  exists e; destruct (processMetric J self metric type retries) as [[v|e'] log];
    cbn [bind ret fst] in *; congruence.
Qed.

Lemma tier_event_other type ev :
  tier_event type ev ->
  forall other, other <> type -> is_Generate_of other ev = false.
Proof.
  destruct ev as [t metric attempt|ms]; simpl; intros H other Hneq.
  - subst; destruct type, other; auto; congruence.
  - now destruct other.
Qed.

(* ===================================================================== *)
(** ** Objects built from entries *)
(* ===================================================================== *)

Lemma obj_get_set_same fields key v : obj_get (obj_set fields key v) key = Some v.
Proof.
  induction fields as [|[k w] rest IH]; simpl.
  - now rewrite String.eqb_refl.
  - destruct (String.eqb k key) eqn:Hk; simpl; rewrite Hk; auto.
Qed.

Lemma obj_get_set_other fields key v key' :
  key <> key' -> obj_get (obj_set fields key v) key' = obj_get fields key'.
Proof.
  intros Hneq; induction fields as [|[k w] rest IH]; simpl.
  - now rewrite (proj2 (String.eqb_neq key key') Hneq).
  - destruct (String.eqb k key) eqn:Hk; simpl.
    + apply String.eqb_eq in Hk; subst k.
      now rewrite (proj2 (String.eqb_neq key key') Hneq).
    + destruct (String.eqb k key'); auto.
Qed.

Lemma obj_get_set_defined fields key v key' :
  obj_get fields key' <> None -> obj_get (obj_set fields key v) key' <> None.
Proof.
  intros H; destruct (string_dec key key') as [->|Hneq].
  - rewrite obj_get_set_same; discriminate.
  - now rewrite obj_get_set_other.
Qed.

Lemma fromEntries_has_property entries key :
  In key (map fst entries) -> has_property (fromEntries entries) key.
Proof.
  unfold fromEntries, has_property.
  assert (H : forall acc,
             In key (map fst entries) \/ obj_get acc key <> None ->
             obj_get (fold_left (fun o kv => obj_set o (fst kv) (snd kv)) entries acc) key
             <> None).
  { induction entries as [|[k v] rest IH]; intros acc [Hin|Hacc]; simpl in *;
      try contradiction; auto.
    - destruct Hin as [->|Hin]; apply IH; auto.
      right; rewrite obj_get_set_same; discriminate.
    - apply IH; right; now apply obj_get_set_defined. }
  intros Hin; apply H; auto.
Qed.

(* ===================================================================== *)
(** ** The section orchestrator (generateAnalytics) *)
(* ===================================================================== *)

Section OrchestratorProofs.
Variable J : JSON.
Variable self : AnalyticsGenerator.
Variable data_ : value.
Variable section : AnalysisSection.
Variable filename : string.
Variable timerFires : bool.

(** The deep tier never throws, names every deep metric of the section, and
    its log is that of [deepPromise]. *)
Lemma deepTier_resolves :
  exists deepResults,
    deepTier J (storeData self data_) section timerFires
    = (Ok deepResults, snd (deepPromise J self data_ section))
    /\ map fst deepResults = deepMetrics section
    /\ (timerFires = false ->
        forall entries, fst (deepPromise J self data_ section) = Ok entries -> deepResults = entries)
    /\ (timerFires = true \/ (exists e, fst (deepPromise J self data_ section) = Throw e) ->
        deepResults = fallbackEntries (deepMetrics section)).
Proof.
  unfold deepTier, deepPromise, deepMetrics.
  destruct (deep (subsections section)) as [[|metric rest]|].
  - exists []; repeat split; cbn; auto.
    + intros _ entries H; now injection H as <-.
  - set (deep_ := metric :: rest).
    change (0 <? List.length deep_) with true; cbv iota.
    unfold race_timeout.
    destruct (Promise_all (metricPromises J (storeData self data_) Deep 1 deep_))
      as [[entries|e] log] eqn:Hrun; destruct timerFires;
      cbn [try_catch ret fst snd]; rewrite ?app_nil_r.
    + exists (fallbackEntries deep_); repeat split; auto.
      * unfold fallbackEntries; rewrite map_map; apply map_id.
      * discriminate.
    + exists entries; repeat split; auto.
      * apply (metricPromises_names J (storeData self data_) Deep 1).
        now rewrite Hrun.
      * intros _ entries' H; now injection H as <-.
      * intros [H|[e H]]; discriminate.
    + exists (fallbackEntries deep_); repeat split; auto.
      * unfold fallbackEntries; rewrite map_map; apply map_id.
      * discriminate.
    + exists (fallbackEntries deep_); repeat split; auto.
      * unfold fallbackEntries; rewrite map_map; apply map_id.
      * intros _ entries H; discriminate.
  - exists []; repeat split; cbn; auto.
    intros _ entries H; now injection H as <-.
Qed.

(** The [catch] block: when the primary tier rejects, the deep tier is
    never started and the section fallback is returned. *)
Lemma generateAnalytics_primary_rejected service chunk e :
  model self = Some service ->
  processLargeData J data_ = Ok chunk ->
  fst (primaryTier J self data_ section) = Throw e ->
  generateAnalytics J self data_ section filename timerFires
  = (getFallbackResponse section, snd (primaryTier J self data_ section)).
Proof.
  intros Hmodel Hdata Hprimary; unfold primaryTier in *.
  unfold generateAnalytics, validateModel; rewrite Hmodel, Hdata.
  cbn [liftR bind ret fst snd app].
  destruct (Promise_all (metricPromises J (storeData self data_) Primary 2
                           (primary (subsections section)))) as [r log].
  cbn [fst] in Hprimary; subst r.
  cbn [try_catch liftR bind ret fst snd app]; rewrite ?app_nil_r; reflexivity.
Qed.

(** The [try] block run to its end: both tiers settle, in this order. *)
Lemma generateAnalytics_primary_resolved service chunk primaryResults deepResults deepLog :
  model self = Some service ->
  processLargeData J data_ = Ok chunk ->
  fst (primaryTier J self data_ section) = Ok primaryResults ->
  deepTier J (storeData self data_) section timerFires = (Ok deepResults, deepLog) ->
  generateAnalytics J self data_ section filename timerFires
  = (Ok (JObj [("primary", fromEntries primaryResults);
               ("deep", fromEntries deepResults)]),
     (snd (primaryTier J self data_ section) ++ deepLog)%list).
Proof.
  intros Hmodel Hdata Hprimary Hdeep; unfold primaryTier in *.
  unfold generateAnalytics, validateModel; rewrite Hmodel, Hdata.
  cbn [liftR bind ret fst snd app].
  destruct (Promise_all (metricPromises J (storeData self data_) Primary 2
                           (primary (subsections section)))) as [r log].
  cbn [fst] in Hprimary; subst r.
  cbn [bind]; rewrite Hdeep; cbn [try_catch bind ret fst snd app];
    rewrite ?app_nil_r; reflexivity.
Qed.

End OrchestratorProofs.

Lemma getFallbackResponse_shape section deep_ :
  deep (subsections section) = Some deep_ ->
  exists primaryFields deepFields,
    getFallbackResponse section
    = Ok (JObj [("primary", JObj primaryFields); ("deep_metrics", JObj deepFields)]).
Proof.
  intros Hdeep; unfold getFallbackResponse, fromEntries; rewrite Hdeep; eauto.
Qed.

Lemma getFallbackResponse_absent_deep section :
  deep (subsections section) = None ->
  getFallbackResponse section = Throw (TypeError "undefined" "map").
Proof. intros Hdeep; unfold getFallbackResponse; now rewrite Hdeep. Qed.

(** With a [deep] list in the section, [generateAnalytics] never throws. *)
Lemma generateAnalytics_never_throws J self data_ section filename timerFires deep_ :
  deep (subsections section) = Some deep_ ->
  exists outcome,
    fst (generateAnalytics J self data_ section filename timerFires) = Ok outcome.
Proof.
  intros Hdeep; unfold generateAnalytics.
  destruct (getFallbackResponse_shape section deep_ Hdeep) as (pf & df & Hfb).
  match goal with |- context [try_catch ?body _] => destruct body as [[v|e] log] end;
    cbn [try_catch liftR fst snd]; rewrite ?Hfb; eauto.
Qed.

(** Without a [deep] list, which the [try] block allows for, the [catch]
    block itself throws and [generateAnalytics] rejects. *)
Lemma generateAnalytics_throws_without_deep_list :
  fst (generateAnalytics (Mock.JSON_with []) (Mock.generator Mock.unavailable)
         Mock.csvDocument
         {| title := "File Analysis";
            subsections := {| primary := ["Data Overview"]; deep := None |} |}
         "sales.csv" false)
  = Throw (TypeError "undefined" "map").
Proof. vm_compute; reflexivity. Qed.

(** C2 at a failing input: a parsed CSV document, the section of
    [processRequest] and a service that is down.  The primary tier rejects,
    and what [generateAnalytics] returns from its [catch] block has the deep
    names under [deep_metrics], no property [deep], and a string, not a
    metric result, under every metric name. *)
Theorem generateAnalytics_fallback_shape :
  exists outcome,
    fst (generateAnalytics (Mock.JSON_with []) (Mock.generator Mock.unavailable)
           Mock.csvDocument fileSection "sales.csv" false) = Ok outcome
    /\ outcome
       = JObj [("primary",
                JObj [("Data Overview", JStr "Analysis pending for Data Overview");
                      ("Key Metrics", JStr "Analysis pending for Key Metrics")]);
               ("deep_metrics",
                JObj [("Statistical Analysis",
                       JStr "Deep analysis pending for Statistical Analysis");
                      ("Data Distribution",
                       JStr "Deep analysis pending for Data Distribution")])]
    /\ get_prop outcome "deep" = JUndefined
    /\ typeof (get_prop (get_prop outcome "primary") "Data Overview") = "string"
    /\ get_prop (get_prop (get_prop outcome "primary") "Data Overview") "summary"
       = JUndefined.
Proof.
  eexists; split; [vm_compute; reflexivity|].
  split; [reflexivity|].
  repeat split; vm_compute; reflexivity.
Qed.

Lemma no_deep_request log :
  Forall (tier_event Primary) log -> filter (is_Generate_of Deep) log = [].
Proof.
  induction 1 as [|ev log Hev _ IH]; simpl; auto.
  rewrite (tier_event_other Primary ev Hev Deep) by discriminate; exact IH.
Qed.

Lemma deepPromise_log J self data_ section service chunk :
  model self = Some service ->
  processLargeData J data_ = Ok (Some chunk) ->
  snd (deepPromise J self data_ section)
  = map (fun metric => Generate Deep metric 0) (deepMetrics section).
Proof.
  intros Hmodel Hdata; unfold deepPromise; rewrite metricPromises_log.
  induction (deepMetrics section) as [|metric rest IH]; simpl; auto.
  rewrite IH, processMetric_single_attempt.
  pose proof (attemptMetric_log J (storeData self data_) service chunk metric Deep 0
                Hmodel Hdata) as Hlog.
  destruct (attemptMetric J (storeData self data_) metric Deep 0) as [[[v|]|e] log];
    cbn [snd] in *; now rewrite Hlog.
Qed.

(** C3, as stated, fails: with a service that is down the primary tier
    rejects, and then no request of the deep tier is ever sent although the
    section lists two deep metrics; what comes back has no [deep] map. *)
Lemma deep_tier_not_started_after_primary_failure :
  deepMetrics fileSection = ["Statistical Analysis"; "Data Distribution"]
  /\ filter (is_Generate_of Deep)
       (snd (generateAnalytics (Mock.JSON_with []) (Mock.generator Mock.unavailable)
               Mock.csvDocument fileSection "sales.csv" false)) = []
  /\ ~ (forall metric,
          In metric (deepMetrics fileSection) ->
          exists attempt,
            In (Generate Deep metric attempt)
               (snd (generateAnalytics (Mock.JSON_with [])
                       (Mock.generator Mock.unavailable)
                       Mock.csvDocument fileSection "sales.csv" false))).
Proof.
  split; [reflexivity|].
  assert (Hlog : filter (is_Generate_of Deep)
                   (snd (generateAnalytics (Mock.JSON_with [])
                           (Mock.generator Mock.unavailable)
                           Mock.csvDocument fileSection "sales.csv" false)) = [])
    by (vm_compute; reflexivity).
  split; [exact Hlog|].
  intros Hall.
  destruct (Hall "Statistical Analysis") as [attempt Hin]; [simpl; auto|].
  assert (Hin' : In (Generate Deep "Statistical Analysis" attempt)
                   (filter (is_Generate_of Deep)
                      (snd (generateAnalytics (Mock.JSON_with [])
                              (Mock.generator Mock.unavailable)
                              Mock.csvDocument fileSection "sales.csv" false))))
    by (apply filter_In; split; [exact Hin | reflexivity]).
  rewrite Hlog in Hin'; exact Hin'.
Qed.

(** C3, amended.  The deep tier is started only after the primary tier has
    resolved: in every run all requests of the primary tier come before all
    requests of the deep tier; when a primary metric's driver throws, no deep
    request is sent and the section fallback of the [catch] block is
    returned; when the primary tier resolves, the deep tier sends one request
    for every deep metric name and the outcome's [deep] map has an entry for
    every deep metric name. *)
Theorem deep_tier_follows_primary_tier
    (J : JSON) (self : AnalyticsGenerator) (data_ : value)
    (section : AnalysisSection) (filename : string) (timerFires : bool)
    (service : Model) (chunk : string) :
  model self = Some service ->
  processLargeData J data_ = Ok (Some chunk) ->
  (exists deepLog,
      snd (generateAnalytics J self data_ section filename timerFires)
      = (snd (primaryTier J self data_ section) ++ deepLog)%list
      /\ Forall (tier_event Primary) (snd (primaryTier J self data_ section))
      /\ Forall (tier_event Deep) deepLog)
  /\ ((exists e, fst (primaryTier J self data_ section) = Throw e) ->
      generateAnalytics J self data_ section filename timerFires
      = (getFallbackResponse section, snd (primaryTier J self data_ section))
      /\ filter (is_Generate_of Deep)
           (snd (generateAnalytics J self data_ section filename timerFires)) = [])
  /\ (forall primaryResults,
        fst (primaryTier J self data_ section) = Ok primaryResults ->
        snd (generateAnalytics J self data_ section filename timerFires)
        = (snd (primaryTier J self data_ section)
           ++ map (fun metric => Generate Deep metric 0) (deepMetrics section))%list
        /\ exists deepResults,
             fst (generateAnalytics J self data_ section filename timerFires)
             = Ok (JObj [("primary", fromEntries primaryResults);
                         ("deep", fromEntries deepResults)])
             /\ map fst deepResults = deepMetrics section
             /\ forall metric,
                  In metric (deepMetrics section) ->
                  has_property (fromEntries deepResults) metric).
Proof.
  intros Hmodel Hdata.
  pose proof (metricPromises_events J (storeData self data_) Primary 2
                (primary (subsections section))) as Hprimary.
  pose proof (metricPromises_events J (storeData self data_) Deep 1
                (deepMetrics section)) as Hdeep.
  fold (primaryTier J self data_ section) in Hprimary.
  fold (deepPromise J self data_ section) in Hdeep.
  assert (Hrejected :
            (exists e, fst (primaryTier J self data_ section) = Throw e) ->
            generateAnalytics J self data_ section filename timerFires
            = (getFallbackResponse section, snd (primaryTier J self data_ section))).
  { intros [e He].
    exact (generateAnalytics_primary_rejected J self data_ section filename timerFires
             service (Some chunk) e Hmodel Hdata He). }
  destruct (deepTier_resolves J self data_ section timerFires)
    as (deepResults & Htier & Hnames & _).
  split; [|split].
  - destruct (fst (primaryTier J self data_ section)) as [primaryResults|e] eqn:Hfst.
    + exists (snd (deepPromise J self data_ section)).
      rewrite (generateAnalytics_primary_resolved J self data_ section filename
                 timerFires service (Some chunk) primaryResults deepResults _
                 Hmodel Hdata Hfst Htier); auto.
    + exists []; rewrite Hrejected by eauto.
      cbn [snd]; rewrite app_nil_r; auto.
  - intros Hex; split; [now apply Hrejected|].
    rewrite Hrejected by exact Hex; cbn [snd].
    now apply no_deep_request.
  - intros primaryResults Hfst.
    rewrite (generateAnalytics_primary_resolved J self data_ section filename
               timerFires service (Some chunk) primaryResults deepResults _
               Hmodel Hdata Hfst Htier); cbn [fst snd].
    rewrite (deepPromise_log J self data_ section service chunk Hmodel Hdata).
    split; [reflexivity|].
    exists deepResults; split; [reflexivity|].
    split; [exact Hnames|].
    intros metric Hin; apply fromEntries_has_property; now rewrite Hnames.
Qed.

Lemma deep_tier_follows_primary_tier_witness :
  (generateAnalytics (Mock.JSON_with []) (Mock.generator Mock.unavailable)
     Mock.csvDocument fileSection "sales.csv" false
   = (getFallbackResponse fileSection,
      snd (primaryTier (Mock.JSON_with []) (Mock.generator Mock.unavailable)
             Mock.csvDocument fileSection)))
  /\ snd (generateAnalytics Mock.JSON_ok (Mock.generator (Mock.answering Mock.analysisText))
            Mock.csvDocument fileSection "sales.csv" false)
     = (snd (primaryTier Mock.JSON_ok (Mock.generator (Mock.answering Mock.analysisText))
               Mock.csvDocument fileSection)
        ++ [Generate Deep "Statistical Analysis" 0;
            Generate Deep "Data Distribution" 0])%list.
Proof.
  split.
  - destruct (deep_tier_follows_primary_tier
                (Mock.JSON_with []) (Mock.generator Mock.unavailable)
                Mock.csvDocument fileSection "sales.csv" false
                Mock.unavailable Mock.csvChunk)
      as (_ & Hrejected & _).
    + reflexivity.
    + vm_compute; reflexivity.
    + apply Hrejected.
      exists (JsError "503 Service Unavailable"); vm_compute; reflexivity.
  - destruct (deep_tier_follows_primary_tier
                Mock.JSON_ok (Mock.generator (Mock.answering Mock.analysisText))
                Mock.csvDocument fileSection "sales.csv" false
                (Mock.answering Mock.analysisText) Mock.csvChunk)
      as (_ & _ & Hresolved).
    + reflexivity.
    + vm_compute; reflexivity.
    + refine (proj1 (Hresolved
                       [("Data Overview", Mock.findings "Data Overview");
                        ("Key Metrics", Mock.findings "Key Metrics")] _)).
      vm_compute; reflexivity.
Defined.

(** C10.  Once the primary tier has resolved, any rejection of the grouped
    deep promise puts the fallback result under every deep metric name: a deep
    metric has one attempt, so what its attempt throws its driver throws, and
    one deep driver that throws (or the 15 s timer firing first) makes the
    [catch] block replace the whole deep tier, whatever the other deep
    metrics returned. *)
Theorem deep_tier_all_or_nothing
    (J : JSON) (self : AnalyticsGenerator) (data_ : value)
    (section : AnalysisSection) (filename : string) (timerFires : bool)
    (service : Model) (chunk : option string)
    (primaryResults : list (string * value)) (deep_ : list string) :
  model self = Some service ->
  processLargeData J data_ = Ok chunk ->
  fst (primaryTier J self data_ section) = Ok primaryResults ->
  deep (subsections section) = Some deep_ ->
  timerFires = true
  \/ Exists (fun metric =>
               exists e log,
                 attemptMetric J (storeData self data_) metric Deep 0 = (Throw e, log))
       deep_ ->
  (forall metric e log,
      attemptMetric J (storeData self data_) metric Deep 0 = (Throw e, log) ->
      processMetric J (storeData self data_) metric Deep 1 = (Throw e, log))
  /\ fst (generateAnalytics J self data_ section filename timerFires)
     = Ok (JObj [("primary", fromEntries primaryResults);
                 ("deep", fromEntries (fallbackEntries deep_))]).
Proof.
  intros Hmodel Hdata Hprimary Hdeep Hfails.
  assert (Hsingle : forall metric e log,
             attemptMetric J (storeData self data_) metric Deep 0 = (Throw e, log) ->
             processMetric J (storeData self data_) metric Deep 1 = (Throw e, log)).
  { intros metric e log Hrun; rewrite processMetric_single_attempt, Hrun; reflexivity. }
  split; [exact Hsingle|].
  destruct (deepTier_resolves J self data_ section timerFires)
    as (deepResults & Htier & _ & _ & Hfallback).
  rewrite (generateAnalytics_primary_resolved J self data_ section filename
             timerFires service chunk primaryResults deepResults _
             Hmodel Hdata Hprimary Htier); cbn [fst].
  rewrite Hfallback; [unfold deepMetrics; rewrite Hdeep; reflexivity|].
  destruct Hfails as [Htimer|Hex]; [now left | right].
  unfold deepPromise, deepMetrics; rewrite Hdeep.
  apply metricPromises_rejects.
  apply Exists_exists in Hex; destruct Hex as (metric & Hin & e & log & Hrun).
  apply Exists_exists; exists metric; split; [exact Hin|].
  exists e; now rewrite (Hsingle metric e log Hrun).
Qed.

Lemma deep_tier_all_or_nothing_witness :
  fst (processMetric Mock.JSON_ok
         (Mock.generator (Mock.failing_on "Data Distribution" Mock.analysisText))
         "Statistical Analysis" Deep 1)
  = Ok (Mock.findings "Statistical Analysis")
  /\ fst (generateAnalytics Mock.JSON_ok
            (Mock.generator (Mock.failing_on "Data Distribution" Mock.analysisText))
            Mock.csvDocument fileSection "sales.csv" false)
     = Ok (JObj [("primary",
                  fromEntries [("Data Overview", Mock.findings "Data Overview");
                               ("Key Metrics", Mock.findings "Key Metrics")]);
                 ("deep",
                  fromEntries
                    (fallbackEntries ["Statistical Analysis"; "Data Distribution"]))]).
Proof.
  split; [vm_compute; reflexivity|].
  refine (proj2 (deep_tier_all_or_nothing
                   Mock.JSON_ok
                   (Mock.generator (Mock.failing_on "Data Distribution" Mock.analysisText))
                   Mock.csvDocument fileSection "sales.csv" false
                   (Mock.failing_on "Data Distribution" Mock.analysisText)
                   (Some Mock.csvChunk)
                   [("Data Overview", Mock.findings "Data Overview");
                    ("Key Metrics", Mock.findings "Key Metrics")]
                   ["Statistical Analysis"; "Data Distribution"] _ _ _ _ _)).
  - reflexivity.
  - vm_compute; reflexivity.
  - vm_compute; reflexivity.
  - reflexivity.
  - right; apply Exists_cons_tl, Exists_cons_hd.
    exists (JsError "429 Too Many Requests"), [Generate Deep "Data Distribution" 0].
    vm_compute; reflexivity.
Defined.

(* ===================================================================== *)
(** ** The format dispatcher (processFile) *)
(* ===================================================================== *)

Lemma split_from_nonempty sep s cur : split_from sep s cur <> [].
Proof.
  revert cur; induction s as [|c r IH]; intros cur; simpl; [discriminate|].
  destruct (Ascii.eqb c sep); [discriminate | apply IH].
Qed.

Lemma pop_nonempty {A} (l : list A) : l <> [] -> exists x, pop l = Some x.
Proof.
  intros Hl; unfold pop.
  destruct (rev l) as [|x rest] eqn:Hrev; [| eauto].
  apply (f_equal (@rev A)) in Hrev; rewrite rev_involutive in Hrev; contradiction.
Qed.

(** [split] never gives an empty array, so [pop()] is never undefined. *)
Lemma extension_defined filename : exists ext, extension filename = Some ext.
Proof.
  unfold extension, split.
  destruct (pop_nonempty (split_from "." filename "")
              (split_from_nonempty _ _ _)) as [x ->]; simpl; eauto.
Qed.

Section ParserTags.
Variable lib : Libraries.

Lemma processExcel_tag buffer filename doc :
  processExcel lib buffer filename = Ok doc -> get_prop doc "type" = JStr "excel".
Proof.
  unfold processExcel.
  destruct (XLSX_read lib buffer) as [workbook|e]; simpl; [| discriminate].
  match goal with |- context [fold_left ?f ?l ?a] => destruct (fold_left f l a) end;
    simpl; [| discriminate].
  intros H; injection H as <-; reflexivity.
Qed.

Lemma processCSV_tag buffer filename doc :
  processCSV lib buffer filename = Ok doc -> get_prop doc "type" = JStr "csv".
Proof.
  unfold processCSV.
  destruct (csv_parse lib (Buffer_toString lib buffer)) as [records|e]; simpl;
    [| discriminate].
  intros H; injection H as <-; reflexivity.
Qed.

Lemma processPDF_tag buffer filename doc :
  processPDF lib buffer filename = Ok doc -> get_prop doc "type" = JStr "pdf".
Proof.
  unfold processPDF.
  destruct (PDFDocument_load lib buffer) as [pages|e]; simpl; [| discriminate].
  match goal with |- context [fold_left ?f ?l ?a] => destruct (fold_left f l a) end;
    simpl; [| discriminate].
  intros H; injection H as <-; reflexivity.
Qed.

(** [extractTextFromPage] catches everything. *)
Lemma extractTextFromPage_total page : exists text, extractTextFromPage page = Ok text.
Proof.
  unfold extractTextFromPage.
  destruct (getSize page); cbn [bindR catchR]; eauto.
  destruct (getOperators page); cbn [bindR catchR]; eauto.
Qed.

(** When the libraries decode the buffer, each parser returns its document. *)
Lemma processCSV_returns buffer filename records :
  csv_parse lib (Buffer_toString lib buffer) = Ok records ->
  processCSV lib buffer filename
  = Ok (JObj [("type", JStr "csv"); ("filename", JStr filename); ("data", JArr records)]).
Proof. intros H; unfold processCSV; rewrite H; reflexivity. Qed.

Lemma processExcel_returns buffer filename workbook :
  XLSX_read lib buffer = Ok workbook ->
  (forall sheet, exists rows, XLSX_utils_sheet_to_json lib sheet = Ok rows) ->
  exists sheets,
    processExcel lib buffer filename
    = Ok (JObj [("type", JStr "excel");
                ("filename", JStr filename);
                ("sheets", JObj sheets);
                ("sheetNames", JArr (map JStr (SheetNames workbook)))]).
Proof.
  intros Hread Hsheets; unfold processExcel; rewrite Hread; cbn [bindR].
  match goal with
  | |- context [fold_left ?f (SheetNames workbook) (Ok ?a)] =>
      assert (Hfold : forall names acc, exists sheets, fold_left f names (Ok acc) = Ok sheets)
  end.
  { induction names as [|sheetName rest IH]; intros acc; cbn [fold_left bindR]; eauto.
    destruct (Hsheets (get_prop (JObj (Sheets workbook)) sheetName)) as [rows ->].
    apply IH. }
  destruct (Hfold (SheetNames workbook) []) as [sheets ->].
  exists sheets; reflexivity.
Qed.

Lemma processPDF_returns buffer filename pages :
  PDFDocument_load lib buffer = Ok pages ->
  Forall (fun page => getSize page = Ok tt) pages ->
  exists content summary,
    processPDF lib buffer filename
    = Ok (JObj [("type", JStr "pdf");
                ("filename", JStr filename);
                ("content", JStr content);
                ("pageCount", JNum (Z.of_nat (List.length pages)));
                ("summary", JStr summary)]).
Proof.
  intros Hload Hsizes; unfold processPDF; rewrite Hload; cbn [bindR].
  match goal with
  | |- context [fold_left ?f pages (Ok ?a)] =>
      assert (Hfold : forall ps, Forall (fun page => getSize page = Ok tt) ps ->
                      forall acc, exists texts, fold_left f ps (Ok acc) = Ok texts)
  end.
  { clear; induction 1 as [|page rest Hsize _ IH]; intros acc;
      cbn [fold_left bindR]; [eauto|].
    rewrite Hsize; cbn [bindR].
    destruct (extractTextFromPage_total page) as [text ->]; cbn [bindR].
    apply IH. }
  destruct (Hfold pages Hsizes []) as [texts ->].
  do 2 eexists; reflexivity.
Qed.

End ParserTags.

(** C8.  [processFile] dispatches on the lower-cased text after the last dot
    of the file name.  On xlsx and xls it is [processExcel], on csv
    [processCSV], on pdf [processPDF]; when the library decodes the buffer the
    parser returns its document, and every document a parser returns carries
    the matching [type] tag (excel, csv, pdf).  On every other extension it
    throws "Unsupported file type: <extension>" whatever the libraries would
    make of the buffer. *)
Theorem processFile_dispatch (lib : Libraries) (filename : string) (buffer : Buffer) :
  exists ext,
    extension filename = Some ext
    /\ (ext = "xlsx" \/ ext = "xls" ->
        processFile lib filename buffer = processExcel lib buffer filename
        /\ (forall workbook,
              XLSX_read lib buffer = Ok workbook ->
              (forall sheet, exists rows, XLSX_utils_sheet_to_json lib sheet = Ok rows) ->
              exists doc, processFile lib filename buffer = Ok doc)
        /\ forall doc, processFile lib filename buffer = Ok doc ->
                       get_prop doc "type" = JStr "excel")
    /\ (ext = "csv" ->
        processFile lib filename buffer = processCSV lib buffer filename
        /\ (forall records,
              csv_parse lib (Buffer_toString lib buffer) = Ok records ->
              exists doc, processFile lib filename buffer = Ok doc)
        /\ forall doc, processFile lib filename buffer = Ok doc ->
                       get_prop doc "type" = JStr "csv")
    /\ (ext = "pdf" ->
        processFile lib filename buffer = processPDF lib buffer filename
        /\ (forall pages,
              PDFDocument_load lib buffer = Ok pages ->
              Forall (fun page => getSize page = Ok tt) pages ->
              exists doc, processFile lib filename buffer = Ok doc)
        /\ forall doc, processFile lib filename buffer = Ok doc ->
                       get_prop doc "type" = JStr "pdf")
    /\ (ext <> "xlsx" -> ext <> "xls" -> ext <> "csv" -> ext <> "pdf" ->
        processFile lib filename buffer
        = Throw (JsError ("Unsupported file type: " ++ ext))).
Proof.
  destruct (extension_defined filename) as [ext Hext].
  exists ext; split; [exact Hext|].
  unfold processFile; rewrite Hext.
  split; [|split; [|split]].
  - intros Hxl.
    assert (Hrun : (if String.eqb ext "xlsx" || String.eqb ext "xls"
                    then processExcel lib buffer filename
                    else if String.eqb ext "csv" then processCSV lib buffer filename
                    else if String.eqb ext "pdf" then processPDF lib buffer filename
                    else Throw (JsError ("Unsupported file type: " ++ ext)))
                   = processExcel lib buffer filename)
      by (destruct Hxl as [-> | ->]; reflexivity).
    rewrite Hrun; split; [reflexivity | split].
    + intros workbook Hread Hsheets.
      destruct (processExcel_returns lib buffer filename workbook Hread Hsheets)
        as [sheets ->]; eauto.
    + apply processExcel_tag.
  - intros ->; cbn [String.eqb Ascii.eqb Bool.eqb orb];
      split; [reflexivity | split].
    + intros records Hparse.
      rewrite (processCSV_returns lib buffer filename records Hparse); eauto.
    + apply processCSV_tag.
  - intros ->; cbn [String.eqb Ascii.eqb Bool.eqb orb];
      split; [reflexivity | split].
    + intros pages Hload Hsizes.
      destruct (processPDF_returns lib buffer filename pages Hload Hsizes)
        as (content & summary & ->); eauto.
    + apply processPDF_tag.
  - intros H1 H2 H3 H4.
    apply String.eqb_neq in H1, H2, H3, H4.
    now rewrite H1, H2, H3, H4.
Qed.

Lemma processFile_dispatch_witness :
  (exists doc, processFile Mock.parsers "Report.XLSX" [] = Ok doc
               /\ get_prop doc "type" = JStr "excel")
  /\ processFile Mock.parsers "notes.TXT" []
     = Throw (JsError "Unsupported file type: txt").
Proof.
  split.
  - destruct (processFile_dispatch Mock.parsers "Report.XLSX" [])
      as (ext & Hext & Hexcel & _).
    vm_compute in Hext; injection Hext as <-.
    destruct (Hexcel (or_introl eq_refl)) as (_ & Hreturns & Htag).
    destruct (Hreturns {| SheetNames := ["Sheet1"]; Sheets := [("Sheet1", JObj [])] |})
      as [doc Hdoc].
    + reflexivity.
    + intros sheet; eexists; reflexivity.
    + exists doc; split; [exact Hdoc | now apply Htag].
  - destruct (processFile_dispatch Mock.parsers "notes.TXT" [])
      as (ext & Hext & _ & _ & _ & Hother).
    vm_compute in Hext; injection Hext as <-.
    apply Hother; discriminate.
Defined.

(* ===================================================================== *)
(** ** The batch loop (processRequest) *)
(* ===================================================================== *)

Section BatchProofs.
Variable env : Environment.

(** One file adds one entry: to [results] when it parses, to [errors] when
    [processFile] throws; nothing else in the loop body can throw. *)
Lemma processOne_step results errors file :
  exists entry log,
    entry_filename entry = JStr (name file)
    /\ processOne env (results, errors) file
       = (Ok (if parses (libraries env) file
              then ((results ++ [entry])%list, errors)
              else (results, (errors ++ [entry])%list)),
          log).
Proof.
  unfold processOne, parses.
  destruct (processFile (libraries env) (name file) (arrayBuffer file))
    as [doc|e]; cbn [liftR bind setModel new_AnalyticsGenerator].
  - destruct (generateAnalytics_never_throws (json env)
                {| model := Some (getGenerativeModel env); data := JNull |}
                doc fileSection (name file) (deepTimerFires env (name file))
                ["Statistical Analysis"; "Data Distribution"] eq_refl)
      as [analytics Hrun].
    cbn [data].
    destruct (generateAnalytics (json env) _ doc fileSection (name file) _)
      as [r log]; cbn [fst] in Hrun; subst r.
    eexists; exists log; split; [| cbn [try_catch bind ret fst snd app];
                                   rewrite ?app_nil_r; reflexivity].
    reflexivity.
  - eexists; exists []; split; [| reflexivity]. reflexivity.
Qed.

Lemma forEach_processOne files :
  forall results errors,
  exists rs es log,
    forEach (processOne env) files (results, errors)
    = (Ok ((results ++ rs)%list, (errors ++ es)%list), log)
    /\ map entry_filename rs
       = map (fun file => JStr (name file)) (filter (parses (libraries env)) files)
    /\ map entry_filename es
       = map (fun file => JStr (name file))
           (filter (fun file => negb (parses (libraries env) file)) files).
Proof.
  induction files as [|file rest IH]; intros results errors.
  - exists [], [], []; cbn; now rewrite !app_nil_r.
  - destruct (processOne_step results errors file) as (entry & log & Hname & Hstep).
    cbn [forEach filter]; rewrite Hstep.
    destruct (parses (libraries env) file); cbn [negb].
    + destruct (IH (results ++ [entry])%list errors) as (rs & es & log' & Hrun & Hrs & Hes).
      exists (entry :: rs), es, (log ++ log')%list; cbn [bind]; rewrite Hrun.
      rewrite <- app_assoc; cbn [map app]; rewrite Hname, Hrs, Hes; auto.
    + destruct (IH results (errors ++ [entry])%list) as (rs & es & log' & Hrun & Hrs & Hes).
      exists rs, (entry :: es), (log ++ log')%list; cbn [bind]; rewrite Hrun.
      rewrite <- app_assoc; cbn [map app]; rewrite Hname, Hrs, Hes; auto.
Qed.

Lemma filter_partition_length {A} (f : A -> bool) (l : list A) :
  List.length (filter f l) + List.length (filter (fun x => negb (f x)) l)
  = List.length l.
Proof.
  induction l as [|x l IH]; simpl; auto.
  destruct (f x); simpl; lia.
Qed.

End BatchProofs.

(** C9.  For a non-empty batch in which no file exceeds 50 MB,
    [processRequest] answers with status 200; every file adds exactly one
    entry, to [results] when [processFile] returns a document and to [errors]
    when it throws, in the order of the upload, the loop going on after a
    file that failed; [totalFiles], [successfulFiles] and [failedFiles] are
    the numbers of files, of results and of errors, and the last two add up
    to the first.  In particular three files of which only the second fails
    to parse give two results and one error. *)
Theorem processRequest_partitions_batch (env : Environment) (files : list File) :
  files <> [] ->
  (forall file, In file files -> (size file <= 50 * 1024 * 1024)%N) ->
  exists results errors log,
    processRequest env files = (Ok (batchResponse env files results errors), log)
    /\ map entry_filename results
       = map (fun file => JStr (name file)) (filter (parses (libraries env)) files)
    /\ map entry_filename errors
       = map (fun file => JStr (name file))
           (filter (fun file => negb (parses (libraries env) file)) files)
    /\ List.length results + List.length errors = List.length files
    /\ (forall f1 f2 f3,
          files = [f1; f2; f3] ->
          parses (libraries env) f1 = true ->
          parses (libraries env) f2 = false ->
          parses (libraries env) f3 = true ->
          List.length results = 2 /\ List.length errors = 1).
Proof.
  intros Hfiles Hsizes.
  destruct (forEach_processOne env files [] []) as (rs & es & log & Hrun & Hrs & Hes).
  exists rs, es, log.
  assert (Hlen_rs : List.length rs
                    = List.length (filter (parses (libraries env)) files))
    by (rewrite <- (length_map entry_filename rs), Hrs; apply length_map).
  assert (Hlen_es : List.length es
                    = List.length (filter (fun file => negb (parses (libraries env) file))
                                     files))
    by (rewrite <- (length_map entry_filename es), Hes; apply length_map).
  repeat split; auto.
  - unfold processRequest.
    destruct files as [|file rest]; [contradiction|].
    cbn [List.length Nat.eqb].
    replace (existsb (fun file0 => (50 * 1024 * 1024 <? size file0)%N) (file :: rest))
      with false.
    + rewrite Hrun; cbn [bind ret app]; rewrite app_nil_r; reflexivity.
    + symmetry; apply not_true_is_false; intros Hex.
      apply existsb_exists in Hex; destruct Hex as (big & Hin & Hbig).
      apply N.ltb_lt in Hbig; specialize (Hsizes big Hin); lia.
  - rewrite Hlen_rs, Hlen_es; apply filter_partition_length.
  - subst files; rewrite Hlen_rs; cbn [filter]; rewrite H0, H1, H2; reflexivity.
  - subst files; rewrite Hlen_es; cbn [filter]; rewrite H0, H1, H2; reflexivity.
Qed.

Lemma processRequest_partitions_batch_witness :
  exists results errors log,
    processRequest Mock.environment Mock.batch
    = (Ok (batchResponse Mock.environment Mock.batch results errors), log)
    /\ map entry_filename results = [JStr "sales.csv"; JStr "Report.XLSX"]
    /\ map entry_filename errors = [JStr "broken.pdf"]
    /\ List.length results = 2 /\ List.length errors = 1.
Proof.
  destruct (processRequest_partitions_batch Mock.environment Mock.batch)
    as (results & errors & log & Hrun & Hrs & Hes & _ & Hthree).
  - discriminate.
  - intros file Hin.
    repeat (destruct Hin as [<- | Hin]; [vm_compute; discriminate|]).
    destruct Hin.
  - exists results, errors, log; split; [exact Hrun|].
    split; [exact Hrs|]. split; [exact Hes|].
    apply (Hthree _ _ _ eq_refl); vm_compute; reflexivity.
Defined.

(* ===================================================================== *)
(** ** Response sanitizing (safeParseResponse) *)
(* ===================================================================== *)

Lemma strip_prefix_app p x : strip_prefix p (p ++ x) = Some x.
Proof.
  induction p as [|a p IH]; simpl; [now destruct x|].
  now rewrite Ascii.eqb_refl.
Qed.

Lemma strip_prefix_app_r p s r x :
  strip_prefix p s = Some r -> strip_prefix p (s ++ x) = Some (r ++ x).
Proof.
  revert s; induction p as [|a p IH]; intros s; simpl.
  - destruct s; intros H; injection H as <-; simpl; now destruct x.
  - destruct s as [|c s]; simpl; [discriminate|].
    destruct (Ascii.eqb a c); [apply IH | discriminate].
Qed.

Lemma strip_prefix_length p s r :
  strip_prefix p s = Some r -> String.length s = String.length p + String.length r.
Proof.
  revert s; induction p as [|a p IH]; intros s; simpl.
  - destruct s; intros H; injection H as <-; reflexivity.
  - destruct s as [|c s]; [discriminate|].
    destruct (Ascii.eqb a c); [| discriminate].
    intros H; simpl; f_equal; now apply IH.
Qed.

(** A pattern without line feed does not start matching in [s] and end in a
    line feed put after [s]. *)
Lemma strip_prefix_none_app_nl p s x :
  has_char "010" p = false ->
  strip_prefix p s = None ->
  strip_prefix p (s ++ String "010" x) = None.
Proof.
  revert s; induction p as [|a p IH]; intros s Hp; simpl.
  - destruct s; discriminate.
  - simpl in Hp; apply orb_false_iff in Hp; destruct Hp as [Ha Hp].
    destruct s as [|c s]; simpl; [now rewrite Ha|].
    destruct (Ascii.eqb a c); [now apply IH | reflexivity].
Qed.

(** The same for a pattern that may start with a line feed, on a text that is
    not empty. *)
Lemma strip_prefix_none_app_nl_tail p c s x :
  has_char "010" (drop 1 p) = false ->
  strip_prefix p (String c s) = None ->
  strip_prefix p (String c s ++ nl ++ x) = None.
Proof.
  destruct p as [|a p]; [discriminate|].
  cbn [drop strip_prefix append nl]; intros Hp.
  destruct (Ascii.eqb a c); [now apply strip_prefix_none_app_nl | reflexivity].
Qed.

Lemma fence_match_shorter s r :
  fence_match s = Some r -> String.length r < String.length s.
Proof.
  unfold fence_match.
  destruct (strip_prefix fence_json s) as [r1|] eqn:H1.
  - apply strip_prefix_length in H1; cbn [String.length fence_json] in H1.
    destruct (strip_prefix nl r1) as [r2|] eqn:H2; intros H; injection H as <-.
    + apply strip_prefix_length in H2; lia.
    + lia.
  - destruct (strip_prefix (nl ++ fence) s) as [r2|] eqn:H2.
    + intros H; injection H as <-.
      apply strip_prefix_length in H2; cbn in H2; lia.
    + intros H; apply strip_prefix_length in H; cbn in H; lia.
Qed.

Lemma removeFences_from_fuel n m s :
  String.length s <= n -> String.length s <= m ->
  removeFences_from n s = removeFences_from m s.
Proof.
  revert m s; induction n as [|n IH]; intros m s Hn Hm.
  - destruct s; simpl in Hn; [| lia].
    destruct m; reflexivity.
  - destruct m as [|m].
    + destruct s; simpl in Hm; [reflexivity | lia].
    + simpl. destruct (fence_match s) as [r|] eqn:Hmatch.
      * apply fence_match_shorter in Hmatch; apply IH; lia.
      * destruct s as [|c r]; [reflexivity|].
        simpl in Hn, Hm; f_equal; apply IH; lia.
Qed.

(** The global [replace], one match or one character at a time. *)
Lemma removeFences_step s :
  removeFences s
  = match fence_match s with
    | Some r => removeFences r
    | None => match s with
              | EmptyString => EmptyString
              | String c r => String c (removeFences r)
              end
    end.
Proof.
  unfold removeFences; destruct s as [|c s]; [reflexivity|].
  cbn [String.length removeFences_from].
  destruct (fence_match (String c s)) as [r|] eqn:Hmatch.
  - apply fence_match_shorter in Hmatch; simpl in Hmatch.
    apply removeFences_from_fuel; lia.
  - reflexivity.
Qed.

(** A match in [s] is a match in [s] followed by a closing fence; only the
    optional line feed of the first alternative can reach into what follows. *)
Lemma fence_match_before_closing s r :
  fence_match s = Some r ->
  fence_match (s ++ nl ++ fence) = Some (r ++ nl ++ fence)
  \/ (r = "" /\ fence_match (s ++ nl ++ fence) = Some fence).
Proof.
  unfold fence_match.
  destruct (strip_prefix fence_json s) as [r1|] eqn:H1.
  - rewrite (strip_prefix_app_r _ _ _ (nl ++ fence) H1).
    destruct (strip_prefix nl r1) as [r2|] eqn:H2; intros H; injection H as <-.
    + rewrite (strip_prefix_app_r _ _ _ (nl ++ fence) H2); auto.
    + destruct r1 as [|c r1]; [right; split; reflexivity|].
      left; unfold nl in *; cbn [strip_prefix append] in *.
      destruct (Ascii.eqb "010" c); [destruct r1; discriminate | reflexivity].
  - destruct s as [|c s]; [discriminate|].
    rewrite (strip_prefix_none_app_nl_tail fence_json c s fence eq_refl H1).
    destruct (strip_prefix (nl ++ fence) (String c s)) as [r2|] eqn:H2.
    + intros H; injection H as <-.
      rewrite (strip_prefix_app_r _ _ _ (nl ++ fence) H2); auto.
    + rewrite (strip_prefix_none_app_nl_tail (nl ++ fence) c s fence eq_refl H2).
      intros H; rewrite (strip_prefix_app_r _ _ _ (nl ++ fence) H); auto.
Qed.

Lemma no_fence_match_before_closing c s :
  fence_match (String c s) = None ->
  fence_match (String c s ++ nl ++ fence) = None.
Proof.
  unfold fence_match.
  destruct (strip_prefix fence_json (String c s)) as [r1|] eqn:H1;
    [destruct (strip_prefix nl r1); discriminate|].
  rewrite (strip_prefix_none_app_nl_tail fence_json c s fence eq_refl H1).
  destruct (strip_prefix (nl ++ fence) (String c s)) as [r2|] eqn:H2; [discriminate|].
  rewrite (strip_prefix_none_app_nl_tail (nl ++ fence) c s fence eq_refl H2).
  intros H; exact (strip_prefix_none_app_nl_tail fence c s fence eq_refl H).
Qed.

(** A closing fence on a line of its own after [s] goes away and leaves the
    rest as it would be without it. *)
Lemma removeFences_closing s :
  removeFences (s ++ nl ++ fence) = removeFences s.
Proof.
  remember (String.length s) as n eqn:Hn.
  revert s Hn; induction n as [n IH] using lt_wf_ind; intros s Hn.
  rewrite (removeFences_step s), (removeFences_step (s ++ nl ++ fence)).
  destruct (fence_match s) as [r|] eqn:Hmatch.
  - pose proof (fence_match_shorter _ _ Hmatch) as Hshort.
    destruct (fence_match_before_closing _ _ Hmatch) as [-> | [-> ->]].
    + apply (IH (String.length r)); [lia | reflexivity].
    + reflexivity.
  - destruct s as [|c s]; [reflexivity|].
    rewrite (no_fence_match_before_closing _ _ Hmatch).
    cbn [append]; f_equal.
    apply (IH (String.length s)); [subst n; simpl; lia | reflexivity].
Qed.

Lemma removeFences_fenced reply : removeFences (fenced reply) = removeFences reply.
Proof.
  unfold fenced; rewrite removeFences_step.
  unfold fence_match at 1.
  rewrite (strip_prefix_app fence_json), (strip_prefix_app nl).
  apply removeFences_closing.
Qed.

(** A match starts with a backquote, or with a line feed before one. *)
Lemma fence_match_head c s r :
  fence_match (String c s) = Some r ->
  c = "`"%char \/ (c = "010"%char /\ exists t, s = String "`" t).
Proof.
  unfold fence_match, fence_json, fence, nl; cbn [strip_prefix append].
  destruct (Ascii.eqb "`" c) eqn:Hc; [left; symmetry; now apply Ascii.eqb_eq|].
  destruct (Ascii.eqb "010" c) eqn:Hnl; [| discriminate].
  intros H; right; split; [symmetry; now apply Ascii.eqb_eq|].
  destruct s as [|d t]; [discriminate|].
  destruct (Ascii.eqb "`" d) eqn:Hd; [| discriminate].
  apply Ascii.eqb_eq in Hd; subst d; eauto.
Qed.

Lemma removeFences_keeps_opening s :
  opens_with_brace s -> opens_with_brace (removeFences s).
Proof.
  unfold opens_with_brace; induction s as [|c s IH]; [auto|].
  rewrite removeFences_step.
  destruct (fence_match (String c s)) as [r|] eqn:Hmatch.
  - apply fence_match_head in Hmatch.
    destruct Hmatch as [-> | [-> [t ->]]]; intros H; exfalso; apply H; reflexivity.
  - cbn [drop_spaces]; destruct (is_space c); [exact IH|].
    cbn [strip_prefix]; destruct (Ascii.eqb "{" c); [discriminate | auto].
Qed.

Lemma removeFences_fenced_plain reply :
  opens_with_brace reply ->
  removeFences (fenced_plain reply) = nl ++ removeFences reply.
Proof.
  intros Hopen; unfold fenced_plain.
  rewrite (removeFences_step (fence ++ nl ++ reply ++ nl ++ fence)).
  change (fence_match (fence ++ nl ++ reply ++ nl ++ fence))
    with (Some (nl ++ reply ++ nl ++ fence)).
  cbv iota beta.
  rewrite (removeFences_step (nl ++ reply ++ nl ++ fence)).
  replace (fence_match (nl ++ reply ++ nl ++ fence)) with (@None string).
  - change (nl ++ reply ++ nl ++ fence) with (String "010" (reply ++ nl ++ fence)).
    change (nl ++ removeFences reply) with (String "010" (removeFences reply)).
    cbv iota beta; f_equal; apply removeFences_closing.
  - destruct reply as [|c r]; [reflexivity|].
    unfold fence_match, fence_json, fence, nl; cbn [strip_prefix append].
    change (Ascii.eqb "`" "010") with false; rewrite Ascii.eqb_refl; cbv iota.
    destruct (Ascii.eqb "`" c) eqn:Hc; [| reflexivity].
    apply Ascii.eqb_eq in Hc; subst c.
    exfalso; apply Hopen; reflexivity.
Qed.

Lemma trimOpen_after_nl text :
  opens_with_brace text -> trimOpen (nl ++ text) = trimOpen text.
Proof.
  unfold opens_with_brace, trimOpen; intros Hopen.
  change (drop_spaces (nl ++ text)) with (drop_spaces text).
  destruct (strip_prefix "{" (drop_spaces text)); [reflexivity | contradiction].
Qed.

Lemma cleanText_fenced reply : cleanText (fenced reply) = cleanText reply.
Proof. unfold cleanText; now rewrite removeFences_fenced. Qed.

Lemma cleanText_fenced_plain reply :
  opens_with_brace reply -> cleanText (fenced_plain reply) = cleanText reply.
Proof.
  intros Hopen; unfold cleanText.
  rewrite removeFences_fenced_plain by exact Hopen.
  now rewrite trimOpen_after_nl by (apply removeFences_keeps_opening, Hopen).
Qed.

(** A text that parses to something that is not an object is answered like a
    text that does not parse. *)
Lemma safeParseResponse_not_an_object J reply parsed :
  JSON_parse J (cleanText reply) = Ok parsed ->
  truthy parsed = false \/ typeof parsed <> "object" ->
  safeParseResponse J reply = Ok degradedPayload.
Proof.
  intros Hparse Hbad; unfold safeParseResponse; rewrite Hparse; cbn [bindR].
  destruct Hbad as [-> | Htype]; [reflexivity|].
  apply String.eqb_neq in Htype; rewrite Htype, orb_true_r; reflexivity.
Qed.

(** C7.  A reply between code fences is parsed to the same result as the
    reply itself: with the fence [```json] for every reply, with the bare
    fence [```] for every reply that starts, white space aside, with an
    opening brace, as a JSON object does.  A reply in which [JSON.parse] finds
    no JSON once the fences and the outer white space are removed yields the
    canned payload ([analysis.default], summary "Analysis pending",
    [confidence_score] 0), and no reply makes [safeParseResponse] throw. *)
Theorem safeParseResponse_fences_and_degraded (J : JSON) (reply : string) :
  safeParseResponse J (fenced reply) = safeParseResponse J reply
  /\ (opens_with_brace reply ->
      safeParseResponse J (fenced_plain reply) = safeParseResponse J reply)
  /\ (forall e,
        JSON_parse J (cleanText reply) = Throw e ->
        safeParseResponse J reply = Ok degradedPayload
        /\ get_prop (get_prop (get_prop degradedPayload "analysis") "default") "summary"
           = JStr "Analysis pending"
        /\ get_prop degradedPayload "confidence_score" = JNum 0)
  /\ exists parsed, safeParseResponse J reply = Ok parsed.
Proof.
  repeat split.
  - unfold safeParseResponse; now rewrite cleanText_fenced.
  - intros Hopen; unfold safeParseResponse; now rewrite cleanText_fenced_plain.
  - unfold safeParseResponse; rewrite H; reflexivity.
  - unfold safeParseResponse.
    destruct (JSON_parse J (cleanText reply)) as [parsed|e]; cbn [bindR catchR];
      [| eauto].
    destruct (negb (truthy parsed) || negb (String.eqb (typeof parsed) "object"));
      cbn [catchR]; eauto.
Qed.

Lemma safeParseResponse_fences_and_degraded_witness :
  safeParseResponse Mock.JSON_ok (fenced_plain Mock.analysisText)
  = safeParseResponse Mock.JSON_ok Mock.analysisText
  /\ safeParseResponse Mock.JSON_ok "I could not analyze this file."
     = Ok degradedPayload.
Proof.
  split.
  - apply (safeParseResponse_fences_and_degraded Mock.JSON_ok Mock.analysisText).
    vm_compute; discriminate.
  - apply (safeParseResponse_fences_and_degraded Mock.JSON_ok
             "I could not analyze this file.")
      with (e := JsError "Unexpected token in JSON").
    vm_compute; reflexivity.
Defined.

(** The fenced well-formed answer is parsed to the object itself. *)
Lemma safeParseResponse_fenced_answer :
  safeParseResponse Mock.JSON_ok (fenced Mock.analysisText) = Ok Mock.analysisValue.
Proof. vm_compute; reflexivity. Qed.

(* ===================================================================== *)
(** ** The deep clean (cleanData) *)
(* ===================================================================== *)

(** [cleanData] on an object or an array is its loop over [Object.entries]. *)
Lemma cleanData_entries data :
  typeof data = "object" -> data <> JNull ->
  cleanData data = JObj (fold_left clean_entry (Object_entries data) []).
Proof.
  destruct data as [ | | b | n | s | items | fields]; try discriminate;
    try congruence; intros _ _; cbn [cleanData Object_entries]; f_equal.
  - generalize (@nil (string * value)) as cleaned; generalize 0 as i.
    induction items as [|v vs IH]; intros i cleaned; [reflexivity|].
    cbn [List.length seq map combine fold_left]; rewrite <- IH; reflexivity.
  - generalize (@nil (string * value)) as cleaned.
    induction fields as [|[key v] es IH]; intros cleaned; [reflexivity|].
    cbn [fold_left]; rewrite <- IH; reflexivity.
Qed.

(** Scalars, and null itself, pass through unchanged. *)
Lemma cleanData_scalar data :
  typeof data <> "object" \/ data = JNull -> cleanData data = data.
Proof.
  destruct data; intros [H | H]; try reflexivity; try discriminate;
    exfalso; apply H; reflexivity.
Qed.

(** An array never comes back as an array. *)
Lemma cleanData_array_is_object items :
  exists fields, cleanData (JArr items) = JObj fields.
Proof. rewrite cleanData_entries by (reflexivity || discriminate); eauto. Qed.

Lemma obj_set_Forall (P : value -> Prop) fields key v :
  Forall (fun kv => P (snd kv)) fields -> P v ->
  Forall (fun kv => P (snd kv)) (obj_set fields key v).
Proof.
  intros Hall Hv; induction Hall as [|[k w] rest Hw Hrest IH]; simpl.
  - repeat constructor; exact Hv.
  - destruct (String.eqb k key); constructor; auto.
Qed.

(** In what [cleanData] returns, no property holds null or undefined, at any
    depth. *)
Lemma cleanData_no_nullish_fields data : no_nullish_fields (cleanData data) = true.
Proof.
  induction data as [ | | b | n | s | items IH | fields IH] using value_induction;
    try reflexivity.
  - rewrite cleanData_entries by (reflexivity || discriminate).
    cbn [no_nullish_fields Object_entries]; apply forallb_forall.
    assert (Hentries : Forall (fun kv => no_nullish_fields (cleanData (snd kv)) = true)
                         (combine (map string_of_nat (seq 0 (List.length items))) items)).
    { generalize 0 as i; induction IH as [|v vs Hv _ IHvs]; intros i;
        [constructor | cbn; constructor; auto]. }
    revert Hentries.
    generalize (combine (map string_of_nat (seq 0 (List.length items))) items) as entries.
    intros entries Hentries.
    assert (Hloop : forall cleaned,
               Forall (fun kv => negb (is_nullish (snd kv)) && no_nullish_fields (snd kv)
                                 = true) cleaned ->
               Forall (fun kv => negb (is_nullish (snd kv)) && no_nullish_fields (snd kv)
                                 = true) (fold_left clean_entry entries cleaned)).
    { induction Hentries as [|[key v] rest Hv _ IHrest]; intros cleaned Hcleaned;
        [exact Hcleaned|].
      cbn [fold_left]; apply IHrest; unfold clean_entry; cbn [fst snd] in *.
      destruct (is_nullish v) eqn:Hnullish; [exact Hcleaned|].
      apply (obj_set_Forall
               (fun w => negb (is_nullish w) && no_nullish_fields w = true));
        [exact Hcleaned|].
      destruct (String.eqb (typeof v) "object") eqn:Htype.
      - rewrite Hv, andb_true_r.
        destruct v; try discriminate; reflexivity.
      - rewrite Hnullish; destruct v; try discriminate; reflexivity. }
    intros kv Hin; exact (proj1 (Forall_forall _ _) (Hloop [] (Forall_nil _)) kv Hin).
  - rewrite cleanData_entries by (reflexivity || discriminate).
    cbn [no_nullish_fields Object_entries]; apply forallb_forall.
    assert (Hloop : forall cleaned,
               Forall (fun kv => negb (is_nullish (snd kv)) && no_nullish_fields (snd kv)
                                 = true) cleaned ->
               Forall (fun kv => negb (is_nullish (snd kv)) && no_nullish_fields (snd kv)
                                 = true) (fold_left clean_entry fields cleaned)).
    { induction IH as [|[key v] rest Hv _ IHrest]; intros cleaned Hcleaned;
        [exact Hcleaned|].
      cbn [fold_left]; apply IHrest; unfold clean_entry; cbn [fst snd] in *.
      destruct (is_nullish v) eqn:Hnullish; [exact Hcleaned|].
      apply (obj_set_Forall
               (fun w => negb (is_nullish w) && no_nullish_fields w = true));
        [exact Hcleaned|].
      destruct (String.eqb (typeof v) "object") eqn:Htype.
      - rewrite Hv, andb_true_r.
        destruct v; try discriminate; reflexivity.
      - rewrite Hnullish; destruct v; try discriminate; reflexivity. }
    intros kv Hin; exact (proj1 (Forall_forall _ _) (Hloop [] (Forall_nil _)) kv Hin).
Qed.

(** C6 at failing inputs.  [cleanData] has no case for arrays: an array goes
    through [Object.entries] like an object, so it comes back as a plain
    object keyed by its indices, and its null elements are dropped with their
    indices.  The rows of a parsed CSV document, which [formatData] hands to
    [cleanData] inside the document object, are turned into such an object.
    Only an array that is itself the argument of [formatData] is mapped
    element by element. *)
Theorem cleanData_turns_arrays_into_objects :
  cleanData (JArr [JNum 1; JNull; JNum 2]) = JObj [("0", JNum 1); ("2", JNum 2)]
  /\ get_prop (cleanData Mock.csvDocument) "data"
     = JObj [("0", JObj [("region", JStr "north"); ("units", JStr "12")]);
             ("1", JObj [("region", JStr "south"); ("units", JStr "7")])]
  /\ (forall items, exists fields, cleanData (JArr items) = JObj fields)
  /\ (forall J items,
        formatData J (JArr items) = JSON_stringify J (JArr (map cleanData items))).
Proof.
  split; [vm_compute; reflexivity|].
  split; [vm_compute; reflexivity|].
  split; [exact cleanData_array_is_object | reflexivity].
Qed.

(* ===================================================================== *)
(** ** More on chunking and on the first chunk *)
(* ===================================================================== *)

Lemma splitIntoChunks_loop_closed text size :
  0 < size ->
  forall fuel i chunks,
    String.length text - i <= fuel ->
    splitIntoChunks_loop fuel text size i chunks
    = Some (chunks
            ++ map (fun k => slice text (i + k * size) (i + k * size + size))
                 (seq 0 (ceil_div (String.length text - i) size)))%list.
Proof.
  intros Hsize; induction fuel as [|fuel IH]; intros i chunks Hfuel.
  - simpl. destruct (Nat.ltb_spec i (String.length text)); [lia|].
    replace (String.length text - i) with 0 by lia.
    rewrite ceil_div_zero by exact Hsize; simpl; now rewrite app_nil_r.
  - simpl. destruct (Nat.ltb_spec i (String.length text)) as [Hlt|Hge].
    + rewrite IH by lia.
      rewrite (ceil_div_step (String.length text - i) size) by lia.
      replace (String.length text - (i + size)) with (String.length text - i - size)
        by lia.
      cbn [seq map]; rewrite <- seq_shift, map_map, <- app_assoc.
      cbn [app]; do 3 f_equal.
      * f_equal; lia.
      * apply map_ext; intros k; f_equal; lia.
    + replace (String.length text - i) with 0 by lia.
      rewrite ceil_div_zero by exact Hsize; simpl; now rewrite app_nil_r.
Qed.

Lemma slice_length text from to :
  String.length (slice text from to)
  = Nat.min (to - from) (String.length text - from).
Proof. unfold slice; now rewrite take_length, drop_length. Qed.

(** X1.  For a positive chunk size, [splitIntoChunks] returns the slices
    [text.slice(k * size, k * size + size)] for [k] from 0 up to
    [ceil(L / size) - 1], in this order; every chunk but the last has exactly
    [size] code units and the last one is not empty. *)
Theorem splitIntoChunks_closed_form (text : string) (size : nat) :
  0 < size ->
  splitIntoChunks text size
  = Some (map (fun k => slice text (k * size) (k * size + size))
            (seq 0 (ceil_div (String.length text) size)))
  /\ (forall k,
        S k < ceil_div (String.length text) size ->
        String.length (slice text (k * size) (k * size + size)) = size)
  /\ (forall k,
        S k = ceil_div (String.length text) size ->
        String.length (slice text (k * size) (k * size + size))
        = String.length text - k * size
        /\ 0 < String.length text - k * size).
Proof.
  intros Hsize.
  pose proof (ceil_div_is_ceiling (String.length text) size Hsize) as [Hup Hlow].
  split; [|split].
  - unfold splitIntoChunks.
    rewrite (splitIntoChunks_loop_closed text size Hsize) by lia.
    rewrite Nat.sub_0_r; reflexivity.
  - intros k Hk; rewrite slice_length.
    assert (0 < String.length text)
      by (destruct (String.length text); [rewrite ceil_div_zero in Hk; lia | lia]).
    specialize (Hlow ltac:(assumption)); nia.
  - intros k Hk; rewrite slice_length.
    assert (0 < String.length text)
      by (destruct (String.length text); [rewrite ceil_div_zero in Hk; lia | lia]).
    specialize (Hlow ltac:(assumption)); rewrite <- Hk in *.
    replace (S k - 1) with k in Hlow by lia; nia.
Qed.

Lemma splitIntoChunks_closed_form_witness :
  splitIntoChunks "abcdefghij" 4 = Some ["abcd"; "efgh"; "ij"].
Proof.
  rewrite (proj1 (splitIntoChunks_closed_form "abcdefghij" 4 ltac:(lia))).
  reflexivity.
Defined.

(** X2.  The edges of [splitIntoChunks]: an empty text gives no chunk at all,
    whatever the size (so that [chunks[0]] is undefined); a chunk size of 0 on
    a text that is not empty makes the loop run for ever. *)
Theorem splitIntoChunks_edges :
  (forall size, splitIntoChunks "" size = Some [])
  /\ (forall text fuel,
        text <> "" -> splitIntoChunks_loop fuel text 0 0 [] = None)
  /\ (forall text, text <> "" -> splitIntoChunks text 0 = None).
Proof.
  split; [reflexivity|]; split.
  - intros text fuel Htext; now apply splitIntoChunks_loop_zero_size.
  - exact splitIntoChunks_zero_size.
Qed.

Lemma splitIntoChunks_edges_witness :
  splitIntoChunks "abc" 0 = None.
Proof.
  apply (proj2 (proj2 splitIntoChunks_edges)); discriminate.
Defined.

(** X3.  Only the first chunk is kept: when the document serializes to a
    text that is not empty, [processLargeData] returns the first
    [min(25000, L)] code units of that text, a prefix of it, and the second
    truncation in the driver leaves this chunk as it is. *)
Theorem processLargeData_keeps_prefix (J : JSON) (data_ : value) (text : string) :
  formatData J data_ = Some text ->
  text <> "" ->
  exists chunk rest,
    processLargeData J data_ = Ok (Some chunk)
    /\ text = chunk ++ rest
    /\ String.length chunk = Nat.min maxChunkSize (String.length text)
    /\ truncateData chunk = chunk.
Proof.
  intros Hformat Htext.
  exists (take maxChunkSize text), (drop maxChunkSize text); repeat split.
  - now apply processLargeData_first_chunk.
  - symmetry; apply take_drop.
  - apply take_length.
  - apply truncateData_short; rewrite take_length; lia.
Qed.

Lemma processLargeData_keeps_prefix_witness :
  exists chunk rest,
    processLargeData (Mock.JSON_with []) Mock.csvDocument = Ok (Some chunk)
    /\ Mock.csvChunk = chunk ++ rest
    /\ truncateData chunk = chunk.
Proof.
  destruct (processLargeData_keeps_prefix (Mock.JSON_with []) Mock.csvDocument
              Mock.csvChunk) as (chunk & rest & Hrun & Hsplit & _ & Hsame).
  - vm_compute; reflexivity.
  - discriminate.
  - exists chunk, rest; auto.
Defined.

(** X4.  [processLargeData] cannot reject on a document that is neither null
    nor undefined: whatever goes wrong in its [try] block ends in the
    serialized error object of its [catch] block.  On null or undefined it
    rejects exactly when [formatData] gives no text. *)
Theorem processLargeData_rejects_only_nullish (J : JSON) (data_ : value) :
  (is_nullish data_ = false -> exists chunk, processLargeData J data_ = Ok chunk)
  /\ (is_nullish data_ = true ->
      formatData J data_ = None ->
      exists e, processLargeData J data_ = Throw e)
  /\ (forall text, formatData J data_ = Some text ->
                   exists chunk, processLargeData J data_ = Ok chunk).
Proof.
  unfold processLargeData; repeat split.
  - intros Hdata.
    destruct (formatData J data_) as [text|]; cbn [catchR]; [| rewrite Hdata; eauto].
    destruct (splitIntoChunks text maxChunkSize); cbn [catchR]; eauto.
  - intros Hdata ->; cbn [catchR]; rewrite Hdata; eauto.
  - intros text ->.
    destruct (splitIntoChunks text maxChunkSize); cbn [catchR]; eauto.
Qed.

Lemma processLargeData_rejects_only_nullish_witness :
  (exists chunk, processLargeData (Mock.JSON_with []) Mock.csvDocument = Ok chunk)
  /\ exists e, processLargeData (Mock.JSON_with []) JUndefined = Throw e.
Proof.
  destruct (processLargeData_rejects_only_nullish (Mock.JSON_with []) Mock.csvDocument)
    as (Hdoc & _ & _).
  destruct (processLargeData_rejects_only_nullish (Mock.JSON_with []) JUndefined)
    as (_ & Hundefined & _).
  split; [apply Hdoc; reflexivity | apply Hundefined; reflexivity].
Defined.

(* ===================================================================== *)
(** ** More on the per-metric driver *)
(* ===================================================================== *)

Lemma attempts_app log log' :
  attempts (log ++ log')%list = attempts log + attempts log'.
Proof. unfold attempts; now rewrite filter_app, length_app. Qed.

Lemma backoffs_app log log' :
  backoffs (log ++ log')%list = backoffs log + backoffs log'.
Proof. unfold backoffs; now rewrite filter_app, length_app. Qed.

Lemma attemptMetric_effort J self metric type attempt :
  attempts (snd (attemptMetric J self metric type attempt)) <= 1
  /\ backoffs (snd (attemptMetric J self metric type attempt)) = 0.
Proof.
  destruct (attemptMetric_events J self metric type attempt) as [-> | ->];
    split; cbn; lia.
Qed.

Lemma processMetric_from_effort J self metric type retries :
  forall remaining attempt,
    attempt + remaining = retries ->
    attempts (snd (processMetric_from J self metric type retries remaining attempt))
    <= remaining
    /\ backoffs (snd (processMetric_from J self metric type retries remaining attempt))
       <= remaining - 1.
Proof.
  induction remaining as [|remaining IH]; intros attempt Hsum; [split; cbn; lia|].
  cbn [processMetric_from].
  destruct (attemptMetric_effort J self metric type attempt) as [Hreq Hwait].
  destruct (IH (S attempt) ltac:(lia)) as [IHreq IHwait].
  destruct (attemptMetric J self metric type attempt) as [[[v|]|e] log];
    cbn [snd] in Hreq, Hwait; cbn [try_catch bind ret fst snd].
  - rewrite app_nil_r; lia.
  - destruct (processMetric_from J self metric type retries remaining (S attempt))
      as [r log']; cbn [snd] in *.
    rewrite attempts_app, backoffs_app; lia.
  - destruct (Nat.eqb_spec attempt (retries - 1)) as [Hlast|Hmore];
      cbn [throw emit bind ret fst snd app].
    + rewrite app_nil_r; lia.
    + destruct (processMetric_from J self metric type retries remaining (S attempt))
        as [r log']; cbn [snd] in *.
      rewrite !attempts_app, !backoffs_app; cbn; lia.
Qed.

(** X5.  Whatever the service does, [processMetric] sends at most [retries]
    requests and waits for at most [retries - 1] back-off delays; a deep
    metric (one attempt) therefore never waits. *)
Theorem processMetric_effort_bound
    (J : JSON) (self : AnalyticsGenerator) (metric : string) (type : tier)
    (retries : nat) :
  attempts (snd (processMetric J self metric type retries)) <= retries
  /\ backoffs (snd (processMetric J self metric type retries)) <= retries - 1
  /\ backoffs (snd (processMetric J self metric Deep 1)) = 0.
Proof.
  destruct (processMetric_from_effort J self metric type retries retries 0 eq_refl)
    as [Hreq Hwait].
  destruct (processMetric_from_effort J self metric Deep 1 1 0 eq_refl) as [_ Hdeep].
  unfold processMetric; repeat split; auto; lia.
Qed.

Lemma attemptMetric_returns_truthy J self metric type attempt v log :
  attemptMetric J self metric type attempt = (Ok (Some v), log) -> truthy v = true.
Proof.
  unfold attemptMetric, generateContent.
  destruct (processLargeData J (data self)) as [[d|]|e]; cbn; try discriminate.
  destruct (model self) as [service|]; cbn; try discriminate.
  destruct (service _ attempt) as [text| |]; cbn; try discriminate.
  destruct (safeParseResponse J text) as [parsed|e]; cbn; try discriminate.
  match goal with |- context [truthy ?entry] => destruct (truthy entry) eqn:Htruthy end;
    intros H; inversion H; subst; exact Htruthy.
Qed.

Lemma processMetric_from_returns_truthy J self metric type retries :
  forall remaining attempt v,
    fst (processMetric_from J self metric type retries remaining attempt) = Ok v ->
    truthy v = true.
Proof.
  induction remaining as [|remaining IH]; intros attempt v.
  - cbn; intros H; injection H as <-; reflexivity.
  - cbn [processMetric_from].
    pose proof (attemptMetric_returns_truthy J self metric type attempt) as Hattempt.
    destruct (attemptMetric J self metric type attempt) as [[[w|]|e] log];
      cbn [try_catch bind ret fst snd].
    + intros H; injection H as <-; eapply Hattempt; reflexivity.
    + specialize (IH (S attempt) v).
      destruct (processMetric_from J self metric type retries remaining (S attempt));
        exact IH.
    + destruct (attempt =? retries - 1); cbn [throw emit bind ret fst snd];
        [discriminate|].
      specialize (IH (S attempt) v).
      destruct (processMetric_from J self metric type retries remaining (S attempt));
        exact IH.
Qed.

(** X6.  What [processMetric] returns is never null, undefined or otherwise
    falsy: it is an entry of the reply that passed the truthiness test, or the
    fallback object. *)
Theorem processMetric_returns_truthy
    (J : JSON) (self : AnalyticsGenerator) (metric : string) (type : tier)
    (retries : nat) (v : value) :
  fst (processMetric J self metric type retries) = Ok v -> truthy v = true.
Proof. apply processMetric_from_returns_truthy. Qed.

Lemma processMetric_returns_truthy_witness :
  truthy (Mock.findings "Key Metrics") = true.
Proof.
  apply (processMetric_returns_truthy Mock.JSON_ok
           (Mock.generator (Mock.answering Mock.analysisText)) "Key Metrics" Primary 2).
  vm_compute; reflexivity.
Defined.

Section DriverReplies.
Variable J : JSON.
Variable self : AnalyticsGenerator.
Variable service : Model.
Variable chunk : string.
Hypothesis Hmodel : model self = Some service.
Hypothesis Hdata : processLargeData J (data self) = Ok (Some chunk).

(** One attempt whose request resolves: the entry of the parsed reply is
    returned when it is truthy, and the loop goes on otherwise. *)
Lemma attemptMetric_resolves metric type attempt text parsed :
  service (promptFor chunk type metric) attempt = Resolves text ->
  safeParseResponse J text = Ok parsed ->
  attemptMetric J self metric type attempt
  = (Ok (if truthy (metricEntry parsed metric)
         then Some (metricEntry parsed metric) else None),
     [Generate type metric attempt]).
Proof.
  intros Hreply Hparsed; unfold attemptMetric, generateContent, promptFor in *.
  rewrite Hdata, Hmodel; cbn [liftR bind ret fst snd app].
  rewrite Hreply; cbn [emit bind ret fst snd app]; rewrite Hparsed.
  reflexivity.
Qed.

Lemma processMetric_from_recovers metric type retries k text parsed :
  k < retries ->
  (forall attempt, attempt < k ->
     reply_error (service (promptFor chunk type metric) attempt) <> None) ->
  service (promptFor chunk type metric) k = Resolves text ->
  safeParseResponse J text = Ok parsed ->
  truthy (metricEntry parsed metric) = true ->
  forall failures attempt,
    attempt + failures = k ->
    processMetric_from J self metric type retries (retries - attempt) attempt
    = (Ok (metricEntry parsed metric),
       (flat_map (fun a => [Generate type metric a; Backoff 1000]) (seq attempt failures)
        ++ [Generate type metric k])%list).
Proof.
  intros Hk Hfail Hreply Hparsed Htruthy.
  induction failures as [|failures IH]; intros attempt Hsum.
  - assert (attempt = k) by lia; subst attempt.
    destruct (retries - k) as [|remaining] eqn:Hrem; [lia|].
    cbn [processMetric_from].
    rewrite (attemptMetric_resolves _ _ _ _ _ Hreply Hparsed), Htruthy.
    reflexivity.
  - destruct (retries - attempt) as [|remaining] eqn:Hrem; [lia|].
    cbn [processMetric_from].
    destruct (reply_error (service (promptFor chunk type metric) attempt))
      as [e|] eqn:He; [| destruct (Hfail attempt ltac:(lia) He)].
    rewrite (attemptMetric_raises J self service chunk Hmodel Hdata _ _ _ _ He).
    replace (attempt =? retries - 1) with false
      by (symmetry; apply Nat.eqb_neq; lia).
    cbn [try_catch emit bind ret fst snd app].
    replace remaining with (retries - S attempt) by lia.
    rewrite (IH (S attempt)) by lia.
    reflexivity.
Qed.


End DriverReplies.

(** X7.  A driver whose first [k] requests fail and whose next request, still
    within its [retries], resolves with a reply that holds a truthy entry for
    the metric returns that entry: it has sent [k + 1] requests, waited [k]
    times one second, and sends nothing after the success. *)
Theorem processMetric_recovers_after_failures
    (J : JSON) (self : AnalyticsGenerator) (service : Model) (chunk : string)
    (metric : string) (type : tier) (retries k : nat) (text : string)
    (parsed : value) :
  model self = Some service ->
  processLargeData J (data self) = Ok (Some chunk) ->
  k < retries ->
  (forall attempt, attempt < k ->
     reply_error (service (promptFor chunk type metric) attempt) <> None) ->
  service (promptFor chunk type metric) k = Resolves text ->
  safeParseResponse J text = Ok parsed ->
  truthy (metricEntry parsed metric) = true ->
  processMetric J self metric type retries
  = (Ok (metricEntry parsed metric),
     (flat_map (fun a => [Generate type metric a; Backoff 1000]) (seq 0 k)
      ++ [Generate type metric k])%list)
  /\ attempts (snd (processMetric J self metric type retries)) = k + 1
  /\ backoffs (snd (processMetric J self metric type retries)) = k.
Proof.
  intros Hmodel Hdata Hk Hfail Hreply Hparsed Htruthy.
  assert (Hrun : processMetric J self metric type retries
                 = (Ok (metricEntry parsed metric),
                    (flat_map (fun a => [Generate type metric a; Backoff 1000]) (seq 0 k)
                     ++ [Generate type metric k])%list)).
  { unfold processMetric.
    rewrite <- (Nat.sub_0_r retries) at 2.
    now apply (processMetric_from_recovers J self service chunk Hmodel Hdata
                 metric type retries k text parsed). }
  split; [exact Hrun|].
  rewrite Hrun; cbn [snd]; rewrite attempts_app, backoffs_app.
  assert (Hcount : forall start,
             attempts (flat_map (fun a => [Generate type metric a; Backoff 1000])
                         (seq start k)) = k
             /\ backoffs (flat_map (fun a => [Generate type metric a; Backoff 1000])
                            (seq start k)) = k).
  { clear; induction k as [|k IH]; intros start; [split; reflexivity|].
    destruct (IH (S start)) as [Hreq Hwait].
    cbn [seq flat_map app]; unfold attempts, backoffs in *; cbn [filter is_Generate
      is_Backoff List.length]; split; now f_equal. }
  destruct (Hcount 0) as [-> ->]; cbn; lia.
Qed.

(** A service that fails its first request and answers the following ones. *)
Lemma processMetric_recovers_after_failures_witness :
  processMetric Mock.JSON_ok
    (Mock.generator (fun prompt attempt =>
                       if attempt =? 0 then Pending else Resolves Mock.analysisText))
    "Key Metrics" Primary 2
  = (Ok (Mock.findings "Key Metrics"),
     [Generate Primary "Key Metrics" 0; Backoff 1000; Generate Primary "Key Metrics" 1]).
Proof.
  refine (proj1 (processMetric_recovers_after_failures Mock.JSON_ok
                   (Mock.generator (fun prompt attempt =>
                                      if attempt =? 0 then Pending
                                      else Resolves Mock.analysisText))
                   (fun prompt attempt =>
                      if attempt =? 0 then Pending else Resolves Mock.analysisText)
                   Mock.csvChunk "Key Metrics" Primary 2 1 Mock.analysisText
                   Mock.analysisValue _ _ _ _ _ _ _)).
  - reflexivity.
  - vm_compute; reflexivity.
  - lia.
  - intros attempt Hlt; assert (attempt = 0) by lia; subst; cbn; discriminate.
  - reflexivity.
  - vm_compute; reflexivity.
  - reflexivity.
Defined.




(* ===================================================================== *)
(** ** More on the section orchestrator *)
(* ===================================================================== *)

(** [generateAnalytics], path by path. *)
Lemma generateAnalytics_paths J self data_ section filename timerFires :
  generateAnalytics J self data_ section filename timerFires
  = match model self with
    | None => (getFallbackResponse section, [])
    | Some _ =>
        match processLargeData J data_ with
        | Throw _ => (getFallbackResponse section, [])
        | Ok _ =>
            match primaryTier J self data_ section with
            | (Throw _, log) => (getFallbackResponse section, log)
            | (Ok primaryResults, log) =>
                match deepTier J (storeData self data_) section timerFires with
                | (Ok deepResults, deepLog) =>
                    (Ok (JObj [("primary", fromEntries primaryResults);
                               ("deep", fromEntries deepResults)]),
                     (log ++ deepLog)%list)
                | (Throw _, deepLog) =>
                    (getFallbackResponse section, (log ++ deepLog)%list)
                end
            end
        end
    end.
Proof.
  unfold generateAnalytics, validateModel, primaryTier.
  destruct (model self) as [service|]; cbn [liftR bind ret try_catch fst snd app];
    [| reflexivity].
  destruct (processLargeData J data_) as [chunk|e];
    cbn [liftR bind ret try_catch fst snd app]; [| reflexivity].
  destruct (Promise_all (metricPromises J (storeData self data_) Primary 2
                           (primary (subsections section)))) as [[prs|e] log];
    cbn [liftR bind ret try_catch fst snd app]; [| now rewrite app_nil_r].
  destruct (deepTier J (storeData self data_) section timerFires) as [[drs|e] deepLog];
    cbn [liftR bind ret try_catch fst snd app]; now rewrite ?app_nil_r.
Qed.

(** X9.  A generator on which [setModel] was never called, or a document that
    [processLargeData] rejects, costs no request: [generateAnalytics] goes
    straight to its [catch] block and returns the section fallback. *)
Theorem generateAnalytics_without_request
    (J : JSON) (self : AnalyticsGenerator) (data_ : value)
    (section : AnalysisSection) (filename : string) (timerFires : bool) :
  model self = None \/ (exists e, processLargeData J data_ = Throw e) ->
  generateAnalytics J self data_ section filename timerFires
  = (getFallbackResponse section, []).
Proof.
  intros Hcause; rewrite generateAnalytics_paths.
  destruct (model self) as [service|]; [| reflexivity].
  destruct Hcause as [Hnone | [e ->]]; [discriminate | reflexivity].
Qed.

Lemma generateAnalytics_without_request_witness :
  generateAnalytics Mock.JSON_ok new_AnalyticsGenerator Mock.csvDocument fileSection
    "sales.csv" false
  = (getFallbackResponse fileSection, []).
Proof.
  apply generateAnalytics_without_request; left; reflexivity.
Defined.

Lemma fromEntries_names {A} (f : A -> string * value) (names : list A) key :
  In key (map (fun x => fst (f x)) names) ->
  has_property (fromEntries (map f names)) key.
Proof. intros Hin; apply fromEntries_has_property; now rewrite map_map. Qed.

(** X10.  No metric name is dropped: with a [deep] list in the section,
    [generateAnalytics] returns an object that has a [primary] map with a
    property for every primary name, and a property for every deep name in
    its [deep] map (the [try] block) or in its [deep_metrics] map (the
    [catch] block). *)
Theorem generateAnalytics_names_every_metric
    (J : JSON) (self : AnalyticsGenerator) (data_ : value)
    (section : AnalysisSection) (filename : string) (timerFires : bool)
    (deep_ : list string) :
  deep (subsections section) = Some deep_ ->
  exists outcome,
    fst (generateAnalytics J self data_ section filename timerFires) = Ok outcome
    /\ (forall metric, In metric (primary (subsections section)) ->
                       has_property (get_prop outcome "primary") metric)
    /\ ((forall metric, In metric deep_ ->
                        has_property (get_prop outcome "deep") metric)
        \/ (forall metric, In metric deep_ ->
                           has_property (get_prop outcome "deep_metrics") metric)).
Proof.
  intros Hdeep.
  assert (Hfallback :
            exists outcome,
              getFallbackResponse section = Ok outcome
              /\ (forall metric, In metric (primary (subsections section)) ->
                                 has_property (get_prop outcome "primary") metric)
              /\ (forall metric, In metric deep_ ->
                                 has_property (get_prop outcome "deep_metrics") metric)).
  { unfold getFallbackResponse; rewrite Hdeep; eexists; split; [reflexivity|].
    split; intros metric Hin.
    - change (has_property
                (fromEntries
                   (map (fun key => (key, JStr ("Analysis pending for " ++ key)))
                      (primary (subsections section)))) metric).
      apply fromEntries_names; cbn [fst]; now rewrite map_id.
    - change (has_property
                (fromEntries
                   (map (fun key => (key, JStr ("Deep analysis pending for " ++ key)))
                      deep_)) metric).
      apply fromEntries_names; cbn [fst]; now rewrite map_id. }
  destruct Hfallback as (fallback & Hfb & Hfb_primary & Hfb_deep).
  rewrite generateAnalytics_paths, Hfb.
  destruct (model self) as [service|]; [| exists fallback; cbn [fst]; auto].
  destruct (processLargeData J data_) as [chunk|e]; [| exists fallback; cbn [fst]; auto].
  destruct (primaryTier J self data_ section) as [[prs|e] log] eqn:Hprimary;
    [| exists fallback; cbn [fst]; auto].
  destruct (deepTier_resolves J self data_ section timerFires)
    as (drs & -> & Hnames & _).
  eexists; split; [reflexivity|]; split.
  - intros metric Hin.
    change (has_property (fromEntries prs) metric).
    apply fromEntries_has_property.
    rewrite (metricPromises_names J (storeData self data_) Primary 2
               (primary (subsections section)) prs); [exact Hin|].
    unfold primaryTier in Hprimary; now rewrite Hprimary.
  - left; intros metric Hin.
    change (has_property (fromEntries drs) metric).
    apply fromEntries_has_property; rewrite Hnames.
    unfold deepMetrics; now rewrite Hdeep.
Qed.

Lemma generateAnalytics_names_every_metric_witness :
  exists outcome,
    fst (generateAnalytics Mock.JSON_ok
           (Mock.generator (Mock.failing_on "Data Distribution" Mock.analysisText))
           Mock.csvDocument fileSection "sales.csv" false) = Ok outcome
    /\ has_property (get_prop outcome "primary") "Key Metrics".
Proof.
  destruct (generateAnalytics_names_every_metric Mock.JSON_ok
              (Mock.generator (Mock.failing_on "Data Distribution" Mock.analysisText))
              Mock.csvDocument fileSection "sales.csv" false
              ["Statistical Analysis"; "Data Distribution"] eq_refl)
    as (outcome & Hrun & Hprimary & _).
  exists outcome; split; [exact Hrun|].
  apply Hprimary; simpl; auto.
Defined.

(** X11.  The 15 s timer of the deep tier decides nothing but the content of
    the [deep] map: whether it fires or not, the same requests are sent (the
    deep promise is abandoned, not cancelled) and the [primary] map is the
    same. *)
Theorem deep_timer_leaves_primary_alone
    (J : JSON) (self : AnalyticsGenerator) (data_ : value)
    (section : AnalysisSection) (filename : string) :
  snd (generateAnalytics J self data_ section filename true)
  = snd (generateAnalytics J self data_ section filename false)
  /\ (forall fired waited,
        fst (generateAnalytics J self data_ section filename true) = Ok fired ->
        fst (generateAnalytics J self data_ section filename false) = Ok waited ->
        get_prop fired "primary" = get_prop waited "primary").
Proof.
  rewrite !generateAnalytics_paths.
  destruct (model self) as [service|];
    [| split; [reflexivity | intros ? ? H1 H2; congruence]].
  destruct (processLargeData J data_) as [chunk|e];
    [| split; [reflexivity | intros ? ? H1 H2; congruence]].
  destruct (primaryTier J self data_ section) as [[prs|e] log];
    [| split; [reflexivity | intros ? ? H1 H2; congruence]].
  destruct (deepTier_resolves J self data_ section true) as (drs1 & -> & _).
  destruct (deepTier_resolves J self data_ section false) as (drs2 & -> & _).
  split; [reflexivity|].
  intros fired waited H1 H2; cbn [fst] in *.
  injection H1 as <-; injection H2 as <-; reflexivity.
Qed.

Lemma deep_timer_leaves_primary_alone_witness :
  get_prop (JObj [("primary",
                   fromEntries [("Data Overview", Mock.findings "Data Overview");
                                ("Key Metrics", Mock.findings "Key Metrics")]);
                  ("deep",
                   fromEntries
                     (fallbackEntries ["Statistical Analysis"; "Data Distribution"]))])
    "primary"
  = get_prop (JObj [("primary",
                     fromEntries [("Data Overview", Mock.findings "Data Overview");
                                  ("Key Metrics", Mock.findings "Key Metrics")]);
                    ("deep",
                     fromEntries
                       [("Statistical Analysis", Mock.findings "Statistical Analysis");
                        ("Data Distribution", Mock.findings "Data Distribution")])])
      "primary".
Proof.
  apply (proj2 (deep_timer_leaves_primary_alone Mock.JSON_ok
                  (Mock.generator (Mock.answering Mock.analysisText))
                  Mock.csvDocument fileSection "sales.csv"));
    vm_compute; reflexivity.
Defined.

Lemma metricPromises_effort J self type retries metrics :
  attempts (snd (Promise_all (metricPromises J self type retries metrics)))
  <= retries * List.length metrics.
Proof.
  rewrite metricPromises_log.
  induction metrics as [|metric rest IH]; cbn [map concat List.length]; [cbn; lia|].
  rewrite attempts_app.
  pose proof (processMetric_from_effort J self metric type retries retries 0 eq_refl)
    as [Hreq _].
  rewrite Nat.mul_succ_r; unfold processMetric in *; lia.
Qed.

(** X12.  One run of [generateAnalytics] sends at most two requests for each
    primary metric and one for each deep metric. *)
Theorem generateAnalytics_request_budget
    (J : JSON) (self : AnalyticsGenerator) (data_ : value)
    (section : AnalysisSection) (filename : string) (timerFires : bool) :
  attempts (snd (generateAnalytics J self data_ section filename timerFires))
  <= 2 * List.length (primary (subsections section))
     + List.length (deepMetrics section).
Proof.
  rewrite generateAnalytics_paths.
  pose proof (metricPromises_effort J (storeData self data_) Primary 2
                (primary (subsections section))) as Hprimary.
  pose proof (metricPromises_effort J (storeData self data_) Deep 1
                (deepMetrics section)) as Hdeep.
  fold (primaryTier J self data_ section) in Hprimary.
  fold (deepPromise J self data_ section) in Hdeep.
  destruct (model self) as [service|]; [| cbn; lia].
  destruct (processLargeData J data_) as [chunk|e]; [| cbn; lia].
  destruct (primaryTier J self data_ section) as [[prs|e] log];
    cbn [snd] in *; [| lia].
  destruct (deepTier_resolves J self data_ section timerFires) as (drs & -> & _).
  cbn [snd]; rewrite attempts_app; lia.
Qed.

(* ===================================================================== *)
(** ** More on the batch loop and the request handler *)
(* ===================================================================== *)

Section BatchMore.
Variable env : Environment.

Lemma processOne_failed results errors file e :
  processFile (libraries env) (name file) (arrayBuffer file) = Throw e ->
  processOne env (results, errors) file
  = (Ok (results, (errors ++ [errorEntry file e])%list), []).
Proof. intros Hfile; unfold processOne; rewrite Hfile; reflexivity. Qed.

Lemma processOne_log results errors file :
  attempts (snd (processOne env (results, errors) file))
  <= if parses (libraries env) file then 6 else 0.
Proof.
  unfold processOne, parses.
  destruct (processFile (libraries env) (name file) (arrayBuffer file))
    as [doc|e]; cbn [liftR bind setModel new_AnalyticsGenerator data];
    [| cbn; lia].
  pose proof (generateAnalytics_request_budget (json env)
                {| model := Some (getGenerativeModel env); data := JNull |}
                doc fileSection (name file) (deepTimerFires env (name file)))
    as Hbudget.
  destruct (generateAnalytics (json env) _ doc fileSection (name file) _)
    as [[analytics|e] log]; cbn [try_catch bind ret fst snd app] in *;
    rewrite ?app_nil_r; exact Hbudget.
Qed.

Lemma forEach_processOne_effort files :
  forall results errors,
    attempts (snd (forEach (processOne env) files (results, errors)))
    <= 6 * List.length (filter (parses (libraries env)) files).
Proof.
  induction files as [|file rest IH]; intros results errors; [cbn; lia|].
  destruct (processOne_step env results errors file) as (entry & log & _ & Hstep).
  pose proof (processOne_log results errors file) as Hlog.
  cbn [forEach filter]; rewrite Hstep in *; cbn [snd bind] in *.
  destruct (parses (libraries env) file).
  - specialize (IH (results ++ [entry])%list errors).
    destruct (forEach (processOne env) rest ((results ++ [entry])%list, errors))
      as [r log']; cbn [snd List.length] in *.
    rewrite attempts_app; lia.
  - specialize (IH results (errors ++ [entry])%list).
    destruct (forEach (processOne env) rest (results, (errors ++ [entry])%list))
      as [r log']; cbn [snd] in *.
    rewrite attempts_app; lia.
Qed.

Lemma forEach_processOne_errors files :
  forall results errors,
  exists rs log,
    forEach (processOne env) files (results, errors)
    = (Ok ((results ++ rs)%list,
           (errors ++ map (failureEntry (libraries env))
                        (filter (fun file => negb (parses (libraries env) file)) files))%list),
       log)
    /\ (filter (parses (libraries env)) files = [] -> rs = [] /\ log = []).
Proof.
  induction files as [|file rest IH]; intros results errors.
  - exists [], []; cbn; rewrite !app_nil_r; auto.
  - destruct (processFile (libraries env) (name file) (arrayBuffer file))
      as [doc|e] eqn:Hfile.
    + assert (Hparses : parses (libraries env) file = true)
        by (unfold parses; now rewrite Hfile).
      destruct (processOne_step env results errors file) as (entry & log & _ & Hstep).
      rewrite Hparses in Hstep.
      destruct (IH (results ++ [entry])%list errors) as (rs & log' & Hrun & _).
      exists (entry :: rs), (log ++ log')%list.
      cbn [forEach filter]; rewrite Hparses, Hstep; cbn [bind negb]; rewrite Hrun.
      rewrite <- app_assoc; split; [reflexivity | discriminate].
    + assert (Hparses : parses (libraries env) file = false)
        by (unfold parses; now rewrite Hfile).
      assert (Hentry : failureEntry (libraries env) file = errorEntry file e)
        by (unfold failureEntry; now rewrite Hfile).
      destruct (IH results (errors ++ [errorEntry file e])%list)
        as (rs & log' & Hrun & Hnone).
      exists rs, log'.
      cbn [forEach filter]; rewrite Hparses, (processOne_failed results errors file e Hfile).
      cbn [bind negb map app]; rewrite Hrun, Hentry.
      rewrite <- app_assoc; split; [reflexivity | exact Hnone].
Qed.

Lemma processRequest_never_throws files :
  exists response, fst (processRequest env files) = Ok response.
Proof.
  unfold processRequest.
  destruct (List.length files =? 0); [cbn; eauto|].
  destruct (existsb _ files); [cbn; eauto|].
  destruct (forEach_processOne env files [] []) as (rs & es & log & -> & _).
  cbn; eauto.
Qed.

End BatchMore.

(** X13.  A batch costs at most six requests for each file that parses (two
    primary metrics with two attempts, two deep metrics with one), and none
    for a file that does not. *)
Theorem processRequest_request_budget (env : Environment) (files : list File) :
  attempts (snd (processRequest env files))
  <= 6 * List.length (filter (parses (libraries env)) files)
  /\ attempts (snd (processRequest env files)) <= 6 * List.length files.
Proof.
  assert (Hbudget : attempts (snd (processRequest env files))
                    <= 6 * List.length (filter (parses (libraries env)) files)).
  { unfold processRequest.
    destruct (List.length files =? 0); [cbn; lia|].
    destruct (existsb _ files); [cbn; lia|].
    pose proof (forEach_processOne_effort env files [] []) as Hloop.
    destruct (forEach_processOne env files [] []) as (rs & es & log & Hrun & _).
    rewrite Hrun in *; cbn [bind ret fst snd] in *.
    rewrite app_nil_r; exact Hloop. }
  split; [exact Hbudget|].
  pose proof (filter_length_le (parses (libraries env)) files); lia.
Qed.

(** X14.  The pre-checks of [processRequest]: an empty batch is answered with
    status 400 and "No files provided"; a batch in which one file has more
    than 50 MB is answered with status 400 and "File size exceeds 50MB limit"
    as a whole, the other files included.  In both cases nothing has been
    parsed and no request has been sent: the answer does not depend on the
    libraries or on the service. *)
Theorem processRequest_pre_checks (env : Environment) (files : list File) :
  (files = [] ->
   processRequest env files = (Ok (rejection "No files provided"), []))
  /\ (files <> [] ->
      (exists file, In file files /\ (50 * 1024 * 1024 < size file)%N) ->
      processRequest env files = (Ok (rejection "File size exceeds 50MB limit"), [])).
Proof.
  split.
  - intros ->; reflexivity.
  - intros Hfiles (file & Hin & Hbig); unfold processRequest.
    destruct files as [|first rest]; [contradiction|].
    cbn [List.length Nat.eqb].
    replace (existsb (fun file0 => (50 * 1024 * 1024 <? size file0)%N) (first :: rest))
      with true; [reflexivity|].
    symmetry; apply existsb_exists; exists file; split; [exact Hin|].
    now apply N.ltb_lt.
Qed.

Lemma processRequest_pre_checks_witness :
  processRequest Mock.environment
    [Mock.upload "sales.csv" "region,units";
     {| name := "huge.pdf"; size := 52428801; arrayBuffer := [] |}]
  = (Ok (rejection "File size exceeds 50MB limit"), []).
Proof.
  apply (proj2 (processRequest_pre_checks Mock.environment
                  [Mock.upload "sales.csv" "region,units";
                   {| name := "huge.pdf"; size := 52428801; arrayBuffer := [] |}])).
  - discriminate.
  - eexists; split; [right; left; reflexivity | reflexivity].
Defined.

(** X15.  In the answer to a batch that passes the pre-checks, [errors] lists
    the files on which [processFile] threw, in the order of the upload, each
    with the message of that error.  When every file fails the answer is
    still status 200 with [success: true], [results] is empty and no request
    has been sent. *)
Theorem processRequest_records_failures (env : Environment) (files : list File) :
  files <> [] ->
  (forall file, In file files -> (size file <= 50 * 1024 * 1024)%N) ->
  exists results log,
    processRequest env files
    = (Ok (batchResponse env files results
             (map (failureEntry (libraries env))
                (filter (fun file => negb (parses (libraries env) file)) files))),
       log)
    /\ (filter (parses (libraries env)) files = [] -> results = [] /\ log = []).
Proof.
  intros Hfiles Hsizes.
  destruct (forEach_processOne_errors env files [] []) as (rs & log & Hrun & Hnone).
  exists rs, log; split; [| exact Hnone].
  unfold processRequest.
  destruct files as [|file rest]; [contradiction|].
  cbn [List.length Nat.eqb].
  replace (existsb (fun file0 => (50 * 1024 * 1024 <? size file0)%N) (file :: rest))
    with false.
  - rewrite Hrun; cbn [bind ret app]; rewrite app_nil_r; reflexivity.
  - symmetry; apply not_true_is_false; intros Hex.
    apply existsb_exists in Hex; destruct Hex as (big & Hin & Hbig).
    apply N.ltb_lt in Hbig; specialize (Hsizes big Hin); lia.
Qed.

Lemma processRequest_records_failures_witness :
  processRequest Mock.environment
    [Mock.upload "notes.txt" "hello"; Mock.upload "broken.pdf" ""]
  = (Ok (batchResponse Mock.environment
           [Mock.upload "notes.txt" "hello"; Mock.upload "broken.pdf" ""] []
           [JObj [("filename", JStr "notes.txt");
                  ("error", JStr "Unsupported file type: txt")];
            JObj [("filename", JStr "broken.pdf");
                  ("error", JStr "PDF processing failed: No PDF header found")]]),
     []).
Proof.
  destruct (processRequest_records_failures Mock.environment
              [Mock.upload "notes.txt" "hello"; Mock.upload "broken.pdf" ""])
    as (results & log & Hrun & Hnone).
  - discriminate.
  - intros file Hin.
    repeat (destruct Hin as [<- | Hin]; [vm_compute; discriminate|]).
    destruct Hin.
  - destruct Hnone as [-> ->]; [vm_compute; reflexivity|].
    rewrite Hrun; vm_compute; reflexivity.
Defined.

(** X16.  [POST] never throws.  When the 58 s timer fires first the answer is
    status 500 with the error "Request timeout" and neither [results] nor
    [errors], although the requests of [processRequest] have been sent;
    otherwise the answer is that of [processRequest]. *)
Theorem POST_outer_guard (env : Environment) (files : list File) :
  (exists response,
      POST env files true = (Ok response, snd (processRequest env files))
      /\ status response = 500
      /\ get_prop (body response) "success" = JBool false
      /\ get_prop (body response) "error" = JStr "Request timeout"
      /\ get_prop (body response) "results" = JUndefined
      /\ get_prop (body response) "errors" = JUndefined)
  /\ POST env files false = processRequest env files
  /\ forall timerFires, exists response, fst (POST env files timerFires) = Ok response.
Proof.
  assert (Htimeout :
            exists response,
              POST env files true = (Ok response, snd (processRequest env files))
              /\ status response = 500
              /\ get_prop (body response) "success" = JBool false
              /\ get_prop (body response) "error" = JStr "Request timeout"
              /\ get_prop (body response) "results" = JUndefined
              /\ get_prop (body response) "errors" = JUndefined).
  { unfold POST, race_timeout; cbn [try_catch ret fst snd].
    eexists; split; [rewrite app_nil_r; reflexivity|].
    repeat split. }
  assert (Hquiet : POST env files false = processRequest env files).
  { unfold POST, race_timeout.
    destruct (processRequest_never_throws env files) as [response Hrun].
    destruct (processRequest env files) as [r log]; cbn [fst] in Hrun; subst r.
    reflexivity. }
  split; [exact Htimeout|]; split; [exact Hquiet|].
  intros [|].
  - destruct Htimeout as (response & -> & _); exists response; reflexivity.
  - rewrite Hquiet; apply processRequest_never_throws.
Qed.

(* ===================================================================== *)
(** ** More on the format dispatcher and the parsers *)
(* ===================================================================== *)

Lemma split_from_without_separator sep s cur :
  has_char sep s = false -> split_from sep s cur = [cur ++ s].
Proof.
  revert cur; induction s as [|c r IH]; intros cur Hs; cbn [split_from].
  - now rewrite append_nil_r.
  - cbn [has_char] in Hs; apply orb_false_iff in Hs; destruct Hs as [Hc Hr].
    rewrite Hc, IH by exact Hr.
    now rewrite append_assoc.
Qed.

Lemma pop_cons {A} (x : A) (l : list A) : l <> [] -> pop (x :: l) = pop l.
Proof.
  intros Hl; unfold pop; cbn [rev].
  destruct (rev l) as [|y rest] eqn:Hrev; [| reflexivity].
  apply (f_equal (@rev A)) in Hrev; rewrite rev_involutive in Hrev; contradiction.
Qed.

Lemma pop_split_from_after_separator sep stem rest cur :
  pop (split_from sep (stem ++ String sep rest) cur)
  = pop (split_from sep rest "").
Proof.
  revert cur; induction stem as [|c r IH]; intros cur; cbn [append split_from].
  - rewrite Ascii.eqb_refl; apply pop_cons, split_from_nonempty.
  - destruct (Ascii.eqb c sep); [| apply IH].
    rewrite pop_cons by apply split_from_nonempty; apply IH.
Qed.

Lemma extension_after_last_dot stem ext :
  has_char "." ext = false ->
  extension (stem ++ "." ++ ext) = Some (toLowerCase ext).
Proof.
  intros Hext; unfold extension, split.
  change (stem ++ "." ++ ext) with (stem ++ String "." ext).
  rewrite pop_split_from_after_separator, split_from_without_separator by exact Hext.
  reflexivity.
Qed.

Lemma extension_without_dot filename :
  has_char "." filename = false -> extension filename = Some (toLowerCase filename).
Proof.
  intros Hname; unfold extension, split.
  rewrite split_from_without_separator by exact Hname; reflexivity.
Qed.

(** X17.  The extension is the lower-cased text after the last dot of the
    file name, whatever comes before it; a name without a dot is its own
    extension.  So "stem.PDF" goes to the PDF parser for every stem, a file
    that is just named "csv" goes to the CSV parser, and a name that ends
    with a dot is rejected with an empty extension in the message. *)
Theorem extension_is_after_last_dot (lib : Libraries) (buffer : Buffer) :
  (forall stem ext,
      has_char "." ext = false ->
      extension (stem ++ "." ++ ext) = Some (toLowerCase ext))
  /\ (forall filename,
        has_char "." filename = false ->
        extension filename = Some (toLowerCase filename))
  /\ (forall stem,
        processFile lib (stem ++ ".PDF") buffer
        = processPDF lib buffer (stem ++ ".PDF"))
  /\ processFile lib "csv" buffer = processCSV lib buffer "csv"
  /\ (forall stem,
        processFile lib (stem ++ ".") buffer
        = Throw (JsError "Unsupported file type: ")).
Proof.
  split; [exact extension_after_last_dot|].
  split; [exact extension_without_dot|].
  split; [|split].
  - intros stem; unfold processFile.
    change (extension (stem ++ ".PDF")) with (extension (stem ++ "." ++ "PDF")).
    rewrite (extension_after_last_dot stem "PDF" eq_refl); reflexivity.
  - reflexivity.
  - intros stem; unfold processFile.
    change (extension (stem ++ ".")) with (extension (stem ++ "." ++ "")).
    rewrite (extension_after_last_dot stem "" eq_refl); reflexivity.
Qed.

Lemma extension_is_after_last_dot_witness :
  extension "archive.2024.tar.GZ" = Some "gz" /\ extension "README" = Some "readme".
Proof.
  destruct (extension_is_after_last_dot Mock.parsers []) as (Hdot & Hnone & _).
  split.
  - apply (Hdot "archive.2024.tar" "GZ"); reflexivity.
  - apply (Hnone "README"); reflexivity.
Defined.

Section ParserShapes.
Variable lib : Libraries.

Lemma processExcel_inversion buffer filename doc :
  processExcel lib buffer filename = Ok doc ->
  exists workbook sheets,
    XLSX_read lib buffer = Ok workbook
    /\ doc = JObj [("type", JStr "excel");
                   ("filename", JStr filename);
                   ("sheets", JObj sheets);
                   ("sheetNames", JArr (map JStr (SheetNames workbook)))].
Proof.
  unfold processExcel.
  destruct (XLSX_read lib buffer) as [workbook|e]; cbn [bindR catchR]; [| discriminate].
  match goal with |- context [fold_left ?f ?l ?a] => destruct (fold_left f l a) as [sheets|e] end;
    cbn [bindR catchR]; [| discriminate].
  intros H; injection H as <-; eauto.
Qed.

Lemma processCSV_inversion buffer filename doc :
  processCSV lib buffer filename = Ok doc ->
  exists records,
    csv_parse lib (Buffer_toString lib buffer) = Ok records
    /\ doc = JObj [("type", JStr "csv"); ("filename", JStr filename);
                   ("data", JArr records)].
Proof.
  unfold processCSV.
  destruct (csv_parse lib (Buffer_toString lib buffer)) as [records|e];
    cbn [bindR catchR]; [| discriminate].
  intros H; injection H as <-; eauto.
Qed.

Lemma processPDF_inversion buffer filename doc :
  processPDF lib buffer filename = Ok doc ->
  exists pages content summary,
    PDFDocument_load lib buffer = Ok pages
    /\ doc = JObj [("type", JStr "pdf");
                   ("filename", JStr filename);
                   ("content", JStr content);
                   ("pageCount", JNum (Z.of_nat (List.length pages)));
                   ("summary", JStr summary)].
Proof.
  unfold processPDF.
  destruct (PDFDocument_load lib buffer) as [pages|e]; cbn [bindR catchR]; [| discriminate].
  match goal with |- context [fold_left ?f ?l ?a] => destruct (fold_left f l a) as [texts|e] end;
    cbn [bindR catchR]; [| discriminate].
  intros H; injection H as <-; eauto 6.
Qed.

Lemma processFile_is_a_parser filename buffer :
  processFile lib filename buffer = processExcel lib buffer filename
  \/ processFile lib filename buffer = processCSV lib buffer filename
  \/ processFile lib filename buffer = processPDF lib buffer filename
  \/ exists message, processFile lib filename buffer = Throw (JsError message).
Proof.
  unfold processFile.
  destruct (extension filename) as [ext|]; [| eauto 6].
  destruct (String.eqb ext "xlsx" || String.eqb ext "xls"); [auto|].
  destruct (String.eqb ext "csv"); [auto|].
  destruct (String.eqb ext "pdf"); eauto 6.
Qed.

End ParserShapes.

(** X18.  A document returned by [processFile] has one of exactly three
    shapes, each with the name of the file under [filename]: the workbook
    shape (type, filename, sheets, sheetNames, with the sheet names in the
    order of the workbook), the CSV shape (type, filename, data) or the PDF
    shape (type, filename, content, pageCount, summary, with [pageCount] the
    number of pages of the loaded document, whether they hold text or not). *)
Theorem processFile_document_shape
    (lib : Libraries) (filename : string) (buffer : Buffer) (doc : value) :
  processFile lib filename buffer = Ok doc ->
  get_prop doc "filename" = JStr filename
  /\ ((exists workbook sheets,
          XLSX_read lib buffer = Ok workbook
          /\ doc = JObj [("type", JStr "excel");
                         ("filename", JStr filename);
                         ("sheets", JObj sheets);
                         ("sheetNames", JArr (map JStr (SheetNames workbook)))])
      \/ (exists records,
            csv_parse lib (Buffer_toString lib buffer) = Ok records
            /\ doc = JObj [("type", JStr "csv"); ("filename", JStr filename);
                           ("data", JArr records)])
      \/ (exists pages content summary,
            PDFDocument_load lib buffer = Ok pages
            /\ doc = JObj [("type", JStr "pdf");
                           ("filename", JStr filename);
                           ("content", JStr content);
                           ("pageCount", JNum (Z.of_nat (List.length pages)));
                           ("summary", JStr summary)])).
Proof.
  intros Hrun.
  destruct (processFile_is_a_parser lib filename buffer)
    as [Heq | [Heq | [Heq | [message Heq]]]]; rewrite Heq in Hrun.
  - destruct (processExcel_inversion lib buffer filename doc Hrun)
      as (workbook & sheets & Hread & ->).
    split; [reflexivity | left; eauto].
  - destruct (processCSV_inversion lib buffer filename doc Hrun) as (records & Hparse & ->).
    split; [reflexivity | right; left; eauto].
  - destruct (processPDF_inversion lib buffer filename doc Hrun)
      as (pages & content & summary & Hload & ->).
    split; [reflexivity | right; right; eauto 6].
  - discriminate.
Qed.

Lemma processFile_document_shape_witness :
  get_prop
    (JObj [("type", JStr "pdf"); ("filename", JStr "x.pdf");
           ("content", JStr "Quarterly report"); ("pageCount", JNum 1);
           ("summary", JStr "Text extracted successfully")])
    "filename"
  = JStr "x.pdf".
Proof.
  apply (processFile_document_shape Mock.parsers "x.pdf" (list_byte_of_string "%PDF")).
  vm_compute; reflexivity.
Defined.

(** X19.  What the parsers throw.  A failure of the library is thrown again
    as an [Error] whose message starts with the parser's own prefix and goes
    on with the library's message, or with "Unknown error" when what the
    library threw is not an [Error].  Hence everything [processFile] throws is
    an [Error] with a message. *)
Theorem parser_failures_are_wrapped
    (lib : Libraries) (filename : string) (buffer : Buffer) (e : exn) :
  (XLSX_read lib buffer = Throw e ->
   processExcel lib buffer filename
   = Throw (JsError ("Failed to process Excel file: " ++ error_message e)))
  /\ (csv_parse lib (Buffer_toString lib buffer) = Throw e ->
      processCSV lib buffer filename
      = Throw (JsError ("Failed to process CSV file: " ++ error_message e)))
  /\ (PDFDocument_load lib buffer = Throw e ->
      processPDF lib buffer filename
      = Throw (JsError ("PDF processing failed: " ++ error_message e)))
  /\ (processFile lib filename buffer = Throw e ->
      exists message, e = JsError message).
Proof.
  split; [intros H; unfold processExcel; rewrite H; reflexivity|].
  split; [intros H; unfold processCSV; rewrite H; reflexivity|].
  split; [intros H; unfold processPDF; rewrite H; reflexivity|].
  intros Hrun.
  destruct (processFile_is_a_parser lib filename buffer)
    as [Heq | [Heq | [Heq | [message Heq]]]]; rewrite Heq in Hrun.
  - unfold processExcel, catchR in Hrun.
    match type of Hrun with
    | match ?body with _ => _ end = _ => destruct body
    end; [discriminate | injection Hrun as <-; eauto].
  - unfold processCSV, catchR in Hrun.
    match type of Hrun with
    | match ?body with _ => _ end = _ => destruct body
    end; [discriminate | injection Hrun as <-; eauto].
  - unfold processPDF, catchR in Hrun.
    match type of Hrun with
    | match ?body with _ => _ end = _ => destruct body
    end; [discriminate | injection Hrun as <-; eauto].
  - injection Hrun as <-; eauto.
Qed.

Lemma parser_failures_are_wrapped_witness :
  processPDF Mock.parsers [] "broken.pdf"
  = Throw (JsError "PDF processing failed: No PDF header found").
Proof.
  apply (parser_failures_are_wrapped Mock.parsers "broken.pdf" []
           (JsError "No PDF header found")).
  reflexivity.
Defined.

Lemma fold_result_Throw {A B} (f : result A -> B -> result A) (l : list B) e :
  (forall x, f (Throw e) x = Throw e) -> fold_left f l (Throw e) = Throw e.
Proof. intros Hf; induction l as [|x l IH]; cbn; [reflexivity | now rewrite Hf]. Qed.

Section SheetsProofs.
Variable lib : Libraries.
Variable sheetsObject : list (string * value).

(** The rows the library gives for the sheet called [sheetName]. *)
Let rowsOf (sheetName : string) : result (list value) :=
  XLSX_utils_sheet_to_json lib (get_prop (JObj sheetsObject) sheetName).

Let step (acc : result (list (string * value))) (sheetName : string)
    : result (list (string * value)) :=
  let* result_ := acc in
  let* rows := rowsOf sheetName in
  Ok (obj_set result_ sheetName (JArr rows)).



End SheetsProofs.



(* ===================================================================== *)
(** ** White space and the PDF summary *)
(* ===================================================================== *)

Lemma all_space_app s t : all_space (s ++ t) = all_space s && all_space t.
Proof.
  induction s as [|c r IH]; cbn [append all_space]; [reflexivity|].
  now rewrite IH, andb_assoc.
Qed.






Section PdfProofs.
Variable lib : Libraries.

Let step (acc : result (list string)) (page : Page) : result (list string) :=
  let* textContent := acc in
  let* _ := getSize page in
  let* text := extractTextFromPage page in
  Ok (if String.eqb (trim text) "" then textContent
      else (textContent ++ [text])%list).



End PdfProofs.



(* ===================================================================== *)
(** ** combineDataSources *)
(* ===================================================================== *)

Lemma processFile_gives_documents lib filename buffer doc :
  (forall content records,
      csv_parse lib content = Ok records ->
      Forall (fun row => exists fields, row = JObj fields) records) ->
  processFile lib filename buffer = Ok doc ->
  is_document doc.
Proof.
  intros Hrows Hrun.
  destruct (processFile_is_a_parser lib filename buffer)
    as [Heq | [Heq | [Heq | [message Heq]]]]; rewrite Heq in Hrun.
  - destruct (processExcel_inversion lib buffer filename doc Hrun)
      as (workbook & sheets & _ & ->); left; eauto.
  - destruct (processCSV_inversion lib buffer filename doc Hrun) as (records & Hparse & ->).
    right; left; exists filename, records; split; [reflexivity|].
    exact (Hrows _ _ Hparse).
  - destruct (processPDF_inversion lib buffer filename doc Hrun)
      as (pages & content & summary & _ & ->); right; right; eauto 6.
  - discriminate.
Qed.

Lemma is_document_object doc : is_document doc -> exists fields, doc = JObj fields.
Proof.
  intros [(f & s & n & ->) | [(f & r & -> & _) | (f & c & p & m & ->)]]; eauto.
Qed.

Lemma is_document_not_spreadsheet doc :
  is_document doc -> has_type "spreadsheet" doc = false.
Proof.
  intros [(f & s & n & ->) | [(f & r & -> & _) | (f & c & p & m & ->)]]; reflexivity.
Qed.

Lemma filter_by_type_documents tag docs :
  Forall is_document docs ->
  filter_by_type tag docs = Ok (filter (has_type tag) docs).
Proof.
  induction 1 as [|doc rest Hdoc _ IH]; [reflexivity|].
  cbn [filter_by_type filter]; rewrite IH.
  destruct (is_document_object doc Hdoc) as [fields ->]; reflexivity.
Qed.

Section CombineProofs.
Variable coerced_positive : value -> bool.

Lemma analyzeResult_document sets doc :
  is_document doc ->
  exists sets',
    analyzeResult coerced_positive sets doc = Ok sets'
    /\ (has_type "csv" doc = false -> sets' = sets).
Proof.
  intros [(f & s & n & ->) | [(f & records & -> & Hrows) | (f & c & p & m & ->)]].
  - exists sets; split; reflexivity.
  - destruct records as [|row rows].
    + exists sets; split; reflexivity.
    + inversion Hrows as [|? ? [fields ->] _]; subst.
      eexists; split; [| discriminate].
      unfold analyzeResult.
      change (read_prop (JObj [("type", JStr "csv"); ("filename", JStr f);
                               ("data", JArr (JObj fields :: rows))]) "type")
        with (Ok (JStr "csv")).
      cbn [bindR].
      change (is_string (JStr "csv") "spreadsheet" || is_string (JStr "csv") "csv")
        with true.
      change (is_string (JStr "csv") "csv") with true.
      cbv iota.
      change (read_prop (JObj [("type", JStr "csv"); ("filename", JStr f);
                               ("data", JArr (JObj fields :: rows))]) "data")
        with (Ok (JArr (JObj fields :: rows))).
      cbn [bindR].
      change (read_prop (JArr (JObj fields :: rows)) "length")
        with (Ok (JNum (Z.of_nat (S (List.length rows))))).
      cbn [bindR greater_than_zero].
      replace (0 <? Z.of_nat (S (List.length rows)))%Z with true
        by (symmetry; apply Z.ltb_lt; lia).
      change (read_prop (JArr (JObj fields :: rows)) "0") with (Ok (JObj fields)).
      reflexivity.
  - exists sets; split; reflexivity.
Qed.

Lemma analyze_documents docs :
  Forall is_document docs ->
  forall sets,
  exists sets',
    fold_left (fun acc result_ =>
                 let* sets := acc in analyzeResult coerced_positive sets result_)
      docs (Ok sets) = Ok sets'
    /\ (filter (has_type "csv") docs = [] -> sets' = sets).
Proof.
  induction 1 as [|doc rest Hdoc _ IH]; intros sets; [exists sets; split; reflexivity|].
  destruct (analyzeResult_document sets doc Hdoc) as (sets1 & Hstep & Hsame).
  destruct (IH sets1) as (sets2 & Hrun & Hrest).
  exists sets2; cbn [fold_left bindR filter]; rewrite Hstep; split; [exact Hrun|].
  destruct (has_type "csv" doc); [discriminate|].
  intros Hnone; rewrite (Hrest Hnone); now apply Hsame.
Qed.

End CombineProofs.

(** X22.  [combineDataSources] looks for documents of type 'spreadsheet',
    while [processExcel] tags its documents 'excel'.  On documents that come
    from [processFile] (the rows of a CSV document being objects) it does not
    throw, its [spreadsheets] list is always empty, its [csvs] and [pdfs]
    lists are the documents with these tags in their order, [totalRecords]
    stays 0, and a workbook adds nothing to the sets of fields: without a CSV
    document the three sets are empty. *)
Theorem combineDataSources_never_lists_workbooks
    (coerced_positive : value -> bool) (lib : Libraries) (docs : list value) :
  (forall content records,
      csv_parse lib content = Ok records ->
      Forall (fun row => exists fields, row = JObj fields) records) ->
  Forall (fun doc => exists filename buffer,
                       processFile lib filename buffer = Ok doc) docs ->
  exists combined,
    combineDataSources coerced_positive docs = Ok combined
    /\ spreadsheets combined = []
    /\ csvs combined = filter (has_type "csv") docs
    /\ pdfs combined = filter (has_type "pdf") docs
    /\ totalRecords combined = 0%Z
    /\ (csvs combined = [] ->
        commonFields combined = []
        /\ numericalColumns combined = []
        /\ categoricalColumns combined = []).
Proof.
  intros Hrows Hdocs.
  assert (Hkinds : Forall is_document docs).
  { apply Forall_forall; intros doc Hin.
    destruct (proj1 (Forall_forall _ _) Hdocs doc Hin) as (filename & buffer & Hrun).
    exact (processFile_gives_documents lib filename buffer doc Hrows Hrun). }
  destruct (analyze_documents coerced_positive docs Hkinds ([], [], []))
    as ([[common numerical] categorical] & Hfold & Hnone).
  unfold combineDataSources.
  rewrite !(filter_by_type_documents _ docs Hkinds); cbn [bindR].
  rewrite Hfold; cbn [bindR].
  eexists; split; [reflexivity|]; cbn.
  split.
  - clear -Hkinds; induction Hkinds as [|doc rest Hdoc _ IH]; [reflexivity|].
    cbn [filter]; now rewrite (is_document_not_spreadsheet doc Hdoc).
  - split; [reflexivity|]; split; [reflexivity|]; split; [reflexivity|].
    intros Hcsv; specialize (Hnone Hcsv); injection Hnone as -> -> ->; auto.
Qed.

Lemma combineDataSources_never_lists_workbooks_witness :
  exists combined,
    combineDataSources (fun _ => false)
      [JObj [("type", JStr "excel"); ("filename", JStr "Report.XLSX");
             ("sheets", JObj [("Sheet1", JArr [JObj [("region", JStr "north")]])]);
             ("sheetNames", JArr [JStr "Sheet1"])]]
    = Ok combined
    /\ spreadsheets combined = []
    /\ commonFields combined = [].
Proof.
  destruct (combineDataSources_never_lists_workbooks (fun _ => false) Mock.parsers
              [JObj [("type", JStr "excel"); ("filename", JStr "Report.XLSX");
                     ("sheets", JObj [("Sheet1", JArr [JObj [("region", JStr "north")]])]);
                     ("sheetNames", JArr [JStr "Sheet1"])]])
    as (combined & Hrun & Hsheets & Hcsvs & _ & _ & Hfields).
  - intros content records Hparse; cbn in Hparse; injection Hparse as <-.
    repeat constructor; eauto.
  - repeat constructor.
    exists "Report.XLSX", []; vm_compute; reflexivity.
  - exists combined; split; [exact Hrun|]; split; [exact Hsheets|].
    apply Hfields; rewrite Hcsvs; reflexivity.
Defined.

(* ===================================================================== *)
(** ** More on response sanitizing *)
(* ===================================================================== *)

(** [safeParseResponse] by the kind of what [JSON.parse] gives. *)
Lemma safeParseResponse_by_kind J reply :
  safeParseResponse J reply
  = match JSON_parse J (cleanText reply) with
    | Ok (JArr items) => Ok (JArr items)
    | Ok (JObj fields) => Ok (JObj fields)
    | _ => Ok degradedPayload
    end.
Proof.
  unfold safeParseResponse.
  destruct (JSON_parse J (cleanText reply)) as [[ | | b | n | s | items | fields]|e];
    cbn [bindR catchR truthy typeof negb orb]; try reflexivity.
  - destruct b; reflexivity.
  - destruct (n =? 0)%Z; reflexivity.
  - destruct s; reflexivity.
Qed.

(** X23.  What [safeParseResponse] returns is always a truthy value of type
    'object': the parsed object, a parsed array (which passes the validation
    as it is), or the canned payload.  A reply that parses to a number, a
    string, a boolean or null yields the canned payload. *)
Theorem safeParseResponse_returns_an_object (J : JSON) (reply : string) (parsed : value) :
  safeParseResponse J reply = Ok parsed ->
  (truthy parsed = true /\ typeof parsed = "object")
  /\ (forall items,
        JSON_parse J (cleanText reply) = Ok (JArr items) -> parsed = JArr items)
  /\ (forall fields,
        JSON_parse J (cleanText reply) = Ok (JObj fields) -> parsed = JObj fields)
  /\ (forall v,
        JSON_parse J (cleanText reply) = Ok v ->
        typeof v <> "object" \/ v = JNull ->
        parsed = degradedPayload).
Proof.
  rewrite safeParseResponse_by_kind; intros Hrun.
  split; [|split; [|split]].
  - destruct (JSON_parse J (cleanText reply)) as [[ | | b | n | s | items | fields]|e];
      injection Hrun as <-; split; reflexivity.
  - intros items Hparse; rewrite Hparse in Hrun; now injection Hrun as <-.
  - intros fields Hparse; rewrite Hparse in Hrun; now injection Hrun as <-.
  - intros v Hparse Hkind; rewrite Hparse in Hrun.
    destruct v as [ | | b | n | s | items | fields]; injection Hrun as <-;
      try reflexivity; destruct Hkind as [Htype | Hnull];
      try discriminate Hnull; exfalso; apply Htype; reflexivity.
Qed.

Lemma safeParseResponse_returns_an_object_witness :
  truthy Mock.analysisValue = true /\ typeof Mock.analysisValue = "object".
Proof.
  apply (safeParseResponse_returns_an_object Mock.JSON_ok (fenced Mock.analysisText)).
  vm_compute; reflexivity.
Defined.

Lemma fence_match_without_backquote c r :
  has_char "`" (String c r) = false -> fence_match (String c r) = None.
Proof.
  intros Hnone.
  destruct (fence_match (String c r)) as [rest|] eqn:Hmatch; [| reflexivity].
  apply fence_match_head in Hmatch.
  destruct Hmatch as [-> | [-> [t ->]]]; discriminate.
Qed.

(** Without a backquote there is no fence to remove. *)
Lemma removeFences_without_backquote s :
  has_char "`" s = false -> removeFences s = s.
Proof.
  induction s as [|c r IH]; intros Hnone; [reflexivity|].
  rewrite removeFences_step, (fence_match_without_backquote c r Hnone).
  cbn [has_char] in Hnone; apply orb_false_iff in Hnone.
  now rewrite IH.
Qed.

Lemma has_char_app c s t : has_char c (s ++ t) = has_char c s || has_char c t.
Proof.
  induction s as [|a r IH]; cbn [append has_char]; [reflexivity|].
  now rewrite IH, orb_assoc.
Qed.

Lemma all_space_without_backquote s : all_space s = true -> has_char "`" s = false.
Proof.
  induction s as [|c r IH]; cbn [all_space has_char]; [reflexivity|].
  intros H; apply andb_true_iff in H; destruct H as [Hc Hr].
  rewrite (IH Hr), orb_false_r.
  destruct (Ascii.eqb_spec c "`"); [subst c; discriminate | reflexivity].
Qed.

Lemma drop_spaces_app s t : all_space s = true -> drop_spaces (s ++ t) = drop_spaces t.
Proof.
  induction s as [|c r IH]; cbn [append all_space drop_spaces]; [reflexivity|].
  intros H; apply andb_true_iff in H; destruct H as [-> Hr]; now apply IH.
Qed.

Lemma trimClose_trailing t ws :
  all_space ws = true -> trimClose (t ++ String "}" ws) = t ++ "}".
Proof.
  intros Hws; induction t as [|c r IH]; cbn [append trimClose].
  - now rewrite Ascii.eqb_refl, Hws.
  - rewrite all_space_app; cbn [all_space].
    change (is_space "}") with false.
    rewrite andb_false_r, andb_false_r; now rewrite IH.
Qed.

(** X24.  The two [replace] steps on a reply without backquote that consists
    of white space, an opening brace, a body, a closing brace and white
    space: exactly the text from the opening to the closing brace is handed
    to [JSON.parse]. *)
Theorem cleanText_trims_around_braces (before body after : string) :
  all_space before = true ->
  all_space after = true ->
  has_char "`" body = false ->
  cleanText (before ++ "{" ++ body ++ "}" ++ after) = "{" ++ body ++ "}"
  /\ forall J, safeParseResponse J (before ++ "{" ++ body ++ "}" ++ after)
               = safeParseResponse J ("{" ++ body ++ "}").
Proof.
  intros Hbefore Hafter Hbody.
  assert (Hclean : forall b a,
             all_space b = true -> all_space a = true ->
             cleanText (b ++ "{" ++ body ++ "}" ++ a) = "{" ++ body ++ "}").
  { intros b a Hb Ha; unfold cleanText.
    rewrite removeFences_without_backquote.
    - unfold trimOpen; rewrite (drop_spaces_app b _ Hb).
      change (drop_spaces ("{" ++ body ++ "}" ++ a)) with ("{" ++ body ++ "}" ++ a).
      change (strip_prefix "{" ("{" ++ body ++ "}" ++ a)) with (Some (body ++ "}" ++ a)).
      cbv iota.
      change ("{" ++ body ++ "}" ++ a) with (String "{" body ++ String "}" a).
      now rewrite (trimClose_trailing (String "{" body) a Ha).
    - rewrite !has_char_app, Hbody.
      rewrite (all_space_without_backquote b Hb), (all_space_without_backquote a Ha).
      reflexivity. }
  split; [now apply Hclean|].
  intros J; unfold safeParseResponse.
  assert (Hbare : cleanText ("{" ++ body ++ "}") = "{" ++ body ++ "}")
    by exact (Hclean "" "" eq_refl eq_refl).
  now rewrite (Hclean before after Hbefore Hafter), Hbare.
Qed.

Lemma cleanText_trims_around_braces_witness :
  cleanText (String "010" (String " " "{}") ++ "  ") = "{}".
Proof.
  apply (cleanText_trims_around_braces (String "010" " ") "" "  "); reflexivity.
Defined.

Lemma fence_match_after_line_feed reply rest :
  opens_with_brace reply -> fence_match (nl ++ reply ++ rest) = None.
Proof.
  intros Hopen; destruct reply as [|c r]; [destruct Hopen; reflexivity|].
  unfold fence_match, fence_json, fence, nl; cbn [strip_prefix append].
  change (Ascii.eqb "`" "010") with false; rewrite Ascii.eqb_refl; cbv iota.
  destruct (Ascii.eqb "`" c) eqn:Hc; [| reflexivity].
  apply Ascii.eqb_eq in Hc; subst c.
  exfalso; apply Hopen; reflexivity.
Qed.

(** X25.  A fence is recognized as [```json] only where the scan meets its
    backquotes first.  When a line feed comes right before the opening fence,
    the second alternative of the pattern takes the line feed and the three
    backquotes, and the tag "json" stays in the text: the cleaned reply then
    starts with "json" and not with the brace of the object. *)
Theorem fence_after_line_feed_leaves_tag (reply : string) :
  opens_with_brace reply ->
  removeFences (nl ++ fenced reply) = "json" ++ nl ++ removeFences reply
  /\ cleanText (nl ++ fenced reply)
     = "json" ++ nl ++ trimClose (removeFences reply)
  /\ strip_prefix "{" (cleanText (nl ++ fenced reply)) = None.
Proof.
  intros Hopen.
  assert (Hremove : removeFences (nl ++ fenced reply)
                    = "json" ++ nl ++ removeFences reply).
  { unfold fenced.
    rewrite (removeFences_step (nl ++ fence_json ++ nl ++ reply ++ nl ++ fence)).
    change (fence_match (nl ++ fence_json ++ nl ++ reply ++ nl ++ fence))
      with (Some ("json" ++ nl ++ reply ++ nl ++ fence)).
    cbv iota beta.
    change ("json" ++ nl ++ reply ++ nl ++ fence)
      with (String "j" (String "s" (String "o" (String "n"
              (nl ++ reply ++ nl ++ fence))))).
    do 4 (rewrite removeFences_step;
          match goal with
          | |- context [fence_match (String ?c ?r)] =>
              change (fence_match (String c r)) with (@None string)
          end; cbv iota beta).
    rewrite (removeFences_step (nl ++ reply ++ nl ++ fence)).
    rewrite (fence_match_after_line_feed reply (nl ++ fence) Hopen).
    change (nl ++ reply ++ nl ++ fence) with (String "010" (reply ++ nl ++ fence)).
    cbv iota beta; rewrite removeFences_closing; reflexivity. }
  split; [exact Hremove|].
  assert (Hclean : cleanText (nl ++ fenced reply)
                   = "json" ++ nl ++ trimClose (removeFences reply)).
  { unfold cleanText; rewrite Hremove; reflexivity. }
  split; [exact Hclean | rewrite Hclean; reflexivity].
Qed.

Lemma fence_after_line_feed_leaves_tag_witness :
  cleanText (nl ++ fenced "{}") = "json" ++ nl ++ "{}".
Proof.
  rewrite (proj1 (proj2 (fence_after_line_feed_leaves_tag "{}" ltac:(discriminate)))).
  reflexivity.
Defined.

(* ===================================================================== *)
(** ** More on the deep clean *)
(* ===================================================================== *)

Lemma cleanData_typeof data : typeof (cleanData data) = typeof data.
Proof. destruct data; reflexivity. Qed.

Lemma cleanData_not_an_array data items : cleanData data <> JArr items.
Proof. destruct data; discriminate. Qed.

(** What the loop stores for a property that is kept is [cleanData] of its
    value. *)
Lemma clean_entry_kept cleaned key v :
  is_nullish v = false ->
  clean_entry cleaned (key, v) = obj_set cleaned key (cleanData v).
Proof.
  intros Hv; unfold clean_entry; cbn [fst snd]; rewrite Hv.
  destruct v; reflexivity.
Qed.

Lemma clean_entry_dropped cleaned key v :
  is_nullish v = true -> clean_entry cleaned (key, v) = cleaned.
Proof. intros Hv; unfold clean_entry; cbn [fst snd]; now rewrite Hv. Qed.

(** X26.  What [cleanData] returns has the [typeof] of its argument, is never
    an array, and holds null or undefined in no property at any depth; a
    value that is not an object, and null itself, come back as they are. *)
Theorem cleanData_result_shape (data : value) :
  typeof (cleanData data) = typeof data
  /\ (forall items, cleanData data <> JArr items)
  /\ no_nullish_fields (cleanData data) = true
  /\ (typeof data <> "object" \/ data = JNull -> cleanData data = data).
Proof.
  split; [apply cleanData_typeof|].
  split; [apply cleanData_not_an_array|].
  split; [apply cleanData_no_nullish_fields | apply cleanData_scalar].
Qed.

Lemma cleanData_result_shape_witness :
  cleanData (JStr "north") = JStr "north".
Proof.
  apply (proj2 (proj2 (proj2 (cleanData_result_shape (JStr "north"))))).
  left; discriminate.
Defined.





Lemma obj_set_fresh fields key v :
  ~ In key (map fst fields) -> obj_set fields key v = (fields ++ [(key, v)])%list.
Proof.
  induction fields as [|[k w] rest IH]; intros Hnot; [reflexivity|].
  cbn [obj_set]; destruct (String.eqb k key) eqn:Hk.
  - apply String.eqb_eq in Hk; subst k; exfalso; apply Hnot; left; reflexivity.
  - cbn [app]; f_equal; apply IH; intros Hin; apply Hnot; right; exact Hin.
Qed.

Lemma obj_set_keys fields key v :
  map fst (obj_set fields key v)
  = if existsb (String.eqb key) (map fst fields) then map fst fields
    else (map fst fields ++ [key])%list.
Proof.
  induction fields as [|[k w] rest IH]; [reflexivity|].
  cbn [obj_set map fst existsb]; rewrite (String.eqb_sym key k).
  destruct (String.eqb k key); cbn [orb map fst]; [reflexivity|].
  rewrite IH; destruct (existsb (String.eqb key) (map fst rest)); reflexivity.
Qed.

Lemma obj_set_NoDup fields key v :
  NoDup (map fst fields) -> NoDup (map fst (obj_set fields key v)).
Proof.
  intros Hnodup; rewrite obj_set_keys.
  destruct (existsb (String.eqb key) (map fst fields)) eqn:Hmem; [exact Hnodup|].
  apply NoDup_app; [exact Hnodup | repeat constructor; intros [] |].
  intros k Hin [Hk|[]]; subst k.
  assert (Hex : existsb (String.eqb key) (map fst fields) = true)
    by (apply existsb_exists; exists key; split; [exact Hin | apply String.eqb_refl]).
  congruence.
Qed.

Lemma clean_fold_settled entries :
  Forall (fun kv => cleanData (cleanData (snd kv)) = cleanData (snd kv)) entries ->
  forall cleaned,
    NoDup (map fst cleaned) ->
    Forall (fun kv => is_nullish (snd kv) = false
                      /\ cleanData (snd kv) = snd kv) cleaned ->
    NoDup (map fst (fold_left clean_entry entries cleaned))
    /\ Forall (fun kv => is_nullish (snd kv) = false
                         /\ cleanData (snd kv) = snd kv)
         (fold_left clean_entry entries cleaned).
Proof.
  induction 1 as [|[k v] rest Hv _ IH]; intros cleaned Hnodup Hall; [auto|].
  cbn [fold_left]; cbn [snd] in Hv.
  destruct (is_nullish v) eqn:Hnullish.
  - rewrite clean_entry_dropped by exact Hnullish; auto.
  - rewrite clean_entry_kept by exact Hnullish; apply IH.
    + apply obj_set_NoDup, Hnodup.
    + apply (obj_set_Forall (fun w => is_nullish w = false /\ cleanData w = w));
        [exact Hall|].
      split; [destruct v; (reflexivity || discriminate) | exact Hv].
Qed.

Lemma clean_fold_rebuilds fields :
  Forall (fun kv => is_nullish (snd kv) = false /\ cleanData (snd kv) = snd kv) fields ->
  forall cleaned,
    NoDup (map fst (cleaned ++ fields)) ->
    fold_left clean_entry fields cleaned = (cleaned ++ fields)%list.
Proof.
  induction 1 as [|[k v] rest [Hnullish Hv] _ IH]; intros cleaned Hnodup.
  - now rewrite app_nil_r.
  - cbn [snd] in *; cbn [fold_left].
    rewrite clean_entry_kept by exact Hnullish; rewrite Hv.
    assert (Hsplit : (cleaned ++ (k, v) :: rest = (cleaned ++ [(k, v)]) ++ rest)%list)
      by (now rewrite <- app_assoc).
    rewrite Hsplit in *.
    rewrite obj_set_fresh, IH; [reflexivity | exact Hnodup |].
    rewrite map_app in Hnodup; apply NoDup_app_remove_r in Hnodup.
    rewrite map_app in Hnodup; cbn [map fst] in Hnodup.
    intros Hin; apply NoDup_remove_2 in Hnodup; apply Hnodup.
    now rewrite app_nil_r.
Qed.

Lemma cleanData_twice data : cleanData (cleanData data) = cleanData data.
Proof.
  induction data as [ | | b | n | s | items IH | fields IH] using value_induction;
    try reflexivity.
  - rewrite (cleanData_entries (JArr items)) by (reflexivity || discriminate).
    assert (Hentries : Forall (fun kv => cleanData (cleanData (snd kv)) = cleanData (snd kv))
                         (Object_entries (JArr items))).
    { cbn [Object_entries]; generalize 0 as i.
      induction IH as [|v vs Hv _ IHvs]; intros i; [constructor | cbn; constructor; auto]. }
    destruct (clean_fold_settled _ Hentries [] (NoDup_nil _) (Forall_nil _))
      as [Hnodup Hall].
    rewrite (cleanData_entries (JObj _)) by (reflexivity || discriminate).
    cbn [Object_entries] in *; f_equal.
    exact (clean_fold_rebuilds _ Hall [] Hnodup).
  - rewrite (cleanData_entries (JObj fields)) by (reflexivity || discriminate).
    destruct (clean_fold_settled _ IH [] (NoDup_nil _) (Forall_nil _))
      as [Hnodup Hall].
    rewrite (cleanData_entries (JObj _)) by (reflexivity || discriminate).
    cbn [Object_entries] in *; f_equal.
    exact (clean_fold_rebuilds _ Hall [] Hnodup).
Qed.

(** X28.  Cleaning is idempotent: cleaning an already cleaned value changes
    nothing, and so [formatData] serializes the same value for an object and
    for its cleaned form. *)
Theorem cleanData_idempotent :
  (forall data, cleanData (cleanData data) = cleanData data)
  /\ (forall J fields,
        formatData J (cleanData (JObj fields)) = formatData J (JObj fields)).
Proof.
  split; [exact cleanData_twice|].
  intros J fields; unfold formatData.
  pose proof (cleanData_twice (JObj fields)) as Hfix.
  destruct (cleanData (JObj fields)) eqn:Hclean; try discriminate Hclean.
  rewrite Hfix; reflexivity.
Qed.

(* ===================================================================== *)
(** ** The size of a prompt *)
(* ===================================================================== *)

Lemma buildPrompt_length data sectionKey metric :
  String.length (buildPrompt data sectionKey [metric])
  = String.length data + String.length sectionKey + 2 * String.length metric + 501.
Proof.
  unfold buildPrompt, join, quoted, nl, dq; cbn [String.concat hd].
  repeat rewrite append_length; cbn [String.length]; lia.
Qed.

Lemma truncateData_length data :
  String.length (truncateData data) <= maxChunkSize + 3.
Proof.
  destruct (Nat.le_gt_cases (String.length data) maxChunkSize) as [Hshort|Hlong].
  - rewrite truncateData_short by exact Hshort; lia.
  - rewrite truncateData_long by exact Hlong.
    rewrite append_length, take_length; cbn [String.length]; lia.
Qed.

(** X29.  The size of the prompt [processMetric] sends: the fixed text of the
    template (501 code units), the name of the tier, the metric name twice
    (in the list of required metrics and as the key of the expected
    structure) and the truncated chunk.  Whatever the size of the document,
    the prompt has at most 25000 + 511 code units beside the metric name. *)
Theorem prompt_size_bound (chunk : string) (type : tier) (metric : string) :
  String.length (promptFor chunk type metric)
  = String.length (truncateData chunk) + String.length (tier_name type)
    + 2 * String.length metric + 501
  /\ String.length (promptFor chunk type metric)
     <= maxChunkSize + 511 + 2 * String.length metric.
Proof.
  unfold promptFor; rewrite buildPrompt_length.
  split; [reflexivity|].
  pose proof (truncateData_length chunk) as Hchunk.
  assert (Htier : String.length (tier_name type) <= 7) by (destruct type; cbn; lia).
  lia.
Qed.

(* ===================================================================== *)
(** ** What the combining step throws on *)
(* ===================================================================== *)

Section CombineThrows.
Variable coerced_positive : value -> bool.

Lemma analyzeResult_sheets_by_name sets fields sheets :
  obj_get fields "type" = Some (JStr "spreadsheet") ->
  obj_get fields "sheets" = Some (JObj sheets) ->
  obj_get sheets "0" = None ->
  analyzeResult coerced_positive sets (JObj fields) = Throw (TypeError "undefined" "data").
Proof.
  intros Htype Hsheets Hfirst; unfold analyzeResult, read_prop; cbn [get_prop].
  rewrite Htype; cbn [bindR].
  change (is_string (JStr "spreadsheet") "spreadsheet" || is_string (JStr "spreadsheet") "csv")
    with true.
  change (is_string (JStr "spreadsheet") "csv") with false; cbv iota.
  rewrite Hsheets; cbn [bindR get_prop]; rewrite Hfirst; reflexivity.
Qed.

Lemma analyze_fold_throws doc results :
  (forall sets, exists e, analyzeResult coerced_positive sets doc = Throw e) ->
  In doc results ->
  forall acc,
    exists e,
      fold_left (fun acc result_ =>
                   let* sets := acc in analyzeResult coerced_positive sets result_)
        results acc = Throw e.
Proof.
  intros Hdoc; induction results as [|r rest IH]; intros Hin acc; [destruct Hin|].
  cbn [fold_left]; destruct Hin as [-> | Hin]; [| now apply IH].
  destruct acc as [sets|e]; cbn [bindR].
  - destruct (Hdoc sets) as [e ->]; exists e.
    now apply fold_result_Throw.
  - exists e; now apply fold_result_Throw.
Qed.

Lemma filter_by_type_nullish tag results :
  In JNull results \/ In JUndefined results ->
  exists e, filter_by_type tag results = Throw e.
Proof.
  induction results as [|r rest IH]; intros Hin; [destruct Hin as [[]|[]]|].
  cbn [filter_by_type].
  destruct r; try (cbn [read_prop bindR]; eauto; fail);
    cbn [read_prop bindR];
    (destruct IH as [e ->];
     [destruct Hin as [[Hr|Hin]|[Hr|Hin]]; try discriminate Hr; auto
     | cbn [bindR]; eauto]).
Qed.

End CombineThrows.

(** X30.  [combineDataSources] is not guarded.  It reads [sheets[0]] of a
    document tagged 'spreadsheet', while the parser keys the sheets by their
    names: on a document whose sheets have no property "0", reading [.data]
    of undefined throws a TypeError, and any list that holds such a document
    makes the call throw.  A list that holds null or undefined throws as
    well, at the first [r.type]. *)
Theorem combineDataSources_throws
    (coerced_positive : value -> bool) (fields sheets : list (string * value)) :
  obj_get fields "type" = Some (JStr "spreadsheet") ->
  obj_get fields "sheets" = Some (JObj sheets) ->
  obj_get sheets "0" = None ->
  combineDataSources coerced_positive [JObj fields]
  = Throw (TypeError "undefined" "data")
  /\ (forall results,
        In (JObj fields) results ->
        exists e, combineDataSources coerced_positive results = Throw e)
  /\ (forall results,
        In JNull results \/ In JUndefined results ->
        exists e, combineDataSources coerced_positive results = Throw e).
Proof.
  intros Htype Hsheets Hfirst.
  assert (Hdoc : forall sets,
             analyzeResult coerced_positive sets (JObj fields)
             = Throw (TypeError "undefined" "data"))
    by (intros sets; now apply analyzeResult_sheets_by_name with (sheets := sheets)).
  split; [| split].
  - unfold combineDataSources; cbn [filter_by_type read_prop bindR fold_left].
    rewrite Hdoc; reflexivity.
  - intros results Hin; unfold combineDataSources.
    destruct (filter_by_type "spreadsheet" results) as [s|e]; cbn [bindR]; [| eauto].
    destruct (filter_by_type "csv" results) as [c|e]; cbn [bindR]; [| eauto].
    destruct (filter_by_type "pdf" results) as [p|e]; cbn [bindR]; [| eauto].
    destruct (analyze_fold_throws coerced_positive (JObj fields) results
                (fun sets => ex_intro _ _ (Hdoc sets)) Hin (Ok ([], [], [])))
      as [e ->].
    cbn [bindR]; eauto.
  - intros results Hin; unfold combineDataSources.
    destruct (filter_by_type_nullish "spreadsheet" results Hin) as [e ->].
    cbn [bindR]; eauto.
Qed.

Lemma combineDataSources_throws_witness :
  combineDataSources (fun _ => false)
    [JObj [("type", JStr "spreadsheet"); ("filename", JStr "Report.xlsx");
           ("sheets", JObj [("Sheet1", JArr [JObj [("region", JStr "north")]])]);
           ("sheetNames", JArr [JStr "Sheet1"])]]
  = Throw (TypeError "undefined" "data").
Proof.
  apply (proj1 (combineDataSources_throws (fun _ => false)
                  [("type", JStr "spreadsheet"); ("filename", JStr "Report.xlsx");
                   ("sheets", JObj [("Sheet1", JArr [JObj [("region", JStr "north")]])]);
                   ("sheetNames", JArr [JStr "Sheet1"])]
                  [("Sheet1", JArr [JObj [("region", JStr "north")]])]
                  eq_refl eq_refl eq_refl)).
Defined.
